(** * Statement ingestion pipeline of wallet-backend: a shallow embedding

    The development follows the TypeScript sources:
    - [services/statement-parser.service.ts]: [parseCSVStatement],
      [parsePDFStatement], [normalizeTransactionData], [detectDuplicates],
      [findColumnIndex], [parseCSVLine], [parseDate];
    - [services/transaction.service.ts]: [generateDuplicateHash],
      [checkDuplicates], [createTransaction], [createTransactions],
      [updateTransaction], [deleteTransaction], [restoreTransaction];
    - [services/account.service.ts]: [getBankAccountById],
      [updateBankAccountBalance];
    - [controllers/statement.controller.ts]: [uploadStatementHandler],
      [parseStatementHandler], [getParsedTransactionsHandler],
      [editParsedTransactionHandler], [confirmParsedTransactionsHandler];
    - [models/Transaction.model.ts], [models/BankStatement.model.ts]: the
      schema constraints that [save] enforces.

    Conventions of the embedding.
    - Strings are sequences of ASCII characters.
    - A JavaScript number is [NaN], an infinity, or the rational value of a
      finite IEEE double, kept in lowest terms ([JSNum]); a literal and a sum
      are rounded to the nearest double, a tie to the even significand
      ([toDouble]).  The sign of a zero is not kept.
    - A [Date] is its time value, milliseconds since the epoch ([JSDate]);
      only valid dates are stored.
    - Whatever the sources take from their platform is a field of the class
      [Engine]: what ECMAScript leaves to the implementation (the local time
      zone, the generic [Date] string parser), the cast of a string to an
      ObjectId by Mongoose, and the text extraction of pdf-parse.
    - An ObjectId is its canonical string; a collection is keyed by it.  The
      [userId] of a request is the string that the authentication middleware
      took from the token, the same for every request of a user.
    - The SHA-256 digest is symbolic: a digest is represented by the message
      it was computed from, so that two digests are equal exactly when their
      messages are (collision freedom is idealised).
    - async functions become state-passing functions over [World]; a thrown
      error is a value of a sum type.
    - A collection stores the documents as the services and handlers build
      them, subject to the casts, validators and setters that its schema
      declares ([required], [min], [enum], [trim], [uppercase], [default]);
      a path that the schema does not declare is not stored. *)

From Stdlib Require Import ZArith QArith Qabs Qreduction Lia List Ascii String Bool.
From Stdlib Require Import Numbers.DecimalString Numbers.DecimalNat.
From stdpp Require Import gmap strings list fin_maps.

Set Default Proof Using "Type".
Local Open Scope string_scope.
Local Open Scope list_scope.

(** ** ECMAScript primitives *)

Module JS.

(** *** Characters and strings *)

Definition code (c : ascii) : nat := nat_of_ascii c.

(** [\s] and the characters [String.prototype.trim] strips (ASCII part). *)
Definition isWhiteSpace (c : ascii) : bool :=
  (code c =? 32)%nat || ((9 <=? code c)%nat && (code c <=? 13)%nat).

(** [\d] *)
Definition isDigit (c : ascii) : bool :=
  (48 <=? code c)%nat && (code c <=? 57)%nat.

(** [.] without the [s] flag: anything but a line terminator. *)
Definition isDot (c : ascii) : bool :=
  negb ((code c =? 10)%nat || (code c =? 13)%nat).

Definition isUpper (c : ascii) : bool :=
  (65 <=? code c)%nat && (code c <=? 90)%nat.

Definition lowerChar (c : ascii) : ascii :=
  if isUpper c then ascii_of_nat (code c + 32) else c.

Fixpoint toLowerCase (s : string) : string :=
  match s with
  | EmptyString => EmptyString
  | String c s' => String (lowerChar c) (toLowerCase s')
  end.

Definition isLower (c : ascii) : bool :=
  (97 <=? code c)%nat && (code c <=? 122)%nat.

Definition upperChar (c : ascii) : ascii :=
  if isLower c then ascii_of_nat (code c - 32) else c.

Fixpoint toUpperCase (s : string) : string :=
  match s with
  | EmptyString => EmptyString
  | String c s' => String (upperChar c) (toUpperCase s')
  end.

Fixpoint trimStart (s : string) : string :=
  match s with
  | EmptyString => EmptyString
  | String c s' => if isWhiteSpace c then trimStart s' else s
  end.

Fixpoint trimEnd (s : string) : string :=
  match s with
  | EmptyString => EmptyString
  | String c s' =>
      match trimEnd s' with
      | EmptyString => if isWhiteSpace c then EmptyString else String c EmptyString
      | t => String c t
      end
  end.

Definition trim (s : string) : string := trimEnd (trimStart s).

(** [s.split(sep)] for a one-character separator; the result is never
    empty: [''.split(',')] is [['']]. *)
Fixpoint split (sep : ascii) (s : string) : list string :=
  match s with
  | EmptyString => [EmptyString]
  | String c s' =>
      if Ascii.eqb c sep then EmptyString :: split sep s'
      else match split sep s' with
           | h :: t => String c h :: t
           | [] => [String c EmptyString]
           end
  end.

(** [hay.includes(needle)] *)
Fixpoint includes (hay needle : string) : bool :=
  String.prefix needle hay ||
  match hay with
  | EmptyString => false
  | String _ hay' => includes hay' needle
  end.

(** [s.substring(0, n)] *)
Fixpoint substring0 (n : nat) (s : string) : string :=
  match n, s with
  | S n', String c s' => String c (substring0 n' s')
  | _, _ => EmptyString
  end.

(** [s.replace(/[^...]/g, '')]: keep the characters of the class. *)
Fixpoint keepChars (p : ascii -> bool) (s : string) : string :=
  match s with
  | EmptyString => EmptyString
  | String c s' => if p c then String c (keepChars p s') else keepChars p s'
  end.

(** A string in a condition: [''] is falsy. *)
Definition truthy (s : string) : bool :=
  match s with EmptyString => false | _ => true end.

Fixpoint zeros (n : nat) : string :=
  match n with
  | O => EmptyString
  | S n' => String "0" (zeros n')
  end.

Definition natToString (n : nat) : string := NilZero.string_of_uint (Nat.to_uint n).

Definition ZToString (z : Z) : string := NilZero.string_of_int (Z.to_int z).


(** *** Numbers *)

Inductive JSNum :=
| NaN
| Inf (negative : bool)
| Num (q : Q).

Definition ofZ (z : Z) : JSNum := Num (z # 1).

(** [n / d] rounded to the nearest integer, a tie to the even one
    ([0 <= n], [0 < d]). *)
Definition roundHalfEven (n d : Z) : Z :=
  let q := (n / d)%Z in
  match (2 * (n mod d) ?= d)%Z with
  | Lt => q
  | Gt => (q + 1)%Z
  | Eq => if Z.even q then q else (q + 1)%Z
  end.

(** [n / d / 2^e] as a fraction. *)
Definition scaled (n d e : Z) : Z * Z :=
  if (0 <=? e)%Z then (n, d * 2 ^ e)%Z else (n * 2 ^ (- e), d)%Z.

(** The exponent [e] of the double nearest to [n / d]: the one with
    [2^52 <= n / d / 2^e < 2^53], and not below the exponent of the
    subnormal numbers. *)
Definition exponentOf (n d : Z) : Z :=
  let e1 := (Z.log2 n - Z.log2 d - 52)%Z in
  let e2 := if (fst (scaled n d e1) <? 2 ^ 52 * snd (scaled n d e1))%Z then (e1 - 1)%Z else e1 in
  Z.max e2 (-1074).

(** The Number value for the real [q]: the double nearest to it, a tie
    going to the even significand; beyond the largest double an infinity.
    The sign of a zero is not kept. *)
Definition toDouble (q : Q) : JSNum :=
  let n := Z.abs (Qnum q) in
  let d := Zpos (Qden q) in
  if (n =? 0)%Z then Num 0 else
  let e := exponentOf n d in
  let m := roundHalfEven (fst (scaled n d e)) (snd (scaled n d e)) in
  if ((971 <? e) || ((e =? 971) && (m =? 2 ^ 53)))%Z then Inf (Qnum q <? 0)%Z
  else
    let v := if (0 <=? e)%Z then (m * 2 ^ e)%Z # 1 else m # Z.to_pos (2 ^ (- e)) in
    Num (Qred (if (Qnum q <? 0)%Z then (- v)%Q else v)).

Definition isNaN (x : JSNum) : bool :=
  match x with NaN => true | _ => false end.

(** [x === 0] *)
Definition isZero (x : JSNum) : bool :=
  match x with Num q => Qeq_bool q 0 | _ => false end.

(** [x > 0] and [x >= 0] *)
Definition gt0 (x : JSNum) : bool :=
  match x with
  | NaN => false
  | Inf negative => negb negative
  | Num q => (0 <? Qnum q)%Z
  end.

Definition ge0 (x : JSNum) : bool :=
  match x with
  | NaN => false
  | Inf negative => negb negative
  | Num q => (0 <=? Qnum q)%Z
  end.

(** [x < 0] *)
Definition lt0 (x : JSNum) : bool :=
  match x with
  | NaN => false
  | Inf negative => negative
  | Num q => (Qnum q <? 0)%Z
  end.

(** [Math.abs] *)
Definition abs (x : JSNum) : JSNum :=
  match x with
  | NaN => NaN
  | Inf _ => Inf false
  | Num q => Num (Qabs q)
  end.

Definition neg (x : JSNum) : JSNum :=
  match x with
  | NaN => NaN
  | Inf negative => Inf (negb negative)
  | Num q => Num (Qopp q)
  end.

Definition add (x y : JSNum) : JSNum :=
  match x, y with
  | NaN, _ | _, NaN => NaN
  | Inf a, Inf b => if Bool.eqb a b then Inf a else NaN
  | Inf a, Num _ | Num _, Inf a => Inf a
  | Num p, Num q => toDouble (p + q)
  end.

Definition sub (x y : JSNum) : JSNum := add x (neg y).

Fixpoint takeDigits (s : string) : string * string :=
  match s with
  | String c s' =>
      if isDigit c then let '(d, r) := takeDigits s' in (String c d, r)
      else (EmptyString, s)
  | EmptyString => (EmptyString, EmptyString)
  end.

Definition digitVal (c : ascii) : Z := Z.of_nat (code c - 48).

Fixpoint digitsValue (acc : Z) (s : string) : Z :=
  match s with
  | EmptyString => acc
  | String c s' => digitsValue (10 * acc + digitVal c) s'
  end.

Definition takeSign (s : string) : bool * string :=
  match s with
  | String "-" s' => (true, s')
  | String "+" s' => (false, s')
  | _ => (false, s)
  end.

(** The exponent part of a decimal literal, when one is there. *)
Definition takeExponent (s : string) : Z :=
  match s with
  | String c s' =>
      if Ascii.eqb (lowerChar c) "e" then
        let '(negative, s'') := takeSign s' in
        let '(d, _) := takeDigits s'' in
        match d with
        | EmptyString => 0
        | _ => if negative then - digitsValue 0 d else digitsValue 0 d
        end
      else 0
  | EmptyString => 0
  end%Z.

(** [parseFloat]: skip leading white space, then read the longest prefix
    that is a decimal literal, rounded to a double; [NaN] when there is
    none. *)
Definition parseFloat (s : string) : JSNum :=
  let '(negative, s1) := takeSign (trimStart s) in
  if String.prefix "Infinity" s1 then Inf negative
  else
    let '(ip, s2) := takeDigits s1 in
    let '(fp, s3) :=
      match s2 with
      | String "." s2' => takeDigits s2'
      | _ => (EmptyString, s2)
      end in
    match String.append ip fp with
    | EmptyString => NaN
    | ds =>
        let m := digitsValue 0 ds in
        let m := if negative then (- m)%Z else m in
        let e := (takeExponent s3 - Z.of_nat (String.length fp))%Z in
        if (0 <=? e)%Z then toDouble ((m * 10 ^ e)%Z # 1)
        else toDouble (m # Z.to_pos (10 ^ (- e)))
    end.

(** [parseInt] in radix 10 ([None] is [NaN]).  The callers pass regex
    groups made of decimal digits or of letters, so the hexadecimal prefix
    is not modelled. *)
Definition parseInt (s : string) : option Z :=
  let '(negative, s1) := takeSign (trimStart s) in
  let '(d, _) := takeDigits s1 in
  match d with
  | EmptyString => None
  | _ => Some (if negative then - digitsValue 0 d else digitsValue 0 d)%Z
  end.

Definition pow10 (e : Z) : Q :=
  if (0 <=? e)%Z then (10 ^ e)%Z # 1 else 1 # Z.to_pos (10 ^ (- e)).

(** floor of a non-negative rational *)
Definition Qfloor' (q : Q) : Z := (Qnum q / Zpos (Qden q))%Z.

Definition Qltb (p q : Q) : bool := (Qnum p * Zpos (Qden q) <? Qnum q * Zpos (Qden p))%Z.
Definition Qleb (p q : Q) : bool := (Qnum p * Zpos (Qden q) <=? Qnum q * Zpos (Qden p))%Z.

Fixpoint raise (fuel : nat) (v : Q) (n : Z) : Z :=
  match fuel with
  | O => n
  | S fuel' => if Qleb (pow10 n) v then raise fuel' v (n + 1)%Z else n
  end.

Fixpoint lower (fuel : nat) (v : Q) (n : Z) : Z :=
  match fuel with
  | O => n
  | S fuel' => if Qltb v (pow10 (n - 1)) then lower fuel' v (n - 1)%Z else n
  end.

(** The [n] with [10^(n-1) <= v < 10^n], for [0 < v]. *)
Definition decimalExponent (v : Q) : Z :=
  let guess := ((Z.log2 (Qnum v) - Z.log2 (Zpos (Qden v))) * 30103 / 100000)%Z in
  lower 8 v (raise 8 v guess).

(** The decimal [s * 10^(n-k)] with the fewest digits [k] that the Number
    value is [x]; of two with [k] digits, the one nearer to [v]. *)
Fixpoint shortest (fuel : nat) (k : Z) (v : Q) (n : Z) : Z * Z * Z :=
  let lo := Qfloor' (v * pow10 (k - n))%Q in
  let hi := (lo + 1)%Z in
  let value (s : Z) : Q := ((s # 1) * pow10 (n - k))%Q in
  let okLo := match toDouble (value lo), toDouble v with
              | Num a, Num b => Qeq_bool a b | _, _ => false end in
  let okHi := match toDouble (value hi), toDouble v with
              | Num a, Num b => Qeq_bool a b | _, _ => false end in
  let nearerLo := Qleb (v - value lo)%Q (value hi - v)%Q in
  let pick (s : Z) : Z * Z * Z :=
    if (s =? 10 ^ k)%Z then ((10 ^ (k - 1))%Z, k, (n + 1)%Z) else (s, k, n) in
  match fuel with
  | O => pick lo
  | S fuel' =>
      if okLo && (nearerLo || negb okHi) then pick lo
      else if okHi then pick hi
      else shortest fuel' (k + 1)%Z v n
  end.

(** [Number::toString] in radix 10. *)
Definition numberToString (x : JSNum) : string :=
  match x with
  | NaN => "NaN"
  | Inf negative => if negative then "-Infinity" else "Infinity"
  | Num q =>
      if (Qnum q =? 0)%Z then "0" else
      let v := Qabs q in
      let '(s, k, n) := shortest 20 1 v (decimalExponent v) in
      let digits := ZToString s in
      let kn := Z.to_nat k in
      let body :=
        if ((k <=? n) && (n <=? 21))%Z then String.append digits (zeros (Z.to_nat (n - k)))
        else if ((0 <? n) && (n <=? 21))%Z then
          String.append (substring0 (Z.to_nat n) digits)
            (String.append "." (String.substring (Z.to_nat n) (kn - Z.to_nat n) digits))
        else if ((-6 <? n) && (n <=? 0))%Z then
          String.append "0." (String.append (zeros (Z.to_nat (- n))) digits)
        else
          let e := (n - 1)%Z in
          let exponent :=
            String.append (if (e <? 0)%Z then "e-" else "e+") (ZToString (Z.abs e)) in
          if (k =? 1)%Z then String.append digits exponent
          else String.append (substring0 1 digits)
                 (String.append "." (String.append (String.substring 1 (kn - 1) digits) exponent)) in
      if (Qnum q <? 0)%Z then String.append "-" body else body
  end.

(** *** Dates *)

(** A [Date] object: its time value, milliseconds since the epoch; [None]
    is the time value [NaN] of an invalid date. *)
Record JSDate := mkDate { timeValue : option Z }.

Definition validDate (t : Z) : JSDate := mkDate (Some t).
Definition invalidDate : JSDate := mkDate None.

Definition isValidDate (d : JSDate) : bool :=
  match timeValue d with Some _ => true | None => false end.

Definition msPerDay : Z := 86400000.

(** Day number of the civil date [y]-[m]-[d] ([m] from 1). *)
Definition daysFromCivil (y m d : Z) : Z :=
  (let y' := if m <=? 2 then y - 1 else y in
   let era := y' / 400 in
   let yoe := y' - era * 400 in
   let mp := (m + 9) mod 12 in
   let doy := (153 * mp + 2) / 5 + d - 1 in
   let doe := yoe * 365 + yoe / 4 - yoe / 100 + doy in
   era * 146097 + doe - 719468)%Z.

(** The civil date of a day number. *)
Definition civilFromDays (z : Z) : Z * Z * Z :=
  (let z := z + 719468 in
   let era := z / 146097 in
   let doe := z - era * 146097 in
   let yoe := (doe - doe / 1460 + doe / 36524 - doe / 146096) / 365 in
   let doy := doe - (365 * yoe + yoe / 4 - yoe / 100) in
   let mp := (5 * doy + 2) / 153 in
   let d := doy - (153 * mp + 2) / 5 + 1 in
   let m := if mp <? 10 then mp + 3 else mp - 9 in
   let y := yoe + era * 400 in
   ((if m <=? 2 then y + 1 else y), m, d))%Z.

(** ECMAScript's MakeDay: month index from 0, month and day may overflow. *)
Definition MakeDay (year month date : Z) : Z :=
  (daysFromCivil (year + month / 12) (month mod 12 + 1) 1 + date - 1)%Z.

(** [s.padStart(width, '0')] *)
Definition padStart0 (width : nat) (s : string) : string :=
  String.append (zeros (width - String.length s)) s.

(** [toISOString()]: the UTC fields of the time value; [None] is the
    [RangeError] thrown for an invalid date. *)
Definition toISOString (d : JSDate) : option string :=
  match timeValue d with
  | None => None
  | Some t =>
      let '(y, m, dd) := civilFromDays (t / msPerDay) in
      let ms := (t mod msPerDay)%Z in
      let two (z : Z) := padStart0 2 (ZToString z) in
      let year :=
        if ((0 <=? y) && (y <=? 9999))%Z then padStart0 4 (ZToString y)
        else String.append (if (y <? 0)%Z then "-" else "+") (padStart0 6 (ZToString (Z.abs y))) in
      Some (String.concat ""
        [year; "-"; two m; "-"; two dd; "T";
         two (ms / 3600000)%Z; ":"; two ((ms / 60000) mod 60)%Z; ":";
         two ((ms / 1000) mod 60)%Z; "."; padStart0 3 (ZToString (ms mod 1000)%Z); "Z"])
  end.

(** What the sources take from their platform: the implementation-defined
    parts of ECMAScript and two library functions. *)
Class Engine := {
  (** offset of local time from UTC, in milliseconds *)
  LocalTZA : Z;
  (** [new Date(string)], possibly an invalid date *)
  Date_parse : string -> JSDate;
  (** Mongoose's cast of a string to an ObjectId: the canonical string of
      the ObjectId, [None] when the cast fails *)
  castObjectId : string -> option string;
  (** [pdfParse(dataBuffer)] of pdf-parse: the [text] of its result, or the
      message of the error it throws *)
  pdfParse : string -> string + string
}.

(** TimeClip *)
Definition timeClip (t : Z) : JSDate :=
  if (Z.abs t <=? 8640000000000000)%Z then validDate t else invalidDate.

(** [new Date(year, monthIndex, day)]: local midnight; a year from 0 to 99
    counts from 1900; a [NaN] argument ([None]) gives an invalid date. *)
Definition newDate `{eng : Engine} (year month day : option Z) : JSDate :=
  match year, month, day with
  | Some year, Some month, Some day =>
      let yr := if ((0 <=? year) && (year <=? 99))%Z then (1900 + year)%Z else year in
      timeClip (MakeDay yr month day * msPerDay - LocalTZA)%Z
  | _, _, _ => invalidDate
  end.

(** *** Regular expressions

    A backtracking matcher in continuation-passing style, with the
    priorities of ECMAScript: alternatives left to right, greedy
    quantifiers longest first, lazy ones shortest first, and the leftmost
    start position wins.  The bodies of the quantifiers used here consume a
    character per iteration, so the length of the input bounds an unbounded
    quantifier. *)

Inductive regex :=
| Chr (p : ascii -> bool)
| Eps
| Seq (r1 r2 : regex)
| Alt (r1 r2 : regex)
| Rep (greedy : bool) (lo : nat) (hi : option nat) (r : regex)
| Grp (i : nat) (r : regex).

Definition captures := list (nat * string).
Definition cont := string -> captures -> option (string * captures).
Definition matcher := string -> captures -> cont -> option (string * captures).

Definition orElse {A} (x : option A) (y : unit -> option A) : option A :=
  match x with Some a => Some a | None => y tt end.

Fixpoint atLeast (step : matcher) (lo : nat) : matcher :=
  fun s c k =>
    match lo with
    | O => k s c
    | S n => step s c (fun s' c' => atLeast step n s' c' k)
    end.

Fixpoint upTo (greedy : bool) (step : matcher) (extra : nat) : matcher :=
  fun s c k =>
    match extra with
    | O => k s c
    | S n =>
        if greedy
        then orElse (step s c (fun s' c' => upTo greedy step n s' c' k)) (fun _ => k s c)
        else orElse (k s c) (fun _ => step s c (fun s' c' => upTo greedy step n s' c' k))
    end.

(** The part of [s] read before reaching its suffix [s']. *)
Definition consumed (s s' : string) : string :=
  substring0 (String.length s - String.length s') s.

Fixpoint run (r : regex) : matcher :=
  fun s c k =>
    match r with
    | Chr p =>
        match s with
        | String a s' => if p a then k s' c else None
        | EmptyString => None
        end
    | Eps => k s c
    | Seq r1 r2 => run r1 s c (fun s' c' => run r2 s' c' k)
    | Alt r1 r2 => orElse (run r1 s c k) (fun _ => run r2 s c k)
    | Rep greedy lo hi r' =>
        let extra := match hi with Some h => h - lo | None => String.length s end in
        atLeast (run r') lo s c (fun s' c' => upTo greedy (run r') extra s' c' k)
    | Grp i r' => run r' s c (fun s' c' => k s' ((i, consumed s s') :: c'))
    end.

(** The result array of [String.prototype.match] without the [g] flag. *)
Record MatchResult := { whole : string; groups : captures }.

Fixpoint assoc (i : nat) (c : captures) : option string :=
  match c with
  | [] => None
  | (j, v) :: c' => if (i =? j)%nat then Some v else assoc i c'
  end.

(** [match[i]]; [None] is [undefined]. *)
Definition group (m : MatchResult) (i : nat) : option string :=
  match i with
  | O => Some (whole m)
  | _ => assoc i (groups m)
  end.

Fixpoint exec (r : regex) (s : string) : option MatchResult :=
  match run r s [] (fun s' c => Some (s', c)) with
  | Some (s', c) => Some {| whole := consumed s s'; groups := c |}
  | None =>
      match s with
      | String _ t => exec r t
      | EmptyString => None
      end
  end.

Definition seqs (rs : list regex) : regex := fold_right Seq Eps rs.
Definition alts (rs : list regex) : regex :=
  match rs with
  | [] => Chr (fun _ => false)
  | r :: rs' => fold_left Alt rs' r
  end.

Definition digit : regex := Chr isDigit.
Definition space : regex := Chr isWhiteSpace.
Definition dot : regex := Chr isDot.
Definition oneOf (cs : string) : regex :=
  Chr (fun c => existsb (Ascii.eqb c) (list_ascii_of_string cs)).
Definition rep (lo hi : nat) (r : regex) : regex := Rep true lo (Some hi) r.
Definition plus (r : regex) : regex := Rep true 1 None r.
Definition star (r : regex) : regex := Rep true 0 None r.
Definition lazyPlus (r : regex) : regex := Rep false 1 None r.
Definition opt (r : regex) : regex := Rep true 0 (Some 1) r.

(** A literal under the [i] flag. *)
Fixpoint litCI (s : string) : regex :=
  match s with
  | EmptyString => Eps
  | String a s' => Seq (Chr (fun c => Ascii.eqb (lowerChar c) (lowerChar a))) (litCI s')
  end.

End JS.

Import JS.

(** ** Data model *)

Inductive TxType := income | expense | transfer.

Global Instance TxType_eq_dec : EqDecision TxType.
Proof. solve_decision. Defined.

(** [IParsedTransaction] with the [_tempId] of [ParsedTransaction]: a
    candidate of the review buffer.  An optional field is an [option]. *)
Record ParsedTransaction := {
  pt_date : JSDate;
  pt_amount : JSNum;
  pt_description : string;
  pt_type : TxType;
  pt_referenceNumber : option string;
  pt_balance : option JSNum;
  pt_isDuplicate : option bool;
  pt_matchingTransactionId : option string;
  pt_tempId : option string
}.

(** A thrown [Error]: its message. *)
Definition Error := string.

(** ** services/statement-parser.service.ts *)

Section StatementParser.
Context `{eng : Engine}.

(** [columns.findIndex(pred)], [-1] when no element satisfies [pred]. *)
Fixpoint findIndex {A} (pred : A -> bool) (l : list A) : Z :=
  match l with
  | [] => -1
  | x :: l' =>
      if pred x then 0
      else let i := findIndex pred l' in if (i =? -1)%Z then -1 else i + 1
  end%Z.

Fixpoint findColumnIndex_keywords (columns keywords : list string) : Z :=
  match keywords with
  | [] => -1
  | keyword :: rest =>
      let index := findIndex (fun col => includes col (toLowerCase keyword)) columns in
      if negb (index =? -1)%Z then index else findColumnIndex_keywords columns rest
  end%Z.

Definition findColumnIndex (header : string) (keywords : list string) : Z :=
  let columns := map (fun col => toLowerCase (trim col)) (split "," header) in
  findColumnIndex_keywords columns keywords.

Fixpoint parseCSVLine_from (line : string) (result : list string) (current : string)
    (inQuotes : bool) : list string :=
  match line with
  | EmptyString => result ++ [trim current]
  | String char rest =>
      if Ascii.eqb char "034" then parseCSVLine_from rest result current (negb inQuotes)
      else if Ascii.eqb char "," && negb inQuotes
      then parseCSVLine_from rest (result ++ [trim current]) EmptyString inQuotes
      else parseCSVLine_from rest result (String.append current (String char EmptyString)) inQuotes
  end.

Definition parseCSVLine (line : string) : list string :=
  parseCSVLine_from line [] EmptyString false.

Definition monthNames : regex :=
  alts (map litCI ["Jan"; "Feb"; "Mar"; "Apr"; "May"; "Jun";
                   "Jul"; "Aug"; "Sep"; "Oct"; "Nov"; "Dec"]).

(** The three [formats] of [parseDate]. *)
Definition formats : list regex :=
  [ (* /(\d{1,2})[-\/](\d{1,2})[-\/](\d{2,4})/ *)
    seqs [Grp 1 (rep 1 2 digit); oneOf "-/"; Grp 2 (rep 1 2 digit); oneOf "-/";
          Grp 3 (rep 2 4 digit)];
    (* /(\d{4})[-\/](\d{1,2})[-\/](\d{1,2})/ *)
    seqs [Grp 1 (rep 4 4 digit); oneOf "-/"; Grp 2 (rep 1 2 digit); oneOf "-/";
          Grp 3 (rep 1 2 digit)];
    (* /(\d{1,2})[-\s](Jan|...|Dec)[-\s](\d{2,4})/i *)
    seqs [Grp 1 (rep 1 2 digit); Alt (oneOf "-") space; Grp 2 monthNames;
          Alt (oneOf "-") space; Grp 3 (rep 2 4 digit)] ].

Definition months : list (string * Z) :=
  [("jan", 0); ("feb", 1); ("mar", 2); ("apr", 3); ("may", 4); ("jun", 5);
   ("jul", 6); ("aug", 7); ("sep", 8); ("oct", 9); ("nov", 10); ("dec", 11)]%Z.

Fixpoint monthIndex (table : list (string * Z)) (key : string) : option Z :=
  match table with
  | [] => None
  | (k, v) :: table' => if String.eqb k key then Some v else monthIndex table' key
  end.

(** [if (year < 100) year += 2000], on a possibly [NaN] year. *)
Definition adjustYear (year : option Z) : option Z :=
  match year with
  | Some y => Some (if (y <? 100)%Z then y + 2000 else y)%Z
  | None => None
  end.

(** [parseInt(x)], where [x] may be [undefined]. *)
Definition parseIntOpt (x : option string) : option Z :=
  match x with Some s => parseInt s | None => None end.

(** The body run on the first format that matches; it always returns. *)
Definition dateOfMatch (m : MatchResult) : JSDate :=
  let m1 := group m 1 in
  let m2 := group m 2 in
  let m3 := group m 3 in
  if match m2 with
     | Some s2 => truthy s2 && negb (bool_decide (is_Some (parseInt s2)))
     | None => false
     end
  then
    (* month name format *)
    let day := parseIntOpt m1 in
    let month := match m2 with
                 | Some s2 => monthIndex months (substring0 3 (toLowerCase s2))
                 | None => None
                 end in
    let year := adjustYear (parseIntOpt m3) in
    newDate year month day
  else
    if match m3 with
       | Some s3 => includes (whole m) s3
       | None => false
       end
       && match parseIntOpt m3 with Some n => (31 <? n)%Z | None => false end
    then
      (* the branch labelled YYYY-MM-DD *)
      let year := parseIntOpt m1 in
      let month := option_map (fun n => n - 1)%Z (parseIntOpt m2) in
      let day := parseIntOpt m3 in
      newDate year month day
    else
      (* the branch labelled DD-MM-YYYY *)
      let day := parseIntOpt m1 in
      let month := option_map (fun n => n - 1)%Z (parseIntOpt m2) in
      let year := adjustYear (parseIntOpt m3) in
      newDate year month day.

Fixpoint parseDate_formats (fs : list regex) (dateStr : string) : option JSDate :=
  match fs with
  | [] =>
      (* fallback to the Date constructor *)
      let parsed := Date_parse dateStr in
      if isValidDate parsed then Some parsed else None
  | format :: fs' =>
      match exec format dateStr with
      | Some m => Some (dateOfMatch m)
      | None => parseDate_formats fs' dateStr
      end
  end.

(** [parseDate]; [None] is [null]. *)
Definition parseDate (dateStr : string) : option JSDate :=
  if negb (truthy dateStr) then None
  else parseDate_formats formats dateStr.

(** The column indices found in the header ([-1]: not found). *)
Record Columns := {
  dateCol : Z;
  amountCol : Z;
  descriptionCol : Z;
  typeCol : Z;
  balanceCol : Z
}.

Definition detectColumns (headerRow : string) : Columns :=
  {| dateCol := findColumnIndex headerRow ["date"; "transaction date"; "transaction_date"];
     amountCol := findColumnIndex headerRow ["amount"; "transaction amount"; "transaction_amount"];
     descriptionCol := findColumnIndex headerRow ["description"; "particulars"; "narration"; "details"];
     typeCol := findColumnIndex headerRow ["type"; "transaction type"; "debit/credit"; "dr/cr"];
     balanceCol := findColumnIndex headerRow ["balance"; "closing balance"; "closing_balance"] |}.

(** [col >= 0 ? columns[col] : dflt]; [None] is [undefined]. *)
Definition column (columns : list string) (col : Z) (dflt : option string) : option string :=
  if (0 <=? col)%Z then columns !! Z.to_nat col else dflt.

(** [/[^0-9.-]/g] removed *)
Definition numericChars (s : string) : string :=
  keepChars (fun c => isDigit c || Ascii.eqb c "." || Ascii.eqb c "-") s.

(** The type that a non-empty type column imposes, if any. *)
Definition typeOverride (typeStr : string) : option TxType :=
  let typeLower := toLowerCase typeStr in
  if includes typeLower "debit" || includes typeLower "dr" || includes typeLower "withdraw"
  then Some expense
  else if includes typeLower "credit" || includes typeLower "cr" || includes typeLower "deposit"
  then Some income
  else None.

(** One iteration of the loop of [parseCSVStatement] on [lines[i]]: the
    candidate pushed, or [None] when the iteration ends in [continue] (also
    from the [catch], which a method call on [undefined] reaches). *)
Definition parseCSVRow (cols : Columns) (i : nat) (rawLine : string) : option ParsedTransaction :=
  let line := trim rawLine in
  if negb (truthy line) then None else
  let columns := parseCSVLine line in
  if (List.length columns <? 3)%nat then None else
  let dateStr := column columns (dateCol cols) (columns !! 0%nat) in
  let amountStr := column columns (amountCol cols) (columns !! 1%nat) in
  let descStr := column columns (descriptionCol cols) (columns !! 2%nat) in
  let typeStr := column columns (typeCol cols) (Some EmptyString) in
  let balanceStr := column columns (balanceCol cols) (Some EmptyString) in
  match match dateStr with Some d => parseDate d | None => None end with
  | None => None
  | Some date =>
      match amountStr with
      | None => None
      | Some amountStr =>
          let amount := parseFloat (numericChars amountStr) in
          if isNaN amount || isZero amount then None else
          let type := if gt0 amount then income else expense in
          let type :=
            match typeStr with
            | Some t => if truthy t then default type (typeOverride t) else type
            | None => type
            end in
          let absAmount := abs amount in
          let balance :=
            match balanceStr with
            | Some b => if truthy b then Some (parseFloat (numericChars b)) else None
            | None => None
            end in
          match descStr with
          | None => None
          | Some descStr =>
              Some {| pt_date := date;
                      pt_amount := absAmount;
                      pt_description := trim descStr;
                      pt_type := type;
                      pt_referenceNumber := None;
                      pt_balance := balance;
                      pt_isDuplicate := None;
                      pt_matchingTransactionId := None;
                      pt_tempId := Some (String.append "temp_" (natToString i)) |}
          end
      end
  end.

(** The loop from index [i] over the remaining [lines]. *)
Fixpoint parseCSVRows (cols : Columns) (i : nat) (lines : list string) : list ParsedTransaction :=
  match lines with
  | [] => []
  | rawLine :: rest =>
      match parseCSVRow cols i rawLine with
      | Some tx => tx :: parseCSVRows cols (S i) rest
      | None => parseCSVRows cols (S i) rest
      end
  end.

(** The index of the first data line: 0 when the header does not name the
    date, the amount and the description. *)
Definition dataStartIndex (cols : Columns) : nat :=
  if (dateCol cols =? -1)%Z || (amountCol cols =? -1)%Z || (descriptionCol cols =? -1)%Z
  then 0%nat else 1%nat.

(** [parseCSVStatement], on the content that [fs.readFile] returned. *)
Definition parseCSVStatement (fileContent : string) : Error + list ParsedTransaction :=
  let lines := split "010" (trim fileContent) in
  if (List.length lines <? 2)%nat then inl "CSV file is empty or invalid" else
  let headerRow := toLowerCase (List.hd EmptyString lines) in
  let cols := detectColumns headerRow in
  inr (parseCSVRows cols (dataStartIndex cols) (drop (dataStartIndex cols) lines)).

Definition numericDate : regex :=
  seqs [rep 1 2 digit; oneOf "-/"; rep 1 2 digit; oneOf "-/"; rep 2 4 digit].

(** [[+-]?\d+\.?\d*] *)
Definition signedNumber : regex :=
  seqs [opt (oneOf "+-"); plus digit; opt (oneOf "."); star digit].

(** The three [patterns] of [parsePDFStatement]. *)
Definition patterns : list regex :=
  [ (* DD-MM-YYYY or DD/MM/YYYY Amount Description *)
    seqs [Grp 1 numericDate; plus space; Grp 2 signedNumber; plus space; Grp 3 (plus dot)];
    (* DD-MMM-YYYY Amount Description *)
    seqs [Grp 1 (seqs [rep 1 2 digit; Alt (oneOf "-") space; Grp 2 monthNames;
                       Alt (oneOf "-") space; rep 2 4 digit]);
          plus space; Grp 3 signedNumber; plus space; Grp 4 (plus dot)];
    (* Description Amount Date *)
    seqs [Grp 1 (lazyPlus dot); plus space; Grp 2 signedNumber; plus space; Grp 3 numericDate] ].

Definition parseDateOpt (x : option string) : option JSDate :=
  match x with Some s => parseDate s | None => None end.

Definition parseFloatOpt (x : option string) : JSNum :=
  match x with Some s => parseFloat s | None => NaN end.

(** [a || b] on possibly undefined strings *)
Definition orString (a b : option string) : option string :=
  match a with
  | Some s => if truthy s then a else b
  | None => b
  end.

(** The body run on a pattern that matched: the candidate pushed, if any. *)
Definition candidateOfMatch (m : MatchResult) (tempId : nat) : option ParsedTransaction :=
  let '(date, amount, description) :=
    if match group m 3 with
       | Some s3 => truthy s3 && isNaN (parseFloat s3)
       | None => false
       end
    then (* third group is date *)
      (parseDateOpt (group m 3), parseFloatOpt (group m 2), group m 1)
    else (* first group is date *)
      (parseDateOpt (group m 1), parseFloatOpt (group m 2),
       orString (group m 3) (orString (group m 4) (Some EmptyString))) in
  match date, description with
  | Some date, Some description =>
      if negb (isNaN amount) && negb (isZero amount) && truthy (trim description)
      then Some {| pt_date := date;
                   pt_amount := abs amount;
                   pt_description := trim description;
                   pt_type := if gt0 amount then income else expense;
                   pt_referenceNumber := None;
                   pt_balance := None;
                   pt_isDuplicate := None;
                   pt_matchingTransactionId := None;
                   pt_tempId := Some (String.append "temp_" (natToString tempId)) |}
      else None
  | _, _ => None
  end.

(** The inner loop over the patterns: stops at the first one that pushes. *)
Fixpoint tryPatterns (ps : list regex) (trimmedLine : string) (tempId : nat)
    : option ParsedTransaction :=
  match ps with
  | [] => None
  | pattern :: ps' =>
      match exec pattern trimmedLine with
      | Some m =>
          match candidateOfMatch m tempId with
          | Some tx => Some tx
          | None => tryPatterns ps' trimmedLine tempId
          end
      | None => tryPatterns ps' trimmedLine tempId
      end
  end.

Fixpoint parsePDFLines (tempId : nat) (lines : list string) : list ParsedTransaction :=
  match lines with
  | [] => []
  | line :: rest =>
      let trimmedLine := trim line in
      if negb (truthy trimmedLine) then parsePDFLines tempId rest
      else match tryPatterns patterns trimmedLine tempId with
           | Some tx => tx :: parsePDFLines (S tempId) rest
           | None => parsePDFLines tempId rest
           end
  end.

(** [parsePDFStatement], on the text that [pdfParse] extracted. *)
Definition parsePDFStatement (text : string) : list ParsedTransaction :=
  parsePDFLines 0 (split "010" text).

End StatementParser.

(** ** models/Transaction.model.ts and services/transaction.service.ts *)

(** The hex digest of SHA-256, kept symbolic: the digest of a message. *)
Inductive Digest := SHA256 (message : string).

Global Instance Digest_eq_dec : EqDecision Digest.
Proof. solve_decision. Defined.

Global Instance Digest_countable : Countable Digest.
Proof. exact (inj_countable' (fun d => match d with SHA256 m => m end) SHA256
                (fun d => match d with SHA256 _ => eq_refl end)). Defined.

Inductive AccountType := bank | cash.
Inductive Status := pending | completed | cancelled.

(** [CreateTransactionData]; the optional fields that the import never
    sets (category, notes, attachments, person, transfer target, group) are
    left out. *)
Record CreateTransactionData := {
  ct_userId : string;
  ct_accountId : string;
  ct_accountType : AccountType;
  ct_type : TxType;
  ct_amount : JSNum;
  ct_currency : string;
  ct_description : string;
  ct_date : JSDate;
  ct_referenceNumber : option string
}.

(** A document of the [Transaction] collection ([ITransaction]). *)
Record Transaction := {
  tx_id : string;
  tx_userId : string;
  tx_accountId : string;
  tx_accountType : AccountType;
  tx_type : TxType;
  tx_amount : JSNum;
  tx_currency : string;
  tx_description : string;
  tx_date : JSDate;
  tx_status : Status;
  tx_referenceNumber : option string;
  tx_duplicateCheckHash : Digest;
  tx_deletedAt : option JSDate
}.

(** The collection, in insertion order; [findOne] returns the first
    document that satisfies the filter. *)
Definition Ledger := list Transaction.

Definition findOne {A} (filter : A -> bool) (collection : list A) : option A :=
  List.find filter collection.

(** The filter [{ userId, duplicateCheckHash: hash }]. *)
Definition byHash (userId : string) (hash : Digest) (t : Transaction) : bool :=
  String.eqb (tx_userId t) userId && bool_decide (tx_duplicateCheckHash t = hash).

(** The filter [{ userId, duplicateCheckHash: hash, deletedAt: null }]. *)
Definition byHashNotDeleted (userId : string) (hash : Digest) (t : Transaction) : bool :=
  byHash userId hash t && bool_decide (tx_deletedAt t = None).

(** [generateDuplicateHash]; [inl] is the [RangeError] that
    [toISOString] throws on an invalid date. *)
Definition generateDuplicateHash (date : JSDate) (amount : JSNum) (description accountId : string)
    : Error + Digest :=
  let normalizedDescription := toLowerCase (trim description) in
  match toISOString date with
  | None => inl "Invalid time value"
  | Some iso =>
      let dateStr := List.hd EmptyString (split "T" iso) in
      let hashString :=
        String.concat "|" [dateStr; numberToString amount; normalizedDescription; accountId] in
      inr (SHA256 hashString)
  end.

(** The argument type of [checkDuplicates]. *)
Record HashInput := {
  hi_date : JSDate;
  hi_amount : JSNum;
  hi_description : string;
  hi_accountId : string
}.

Fixpoint checkDuplicates_loop (ledger : Ledger) (userId : string) (transactions : list HashInput)
    (duplicateMap : gmap Digest (option Transaction))
    : Error + gmap Digest (option Transaction) :=
  match transactions with
  | [] => inr duplicateMap
  | tx :: rest =>
      match generateDuplicateHash (hi_date tx) (hi_amount tx) (hi_description tx) (hi_accountId tx) with
      | inl e => inl e
      | inr hash =>
          let existing := findOne (byHash userId hash) ledger in
          checkDuplicates_loop ledger userId rest (<[hash := existing]> duplicateMap)
      end
  end.

(** [checkDuplicates]: a query over the ledger; the [Map] it returns. *)
Definition checkDuplicates (ledger : Ledger) (userId : string) (transactions : list HashInput)
    : Error + gmap Digest (option Transaction) :=
  checkDuplicates_loop ledger userId transactions ∅.

(** The validators that [TransactionSchema] declares on the fields of
    [CreateTransactionData]: [required] on the strings and the date,
    [min: 0] on the amount. *)
Definition validTransaction (data : CreateTransactionData) : bool :=
  truthy (ct_userId data) && truthy (ct_accountId data) &&
  ge0 (ct_amount data) &&
  truthy (ct_currency data) &&
  truthy (trim (ct_description data)) &&
  isValidDate (ct_date data).

Definition freshId (ledger : Ledger) : string :=
  String.append "tx_" (natToString (List.length ledger)).

(** [new Transaction({...data, duplicateCheckHash, status}).save()]: the
    document stored, with the setters of the schema applied, or the
    validation error. *)
Definition save (ledger : Ledger) (data : CreateTransactionData) (hash : Digest)
    : Error + Transaction :=
  if validTransaction data then
    inr {| tx_id := freshId ledger;
           tx_userId := ct_userId data;
           tx_accountId := ct_accountId data;
           tx_accountType := ct_accountType data;
           tx_type := ct_type data;
           tx_amount := ct_amount data;
           tx_currency := toUpperCase (ct_currency data);
           tx_description := trim (ct_description data);
           tx_date := ct_date data;
           tx_status := completed;
           tx_referenceNumber := option_map trim (ct_referenceNumber data);
           tx_duplicateCheckHash := hash;
           tx_deletedAt := None |}
  else inl "Transaction validation failed".

(** [createTransaction]: the single create. *)
Definition createTransaction (ledger : Ledger) (data : CreateTransactionData)
    : Ledger * (Error + Transaction) :=
  match generateDuplicateHash (ct_date data) (ct_amount data) (ct_description data) (ct_accountId data) with
  | inl e => (ledger, inl e)
  | inr duplicateHash =>
      (* check for duplicate (excluding soft-deleted) *)
      match findOne (byHashNotDeleted (ct_userId data) duplicateHash) ledger with
      | Some _ => (ledger, inl "Duplicate transaction detected")
      | None =>
          match save ledger data duplicateHash with
          | inr saved => ((ledger ++ [saved])%list, inr saved)
          | inl e => (ledger, inl e)
          end
      end
  end.

(** The result of [createTransactions]. *)
Record BulkResult := {
  created : list Transaction;
  skipped : nat;
  duplicates : nat
}.

(** The [catch] of the loop of [createTransactions]. *)
Definition catchRow (skipDuplicates : bool) (error : Error) (acc : BulkResult) : BulkResult :=
  if String.eqb error "Duplicate transaction detected" && skipDuplicates
  then {| created := created acc; skipped := skipped acc; duplicates := S (duplicates acc) |}
  else {| created := created acc; skipped := S (skipped acc); duplicates := duplicates acc |}.

Fixpoint createTransactions_loop (skipDuplicates : bool) (transactions : list CreateTransactionData)
    (ledger : Ledger) (acc : BulkResult) : Ledger * BulkResult :=
  match transactions with
  | [] => (ledger, acc)
  | txData :: rest =>
      match generateDuplicateHash (ct_date txData) (ct_amount txData)
              (ct_description txData) (ct_accountId txData) with
      | inl error => createTransactions_loop skipDuplicates rest ledger (catchRow skipDuplicates error acc)
      | inr hash =>
          if skipDuplicates &&
             bool_decide (is_Some (findOne (byHashNotDeleted (ct_userId txData) hash) ledger))
          then createTransactions_loop skipDuplicates rest ledger
                 {| created := created acc; skipped := skipped acc;
                    duplicates := S (duplicates acc) |}
          else
            match save ledger txData hash with
            | inr saved =>
                createTransactions_loop skipDuplicates rest (ledger ++ [saved])%list
                  {| created := (created acc ++ [saved])%list; skipped := skipped acc;
                     duplicates := duplicates acc |}
            | inl error =>
                createTransactions_loop skipDuplicates rest ledger (catchRow skipDuplicates error acc)
            end
      end
  end.

(** [createTransactions] (bulk import): the ledger after the call and the
    three counters. *)
Definition createTransactions (ledger : Ledger) (transactions : list CreateTransactionData)
    (skipDuplicates : bool) : Ledger * BulkResult :=
  createTransactions_loop skipDuplicates transactions ledger
    {| created := []; skipped := 0; duplicates := 0 |}.

(** [detectDuplicates] of statement-parser.service.ts. *)
Definition detectDuplicates (ledger : Ledger) (userId : string)
    (transactions : list ParsedTransaction) (accountId : string)
    : Error + list ParsedTransaction :=
  let transactionsWithHash :=
    map (fun tx => {| hi_date := pt_date tx; hi_amount := pt_amount tx;
                      hi_description := pt_description tx; hi_accountId := accountId |})
        transactions in
  match checkDuplicates ledger userId transactionsWithHash with
  | inl e => inl e
  | inr duplicateMap =>
      (* every hash was computed once already, so none throws here *)
      inr (map (fun tx =>
                  let existing :=
                    match generateDuplicateHash (pt_date tx) (pt_amount tx) (pt_description tx) accountId with
                    | inr hash => mjoin (duplicateMap !! hash)
                    | inl _ => None
                    end in
                  {| pt_date := pt_date tx;
                     pt_amount := pt_amount tx;
                     pt_description := pt_description tx;
                     pt_type := pt_type tx;
                     pt_referenceNumber := pt_referenceNumber tx;
                     pt_balance := pt_balance tx;
                     pt_isDuplicate := Some (bool_decide (is_Some existing));
                     pt_matchingTransactionId := option_map tx_id existing;
                     pt_tempId := pt_tempId tx |})
               transactions)
  end.

(** ** models/BankStatement.model.ts, models/BankAccount.model.ts,
       services/account.service.ts *)

Inductive FileType := pdf | csv.
Inductive ParseStatus := parse_pending | parsing | parse_completed | failed.

Global Instance ParseStatus_eq_dec : EqDecision ParseStatus.
Proof. solve_decision. Defined.

(** A document of the [BankStatement] collection; its [_id] is its key
    in [statements]. *)
Record BankStatement := {
  st_userId : string;
  st_bankAccountId : string;
  st_fileName : string;
  st_fileType : FileType;
  st_filePath : option string;
  st_parseStatus : ParseStatus;
  st_transactionCount : nat;
  st_parsedTransactions : list ParsedTransaction;
  st_errorMessage : option string
}.

(** A document of the [BankAccount] collection, with the fields that the
    import reads or writes; its [_id] is its key in [bankAccounts]. *)
Record BankAccount := {
  acc_userId : string;
  acc_currentBalance : JSNum;
  acc_currency : string
}.

(** The state the handlers run against: the three collections, and the
    uploaded files ([files] maps a path to the content that [fs.readFile]
    returns). *)
Record World := {
  statements : gmap string BankStatement;
  transactions : Ledger;
  bankAccounts : gmap string BankAccount;
  files : gmap string string
}.

(** The message of the [CastError] that Mongoose throws for a value of a
    filter that is no ObjectId. *)
Definition castError (value path model : string) : Error :=
  let quoted (s : string) := String "034" (String.append s (String "034" EmptyString)) in
  String.concat ""
    ["Cast to ObjectId failed for value "; quoted value; " (type string) at path ";
     quoted path; " for model "; quoted model].

(** [error.message || fallback] *)
Definition messageOr (message fallback : string) : string :=
  if truthy message then message else fallback.

Section Collections.
Context `{eng : Engine}.

(** The [_id] of a document that a filter on [id] found. *)
Definition objectId (id : string) : string := default id (castObjectId id).

(** [BankStatement.findOne({ _id: statementId, userId })]: the values of the
    filter are cast to ObjectId, [_id] first; [inl] is the [CastError]. *)
Definition findStatement (w : World) (statementId userId : string)
    : Error + option BankStatement :=
  match castObjectId statementId with
  | None => inl (castError statementId "_id" "BankStatement")
  | Some id =>
      match castObjectId userId with
      | None => inl (castError userId "userId" "BankStatement")
      | Some owner =>
          inr (match statements w !! id with
               | Some st => if String.eqb (st_userId st) owner then Some st else None
               | None => None
               end)
      end
  end.

(** [getBankAccountById]: [BankAccount.findOne({ _id: accountId, userId })] *)
Definition getBankAccountById (w : World) (accountId userId : string)
    : Error + option BankAccount :=
  match castObjectId accountId with
  | None => inl (castError accountId "_id" "BankAccount")
  | Some id =>
      match castObjectId userId with
      | None => inl (castError userId "userId" "BankAccount")
      | Some owner =>
          inr (match bankAccounts w !! id with
               | Some a => if String.eqb (acc_userId a) owner then Some a else None
               | None => None
               end)
      end
  end.

(** [updateBankAccountBalance]: the collection after the call.  The save
    refuses a balance that is [NaN] (the cast to [Number] fails). *)
Definition updateBankAccountBalance (accounts : gmap string BankAccount) (accountId : string)
    (amount : JSNum) : Error + gmap string BankAccount :=
  match castObjectId accountId with
  | None => inl (castError accountId "_id" "BankAccount")
  | Some id =>
      match accounts !! id with
      | None => inr accounts
      | Some account =>
          let currentBalance := add (acc_currentBalance account) amount in
          if isNaN currentBalance then inl "BankAccount validation failed"
          else inr (<[id := {| acc_userId := acc_userId account;
                               acc_currentBalance := currentBalance;
                               acc_currency := acc_currency account |}]> accounts)
      end
  end.

End Collections.

(** The casts and validators that [ParsedTransactionSchema] declares:
    [required] on date, amount and description, the [enum] of [type], the
    cast to [Number] of amount and balance, which fails on [NaN].  There is
    no [min] on the amount. *)
Definition validParsed (tx : ParsedTransaction) : bool :=
  isValidDate (pt_date tx) &&
  negb (isNaN (pt_amount tx)) &&
  truthy (trim (pt_description tx)) &&
  bool_decide (pt_type tx <> transfer) &&
  match pt_balance tx with Some b => negb (isNaN b) | None => true end.

(** The element as the schema stores it: the [trim] setters, the default
    of [isDuplicate]; [_tempId] is no path of the schema and the elements
    have no [_id], so the stored element carries no identifier. *)
Definition storedParsed (tx : ParsedTransaction) : ParsedTransaction :=
  {| pt_date := pt_date tx;
     pt_amount := pt_amount tx;
     pt_description := trim (pt_description tx);
     pt_type := pt_type tx;
     pt_referenceNumber := option_map trim (pt_referenceNumber tx);
     pt_balance := pt_balance tx;
     pt_isDuplicate := Some (default false (pt_isDuplicate tx));
     pt_matchingTransactionId := pt_matchingTransactionId tx;
     pt_tempId := None |}.

(** ** controllers/statement.controller.ts *)

(** What a handler sends: [res.json(data)] or [res.status(n).json({ error })]. *)
Inductive Response (A : Type) :=
| Json (data : A)
| Failure (status : nat) (error : string).
Arguments Json {A} data.
Arguments Failure {A} status error.

(** [statement.save()] of the document whose [_id] is [statementId]. *)
Definition setStatement (w : World) (statementId : string) (st : BankStatement) : World :=
  {| statements := <[statementId := st]> (statements w);
     transactions := transactions w;
     bankAccounts := bankAccounts w;
     files := files w |}.

Definition withStatus (st : BankStatement) (status : ParseStatus) : BankStatement :=
  {| st_userId := st_userId st; st_bankAccountId := st_bankAccountId st;
     st_fileName := st_fileName st; st_fileType := st_fileType st;
     st_filePath := st_filePath st; st_parseStatus := status;
     st_transactionCount := st_transactionCount st;
     st_parsedTransactions := st_parsedTransactions st;
     st_errorMessage := st_errorMessage st |}.

Definition withParsed (st : BankStatement) (txs : list ParsedTransaction) : BankStatement :=
  {| st_userId := st_userId st; st_bankAccountId := st_bankAccountId st;
     st_fileName := st_fileName st; st_fileType := st_fileType st;
     st_filePath := st_filePath st; st_parseStatus := st_parseStatus st;
     st_transactionCount := st_transactionCount st;
     st_parsedTransactions := txs;
     st_errorMessage := st_errorMessage st |}.

Definition withCount (st : BankStatement) (n : nat) : BankStatement :=
  {| st_userId := st_userId st; st_bankAccountId := st_bankAccountId st;
     st_fileName := st_fileName st; st_fileType := st_fileType st;
     st_filePath := st_filePath st; st_parseStatus := st_parseStatus st;
     st_transactionCount := n;
     st_parsedTransactions := st_parsedTransactions st;
     st_errorMessage := st_errorMessage st |}.

Definition withError (st : BankStatement) (message : string) : BankStatement :=
  {| st_userId := st_userId st; st_bankAccountId := st_bankAccountId st;
     st_fileName := st_fileName st; st_fileType := st_fileType st;
     st_filePath := st_filePath st; st_parseStatus := st_parseStatus st;
     st_transactionCount := st_transactionCount st;
     st_parsedTransactions := st_parsedTransactions st;
     st_errorMessage := Some message |}.

Section Handlers.
Context `{eng : Engine}.

(** [fs.readFile]; a missing file throws. *)
Definition readFile (w : World) (filePath : string) : Error + string :=
  match files w !! filePath with
  | Some content => inr content
  | None => inl "ENOENT: no such file or directory"
  end.

(** The extraction of [parseStatementHandler]: parse by file type (for a
    PDF, [pdfParse] first), then detect duplicates; [inl] is an error
    thrown on the way. *)
Definition extract (w : World) (userId : string) (statement : BankStatement) (filePath : string)
    : Error + list ParsedTransaction :=
  match readFile w filePath with
  | inl e => inl e
  | inr content =>
      match match st_fileType statement with
            | pdf =>
                match pdfParse content with
                | inl e => inl e
                | inr text => inr (parsePDFStatement text)
                end
            | csv => parseCSVStatement content
            end with
      | inl e => inl e
      | inr parsedTransactions =>
          detectDuplicates (transactions w) userId parsedTransactions (st_bankAccountId statement)
      end
  end.

(** What [parseStatementHandler] sends on success. *)
Record ParseData := {
  pd_transactions : list ParsedTransaction;
  pd_duplicateCount : nat
}.

Definition isFlagged (tx : ParsedTransaction) : bool :=
  match pt_isDuplicate tx with Some true => true | _ => false end.

Definition parseStatementHandler (w : World) (userId statementId : string)
    : World * Response ParseData :=
  match findStatement w statementId userId with
  | inl error => (w, Failure 500 (messageOr error "Failed to parse statement"))
  | inr None => (w, Failure 404 "Statement not found")
  | inr (Some statement) =>
      let statementId := objectId statementId in
      match st_filePath statement with
      | None => (w, Failure 400 "File path not found")
      | Some filePath =>
          if negb (truthy filePath) then (w, Failure 400 "File path not found") else
          (* update status to parsing *)
          let statement := withStatus statement parsing in
          let w := setStatement w statementId statement in
          match extract w userId statement filePath with
          | inr transactionsWithDuplicates =>
              let statement' :=
                withStatus
                  (withCount (withParsed statement transactionsWithDuplicates)
                     (List.length transactionsWithDuplicates))
                  parse_completed in
              if forallb validParsed transactionsWithDuplicates then
                (setStatement w statementId
                   (withParsed statement' (map storedParsed transactionsWithDuplicates)),
                 Json {| pd_transactions := transactionsWithDuplicates;
                         pd_duplicateCount :=
                           List.length (List.filter isFlagged transactionsWithDuplicates) |})
              else
                (* the save throws; so does the save of the catch block,
                   on the same document *)
                (w, Failure 500 "BankStatement validation failed")
          | inl parseError =>
              (setStatement w statementId (withError (withStatus statement failed) parseError),
               Failure 500 (messageOr parseError "Failed to parse statement"))
          end
      end
  end.

(** The body of the edit request; a field that is absent is [None]. *)
Record EditBody := {
  eb_date : option string;
  eb_amount : option JSNum;
  eb_description : option string;
  eb_type : option string;
  eb_referenceNumber : option string
}.

(** The cast of a string to the [enum] of [type]. *)
Definition castType (t : string) : option TxType :=
  if String.eqb t "income" then Some income
  else if String.eqb t "expense" then Some expense
  else None.

(** [findIndex] by [_tempId]; the elements have no [_id] of their own. *)
Definition hasTempId (transactionId : string) (tx : ParsedTransaction) : bool :=
  match pt_tempId tx with
  | Some t => String.eqb t transactionId
  | None => false
  end.

(** The assignments of the edit, field by field; [None] is a value of
    [type] outside the [enum], which the save refuses. *)
Definition applyEdit (body : EditBody) (tx : ParsedTransaction) : option ParsedTransaction :=
  let date :=
    match eb_date body with
    | Some d => if truthy d then Date_parse d else pt_date tx
    | None => pt_date tx
    end in
  let amount := default (pt_amount tx) (eb_amount body) in
  let description :=
    match eb_description body with
    | Some d => if truthy d then d else pt_description tx
    | None => pt_description tx
    end in
  let type :=
    match eb_type body with
    | Some t => if truthy t then castType t else Some (pt_type tx)
    | None => Some (pt_type tx)
    end in
  let referenceNumber :=
    match eb_referenceNumber body with
    | Some r => Some r
    | None => pt_referenceNumber tx
    end in
  option_map
    (fun type =>
       {| pt_date := date; pt_amount := amount; pt_description := description;
          pt_type := type; pt_referenceNumber := referenceNumber;
          pt_balance := pt_balance tx; pt_isDuplicate := pt_isDuplicate tx;
          pt_matchingTransactionId := pt_matchingTransactionId tx;
          pt_tempId := pt_tempId tx |})
    type.

Definition editParsedTransactionHandler (w : World) (userId statementId transactionId : string)
    (body : EditBody) : World * Response ParsedTransaction :=
  match findStatement w statementId userId with
  | inl error => (w, Failure 400 (messageOr error "Failed to update transaction"))
  | inr None => (w, Failure 404 "Statement not found")
  | inr (Some statement) =>
      let statementId := objectId statementId in
      if negb (bool_decide (st_parseStatus statement = parse_completed))
      then (w, Failure 400 "Statement parsing not completed") else
      let transactionIndex := findIndex (hasTempId transactionId) (st_parsedTransactions statement) in
      if (transactionIndex =? -1)%Z then (w, Failure 404 "Transaction not found") else
      match st_parsedTransactions statement !! Z.to_nat transactionIndex with
      | None => (w, Failure 404 "Transaction not found")
      | Some transaction =>
          match applyEdit body transaction with
          | None => (w, Failure 400 "BankStatement validation failed")
          | Some transaction =>
              (* re-check for duplicates after edit *)
              match detectDuplicates (transactions w) userId [transaction] (st_bankAccountId statement) with
              | inl e => (w, Failure 400 e)
              | inr transactionsWithDuplicates =>
                  match transactionsWithDuplicates with
                  | [] => (w, Failure 400 "Failed to update transaction")
                  | updated :: _ =>
                      if validParsed updated then
                        let updated := storedParsed updated in
                        (setStatement w statementId
                           (withParsed statement
                              (<[Z.to_nat transactionIndex := updated]>
                                 (st_parsedTransactions statement))),
                         Json updated)
                      else (w, Failure 400 "BankStatement validation failed")
                  end
              end
          end
      end
  end.

(** The body of the confirm request. *)
Record ConfirmBody := {
  cb_transactionIds : option (list string);
  cb_skipDuplicates : bool
}.

(** What [confirmParsedTransactionsHandler] sends on success. *)
Record ConfirmData := {
  cd_created : nat;
  cd_skipped : nat;
  cd_duplicates : nat
}.

(** [transactionIds.includes(tx._tempId || tx._id?.toString())] *)
Definition selected (transactionIds : list string) (tx : ParsedTransaction) : bool :=
  match pt_tempId tx with
  | Some t => truthy t && existsb (String.eqb t) transactionIds
  | None => false
  end.

(** The candidates that the confirm imports. *)
Definition transactionsToImport (statement : BankStatement) (body : ConfirmBody)
    : list ParsedTransaction :=
  let chosen :=
    match cb_transactionIds body with
    | Some (id :: ids) => List.filter (selected (id :: ids)) (st_parsedTransactions statement)
    | _ => st_parsedTransactions statement
    end in
  if cb_skipDuplicates body then List.filter (fun tx => negb (isFlagged tx)) chosen else chosen.

Definition toCreateData (userId : string) (statement : BankStatement) (bankAccount : BankAccount)
    (tx : ParsedTransaction) : CreateTransactionData :=
  {| ct_userId := userId;
     ct_accountId := st_bankAccountId statement;
     ct_accountType := bank;
     ct_type := pt_type tx;
     ct_amount := pt_amount tx;
     ct_currency := acc_currency bankAccount;
     ct_description := pt_description tx;
     ct_date := pt_date tx;
     ct_referenceNumber := pt_referenceNumber tx |}.

(** The [reduce] over the created transactions. *)
Definition balanceChange (created : list Transaction) : JSNum :=
  fold_left
    (fun sum tx =>
       match tx_type tx with
       | income => add sum (tx_amount tx)
       | expense => sub sum (tx_amount tx)
       | transfer => sum
       end)
    created (ofZ 0).

Definition confirmParsedTransactionsHandler (w : World) (userId statementId : string)
    (body : ConfirmBody) : World * Response ConfirmData :=
  match findStatement w statementId userId with
  | inl error => (w, Failure 400 (messageOr error "Failed to confirm transactions"))
  | inr None => (w, Failure 404 "Statement not found")
  | inr (Some statement) =>
      if negb (bool_decide (st_parseStatus statement = parse_completed))
      then (w, Failure 400 "Statement parsing not completed") else
      let toImport := transactionsToImport statement body in
      match getBankAccountById w (st_bankAccountId statement) userId with
      | inl error => (w, Failure 400 (messageOr error "Failed to confirm transactions"))
      | inr None => (w, Failure 404 "Bank account not found")
      | inr (Some bankAccount) =>
          let transactionData := map (toCreateData userId statement bankAccount) toImport in
          (* create transactions *)
          let '(ledger, result) :=
            createTransactions (transactions w) transactionData (cb_skipDuplicates body) in
          let imported (accounts : gmap string BankAccount) : World :=
            {| statements := statements w; transactions := ledger;
               bankAccounts := accounts; files := files w |} in
          (* update bank account balance *)
          match
            if (0 <? List.length (created result))%nat
            then updateBankAccountBalance (bankAccounts w) (st_bankAccountId statement)
                   (balanceChange (created result))
            else inr (bankAccounts w)
          with
          | inl error =>
              (imported (bankAccounts w),
               Failure 400 (messageOr error "Failed to confirm transactions"))
          | inr accounts =>
              (imported accounts,
               Json {| cd_created := List.length (created result);
                       cd_skipped := skipped result;
                       cd_duplicates := duplicates result |})
          end
      end
  end.

End Handlers.

(** ** Further functions of the same sources *)

(** [normalizeTransactionData] of statement-parser.service.ts; its
    [accountId] argument is not used. *)
Definition normalizeTransactionData (transactions : list ParsedTransaction) (accountId : string)
    : list ParsedTransaction :=
  map (fun tx =>
         {| pt_date := pt_date tx;
            pt_amount := abs (pt_amount tx);
            pt_description := trim (pt_description tx);
            pt_type := pt_type tx;
            pt_referenceNumber := pt_referenceNumber tx;
            pt_balance := pt_balance tx;
            pt_isDuplicate := pt_isDuplicate tx;
            pt_matchingTransactionId := pt_matchingTransactionId tx;
            pt_tempId := pt_tempId tx |})
      transactions.

(** A document with its [deletedAt] set or unset. *)
Definition withDeletedAt (t : Transaction) (deletedAt : option JSDate) : Transaction :=
  {| tx_id := tx_id t; tx_userId := tx_userId t; tx_accountId := tx_accountId t;
     tx_accountType := tx_accountType t; tx_type := tx_type t; tx_amount := tx_amount t;
     tx_currency := tx_currency t; tx_description := tx_description t; tx_date := tx_date t;
     tx_status := tx_status t; tx_referenceNumber := tx_referenceNumber t;
     tx_duplicateCheckHash := tx_duplicateCheckHash t; tx_deletedAt := deletedAt |}.

(** [doc.save()] on the document that [findOne filter] returned: the
    first document that satisfies the filter is replaced. *)
Fixpoint saveFirst {A} (filter : A -> bool) (update : A -> A) (collection : list A) : list A :=
  match collection with
  | [] => []
  | x :: rest => if filter x then update x :: rest else x :: saveFirst filter update rest
  end.

(** The filter [{ _id: transactionId, userId }]. *)
Definition byId (transactionId userId : string) (t : Transaction) : bool :=
  String.eqb (tx_id t) transactionId && String.eqb (tx_userId t) userId.

(** [{ _id, userId, deletedAt: null }] and [{ _id, userId, deletedAt: { $ne: null } }] *)
Definition byIdNotDeleted (transactionId userId : string) (t : Transaction) : bool :=
  byId transactionId userId t && bool_decide (tx_deletedAt t = None).

Definition byIdDeleted (transactionId userId : string) (t : Transaction) : bool :=
  byId transactionId userId t && bool_decide (is_Some (tx_deletedAt t)).

(** [deleteTransaction] (soft delete); [now] is the value of [new Date()]. *)
Definition deleteTransaction (ledger : Ledger) (transactionId userId : string) (now : JSDate)
    : Ledger * bool :=
  match findOne (byIdNotDeleted transactionId userId) ledger with
  | None => (ledger, false)
  | Some _ =>
      (saveFirst (byIdNotDeleted transactionId userId) (fun t => withDeletedAt t (Some now)) ledger,
       true)
  end.

(** [restoreTransaction] *)
Definition restoreTransaction (ledger : Ledger) (transactionId userId : string) : Ledger * bool :=
  match findOne (byIdDeleted transactionId userId) ledger with
  | None => (ledger, false)
  | Some _ =>
      (saveFirst (byIdDeleted transactionId userId) (fun t => withDeletedAt t None) ledger, true)
  end.

(** [UpdateTransactionData], without category, notes, attachments and
    person; a key that is absent is [None]. *)
Record UpdateTransactionData := {
  ud_amount : option JSNum;
  ud_description : option string;
  ud_date : option JSDate;
  ud_status : option Status;
  ud_referenceNumber : option string
}.

(** A number in a condition: [0] and [NaN] are falsy. *)
Definition truthyNum (x : JSNum) : bool := negb (isNaN x) && negb (isZero x).

(** [data.date || data.amount || data.description] *)
Definition touchesFingerprint (data : UpdateTransactionData) : bool :=
  bool_decide (is_Some (ud_date data)) ||
  match ud_amount data with Some a => truthyNum a | None => false end ||
  match ud_description data with Some d => truthy d | None => false end.

(** The filter [{ userId, duplicateCheckHash, _id: { $ne: id }, deletedAt: null }]. *)
Definition byHashOther (userId : string) (hash : Digest) (transactionId : string)
    (t : Transaction) : bool :=
  byHashNotDeleted userId hash t && negb (String.eqb (tx_id t) transactionId).

(** [Object.assign(transaction, data)], with the setters of the schema,
    on a document whose fingerprint is [hash]. *)
Definition assignUpdate (data : UpdateTransactionData) (hash : Digest) (t : Transaction)
    : Transaction :=
  {| tx_id := tx_id t; tx_userId := tx_userId t; tx_accountId := tx_accountId t;
     tx_accountType := tx_accountType t; tx_type := tx_type t;
     tx_amount := default (tx_amount t) (ud_amount data);
     tx_currency := tx_currency t;
     tx_description := default (tx_description t) (option_map trim (ud_description data));
     tx_date := default (tx_date t) (ud_date data);
     tx_status := default (tx_status t) (ud_status data);
     tx_referenceNumber :=
       match ud_referenceNumber data with
       | Some r => Some (trim r)
       | None => tx_referenceNumber t
       end;
     tx_duplicateCheckHash := hash;
     tx_deletedAt := tx_deletedAt t |}.

(** The validators of the schema on the paths that the update modifies. *)
Definition validUpdate (data : UpdateTransactionData) : bool :=
  match ud_amount data with Some a => ge0 a | None => true end &&
  match ud_description data with Some d => truthy (trim d) | None => true end &&
  match ud_date data with Some d => isValidDate d | None => true end.

(** [updateTransaction]; [inr None] is the [null] returned when the
    transaction is not found. *)
Definition updateTransaction (ledger : Ledger) (transactionId userId : string)
    (data : UpdateTransactionData) : Ledger * (Error + option Transaction) :=
  match findOne (byIdNotDeleted transactionId userId) ledger with
  | None => (ledger, inr None)
  | Some transaction =>
      match
        (* if critical fields are updated, regenerate duplicate hash *)
        if touchesFingerprint data then
          let newDate := default (tx_date transaction) (ud_date data) in
          let newAmount := default (tx_amount transaction) (ud_amount data) in
          let newDescription :=
            match ud_description data with
            | Some d => if truthy d then d else tx_description transaction
            | None => tx_description transaction
            end in
          match generateDuplicateHash newDate newAmount newDescription (tx_accountId transaction) with
          | inl e => inl e
          | inr newHash =>
              match findOne (byHashOther userId newHash transactionId) ledger with
              | Some _ => inl "Update would create a duplicate transaction"
              | None => inr newHash
              end
          end
        else inr (tx_duplicateCheckHash transaction)
      with
      | inl e => (ledger, inl e)
      | inr hash =>
          if validUpdate data then
            (saveFirst (byIdNotDeleted transactionId userId) (assignUpdate data hash) ledger,
             inr (Some (assignUpdate data hash transaction)))
          else (ledger, inl "Transaction validation failed")
      end
  end.

(** Uniqueness of the fingerprint among the transactions of an owner that
    are not deleted: the pairs (owner, fingerprint) of those transactions. *)
Definition liveKeys (ledger : Ledger) : list (string * Digest) :=
  map (fun t => (tx_userId t, tx_duplicateCheckHash t))
      (List.filter (fun t => bool_decide (tx_deletedAt t = None)) ledger).

Definition LiveUnique (ledger : Ledger) : Prop := NoDup (liveKeys ledger).

(** [name.endsWith(suffix)] *)
Definition endsWith (name suffix : string) : bool :=
  String.prefix (String.rev suffix) (String.rev name).

(** The file that the upload middleware stored: [req.file]. *)
Record UploadedFile := {
  uf_originalname : string;
  uf_path : string
}.

(** [fs.unlink(path).catch(console.error)] *)
Definition unlink (w : World) (path : string) : World :=
  {| statements := statements w; transactions := transactions w;
     bankAccounts := bankAccounts w; files := delete path (files w) |}.

(** [uploadStatementHandler]; [newId] is the [_id] that the collection
    gives the new document.  The answer carries the status code and, on
    success, the document, whose two references are ObjectIds. *)
Definition uploadStatementHandler `{eng : Engine} (w : World) (userId bankAccountId : string)
    (file : option UploadedFile) (newId : string) : World * Response BankStatement :=
  match file with
  | None => (w, Failure 400 "No file uploaded")
  | Some file =>
      (* verify bank account exists and belongs to user *)
      match getBankAccountById w bankAccountId userId with
      | inl error =>
          (* clean up file on error *)
          (unlink w (uf_path file), Failure 400 (messageOr error "Failed to upload statement"))
      | inr None => (unlink w (uf_path file), Failure 404 "Bank account not found")
      | inr (Some _) =>
          let fileType := if endsWith (uf_originalname file) ".pdf" then pdf else csv in
          let statement :=
            {| st_userId := objectId userId;
               st_bankAccountId := objectId bankAccountId;
               st_fileName := uf_originalname file;
               st_fileType := fileType;
               st_filePath := Some (uf_path file);
               st_parseStatus := parse_pending;
               st_transactionCount := 0;
               st_parsedTransactions := [];
               st_errorMessage := None |} in
          if truthy (uf_originalname file) then (setStatement w newId statement, Json statement)
          else (unlink w (uf_path file), Failure 400 "BankStatement validation failed")
      end
  end.

(** [getParsedTransactionsHandler]: the candidates and the number of
    flagged ones. *)
Definition getParsedTransactionsHandler `{eng : Engine} (w : World) (userId statementId : string)
    : Response ParseData :=
  match findStatement w statementId userId with
  | inl error => Failure 500 (messageOr error "Failed to retrieve parsed transactions")
  | inr None => Failure 404 "Statement not found"
  | inr (Some statement) =>
      if negb (bool_decide (st_parseStatus statement = parse_completed))
      then Failure 400 "Statement parsing not completed"
      else Json {| pd_transactions := st_parsedTransactions statement;
                   pd_duplicateCount :=
                     List.length (List.filter isFlagged (st_parsedTransactions statement)) |}
  end.

(** ** Notions used in the further properties *)

(** The character occurs in the string. *)
Fixpoint occurs (c : ascii) (s : string) : bool :=
  match s with
  | EmptyString => false
  | String a s' => Ascii.eqb a c || occurs c s'
  end.

Definition quoteChar : ascii := "034".

(** The header columns as [findColumnIndex] compares them. *)
Definition headerColumns (header : string) : list string :=
  map (fun col => toLowerCase (trim col)) (split "," header).

(** The stored fingerprint of a document is the one of its own stored
    date, amount, description and account. *)
Definition Consistent (t : Transaction) : Prop :=
  generateDuplicateHash (tx_date t) (tx_amount t) (tx_description t) (tx_accountId t)
  = inr (tx_duplicateCheckHash t).

(** [n] matches of [P] one after the other, with their captures, those of
    a later match first. *)
Fixpoint Iter (P : string -> captures -> Prop) (n : nat) (s : string) (c : captures) : Prop :=
  match n with
  | O => s = EmptyString /\ c = []
  | S n' =>
      exists s1 s2 c1 c2,
        s = String.append s1 s2 /\ c = c2 ++ c1 /\ P s1 c1 /\ Iter P n' s2 c2
  end.

(** The strings that a regular expression matches from their first to
    their last character, with the captures that the match records (the
    most recent one first). *)
Fixpoint Matches (r : regex) (s : string) (c : captures) : Prop :=
  match r with
  | Chr p => exists a, s = String a EmptyString /\ p a = true /\ c = []
  | Eps => s = EmptyString /\ c = []
  | Seq r1 r2 =>
      exists s1 s2 c1 c2,
        s = String.append s1 s2 /\ c = c2 ++ c1 /\ Matches r1 s1 c1 /\ Matches r2 s2 c2
  | Alt r1 r2 => Matches r1 s c \/ Matches r2 s c
  | Rep _ lo hi r' =>
      exists n, (lo <= n)%nat /\ (forall h, hi = Some h -> (n <= lo + (h - lo))%nat) /\
                Iter (Matches r') n s c
  | Grp i r' => exists c', c = (i, s) :: c' /\ Matches r' s c'
  end.

(** Whatever makes the matcher [step] succeed is a prefix in [P] followed
    by a success of the continuation on the rest. *)
Definition Sound (step : matcher) (P : string -> captures -> Prop) : Prop :=
  forall s c k res,
    step s c k = Some res ->
    exists pre s' caps, s = String.append pre s' /\ P pre caps /\ k s' (caps ++ c) = Some res.

(** Every character of the string satisfies [p]. *)
Fixpoint every (p : ascii -> bool) (s : string) : bool :=
  match s with
  | EmptyString => true
  | String a s' => p a && every p s'
  end.

(** A non-empty string of at most four decimal digits. *)
Definition Numeral (s : string) : Prop :=
  every isDigit s = true /\ (1 <= String.length s <= 4)%nat.

(** The signed sum in the words of the specification, over the types and
    the whole amounts of the transactions: income +amount, expense -amount,
    transfer 0. *)
Definition signedSum (entries : list (TxType * Z)) : Z :=
  fold_left
    (fun sum e =>
       match fst e with
       | income => sum + snd e
       | expense => sum - snd e
       | transfer => sum
       end)%Z
    entries 0%Z.

(** The sum of the absolute values of the amounts. *)
Definition magnitude (entries : list (TxType * Z)) : Z :=
  fold_right (fun e total => Z.abs (snd e) + total)%Z 0%Z entries.

(** No stored candidate carries a temporary identifier. *)
Definition Unlabelled (w : World) : Prop :=
  forall (id : string) (st : BankStatement),
    statements w !! id = Some st ->
    Forall (fun tx => pt_tempId tx = None) (st_parsedTransactions st).

(** The temporary identifier that the extractors give for the number [i]. *)
Definition tempIdOf (i : nat) : string := String.append "temp_" (natToString i).

(** ** A reference engine

    Closed examples run on an engine in UTC whose generic date parser
    recognises no string, on which an ObjectId is a string of 24
    hexadecimal digits, in lower case when canonical, and on which a PDF is
    a file that starts with [%PDF]: its text is then what follows the first
    line of the file. *)

Definition isHexDigit (c : ascii) : bool :=
  isDigit c || ((97 <=? code (lowerChar c))%nat && (code (lowerChar c) <=? 102)%nat).

Definition LF : string := String "010" EmptyString.

Definition utcEngine : Engine :=
  {| LocalTZA := 0;
     Date_parse := fun _ => invalidDate;
     castObjectId := fun s =>
       if (String.length s =? 24)%nat && every isHexDigit s then Some (toLowerCase s) else None;
     pdfParse := fun content =>
       if String.prefix "%PDF" content
       then inr (String.concat LF (List.tl (split "010" content)))
       else inl "Invalid PDF structure" |}.

(** ** The bulk create, row by row

    The loop of [createTransactions] read as a list of outcomes, one per
    row; [createTransactions_outcomes] below shows that the loop computes
    exactly these. *)

Inductive RowOutcome :=
| Created (saved : Transaction)
| Duplicate
| Skipped.

Definition fingerprintOf (txData : CreateTransactionData) : Error + Digest :=
  generateDuplicateHash (ct_date txData) (ct_amount txData)
    (ct_description txData) (ct_accountId txData).

Definition rowOutcome (skipDuplicates : bool) (ledger : Ledger) (txData : CreateTransactionData)
    : RowOutcome :=
  match fingerprintOf txData with
  | inl _ => Skipped
  | inr hash =>
      if skipDuplicates &&
         bool_decide (is_Some (findOne (byHashNotDeleted (ct_userId txData) hash) ledger))
      then Duplicate
      else match save ledger txData hash with
           | inr saved => Created saved
           | inl _ => Skipped
           end
  end.

Definition ledgerAfter (o : RowOutcome) (ledger : Ledger) : Ledger :=
  match o with
  | Created saved => ledger ++ [saved]
  | _ => ledger
  end.

Fixpoint outcomes (skipDuplicates : bool) (transactions : list CreateTransactionData)
    (ledger : Ledger) : list RowOutcome :=
  match transactions with
  | [] => []
  | txData :: rest =>
      let o := rowOutcome skipDuplicates ledger txData in
      o :: outcomes skipDuplicates rest (ledgerAfter o ledger)
  end.

Fixpoint createdOf (os : list RowOutcome) : list Transaction :=
  match os with
  | [] => []
  | Created saved :: os' => saved :: createdOf os'
  | _ :: os' => createdOf os'
  end.

Fixpoint duplicatesOf (os : list RowOutcome) : nat :=
  match os with
  | [] => 0
  | Duplicate :: os' => S (duplicatesOf os')
  | _ :: os' => duplicatesOf os'
  end.

Fixpoint skippedOf (os : list RowOutcome) : nat :=
  match os with
  | [] => 0
  | Skipped :: os' => S (skippedOf os')
  | _ :: os' => skippedOf os'
  end.

(** A transaction of the owner that is not deleted carries the
    fingerprint of the data. *)
Definition fingerprintPresent (ledger : Ledger) (txData : CreateTransactionData) : bool :=
  match fingerprintOf txData with
  | inr hash => bool_decide (is_Some (findOne (byHashNotDeleted (ct_userId txData) hash) ledger))
  | inl _ => false
  end.

(** The create of the data fails whatever the ledger holds: its date has
    no fingerprint or the schema refuses it. *)
Definition rowFails (txData : CreateTransactionData) : bool :=
  match fingerprintOf txData with
  | inr _ => negb (validTransaction txData)
  | inl _ => true
  end.

(** The type that the type column of a row imposes, if any: none when
    there is no type column, when the field is empty, or when it holds none
    of the keywords. *)
Definition typeColumnOverride (cols : Columns) (columns : list string) : option TxType :=
  match column columns (typeCol cols) (Some EmptyString) with
  | Some t => if truthy t then typeOverride t else None
  | None => None
  end.

(** ** Sample data for the closed examples *)

(** Two users, an account and two uploads: their ObjectIds. *)
Abbreviation user1 := ("a11ce0000000000000000001"%string) (only parsing).
Abbreviation user2 := ("b0b000000000000000000002"%string) (only parsing).
Abbreviation acct1 := ("acc000000000000000000001"%string) (only parsing).
Abbreviation stmt1 := ("d0c000000000000000000001"%string) (only parsing).
Abbreviation stmt2 := ("d0c000000000000000000002"%string) (only parsing).

(** 1 March 2024, midnight UTC. *)
Definition march1 : JSDate := validDate 1709251200000.

Definition candidate (tempId : string) (amount : Z) (description : string) (type : TxType)
    : ParsedTransaction :=
  {| pt_date := march1;
     pt_amount := Num (amount # 1);
     pt_description := description;
     pt_type := type;
     pt_referenceNumber := None;
     pt_balance := None;
     pt_isDuplicate := Some false;
     pt_matchingTransactionId := None;
     pt_tempId := Some tempId |}.

(** An upload of [user1] for the account [acct1], stored at uploads/march. *)
Definition upload (fileType : FileType) (status : ParseStatus)
    (candidates : list ParsedTransaction) : BankStatement :=
  {| st_userId := user1;
     st_bankAccountId := acct1;
     st_fileName := "march";
     st_fileType := fileType;
     st_filePath := Some "uploads/march";
     st_parseStatus := status;
     st_transactionCount := List.length candidates;
     st_parsedTransactions := candidates;
     st_errorMessage := None |}.

(** A world with the one upload [stmt1], the account [acct1] of [user1] with
    balance 5000, the given ledger and the given content of the file. *)
Definition world (statement : BankStatement) (ledger : Ledger) (fileContent : string) : World :=
  {| statements := {[ stmt1 := statement ]};
     transactions := ledger;
     bankAccounts := {[ acct1 := {| acc_userId := user1;
                                       acc_currentBalance := Num (5000 # 1);
                                       acc_currency := "INR" |} ]};
     files := {[ "uploads/march" := fileContent ]} |}.

Definition electricityRow : string := "01-03-2024,-450.00,Electricity Bill".

(** The fingerprint of a purchase of 450 at the coffee shop on 1 March
    2024 on [acct1]. *)
Definition coffeeHash : Digest := SHA256 "2024-03-01|450|coffee shop|acc000000000000000000001".

(** That purchase as a ledger transaction of [user1], possibly soft-deleted. *)
Definition coffeeEntry (deletedAt : option JSDate) : Transaction :=
  {| tx_id := "tx_0";
     tx_userId := user1;
     tx_accountId := acct1;
     tx_accountType := bank;
     tx_type := expense;
     tx_amount := Num (450 # 1);
     tx_currency := "INR";
     tx_description := "Coffee Shop";
     tx_date := march1;
     tx_status := completed;
     tx_referenceNumber := None;
     tx_duplicateCheckHash := coffeeHash;
     tx_deletedAt := deletedAt |}.

(** The same purchase as data for a create. *)
Definition coffeeData : CreateTransactionData :=
  {| ct_userId := user1;
     ct_accountId := acct1;
     ct_accountType := bank;
     ct_type := expense;
     ct_amount := Num (450 # 1);
     ct_currency := "INR";
     ct_description := "Coffee Shop";
     ct_date := march1;
     ct_referenceNumber := None |}.

(** The world after the parse of an upload of [user1] whose file is the
    given tabular document, on an empty ledger. *)
Definition parsedWorld (document : string) : World :=
  (parseStatementHandler (eng := utcEngine)
     (world (upload csv parse_pending []) [] document) user1 stmt1).1.

(** The header and the row of the specification's sign example. *)
Definition electricityDocument : string :=
  String.concat LF ["Date,Amount,Description"; electricityRow].

(** A tabular document with an income and an expense of 401 digits. *)
Definition overflowDocument : string :=
  String.concat LF
    ["Date,Amount,Description";
     String.concat EmptyString ["01-03-2024,1"; zeros 400; ",Windfall"];
     String.concat EmptyString ["02-03-2024,-1"; zeros 400; ",Crash"]].

(** Two rows of March: an expense written with its currency, and an
    income written with a thousands separator in a quoted field. *)
Definition marchDocument : string :=
  String.concat LF
    ["Date,Amount,Description";
     "01-03-2024,INR -450.00,Electricity Bill";
     String.concat EmptyString
       ["02-03-2024,"; String quoteChar "1,200.50"; String quoteChar ",Salary"]].

(** The file that the upload middleware stored for april.pdf. *)
Definition aprilFile : UploadedFile :=
  {| uf_originalname := "april.pdf"; uf_path := "uploads/april" |}.

(** A world without uploads, with the account [acct1] of [user1] and the
    file of [aprilFile] on the disk. *)
Definition inbox : World :=
  {| statements := ∅;
     transactions := [];
     bankAccounts := {[ acct1 := {| acc_userId := user1;
                                    acc_currentBalance := Num (5000 # 1);
                                    acc_currency := "INR" |} ]};
     files := {[ "uploads/april" := electricityDocument ]} |}.

(** The candidates of an answer, none for a failure. *)
Definition candidatesOf (response : Response ParseData) : list ParsedTransaction :=
  match response with
  | Json data => pd_transactions data
  | Failure _ _ => []
  end.

(** A lunch of 120 on the same day and account, as a second ledger
    transaction of [user1]. *)
Definition lunchEntry : Transaction :=
  {| tx_id := "tx_1";
     tx_userId := user1;
     tx_accountId := acct1;
     tx_accountType := bank;
     tx_type := expense;
     tx_amount := Num (120 # 1);
     tx_currency := "INR";
     tx_description := "Lunch";
     tx_date := march1;
     tx_status := completed;
     tx_referenceNumber := None;
     tx_duplicateCheckHash := SHA256 "2024-03-01|120|lunch|acc000000000000000000001";
     tx_deletedAt := None |}.

(** The rent of 9000 as data for a create. *)
Definition rentData : CreateTransactionData :=
  {| ct_userId := user1;
     ct_accountId := acct1;
     ct_accountType := bank;
     ct_type := expense;
     ct_amount := Num (9000 # 1);
     ct_currency := "INR";
     ct_description := "Rent";
     ct_date := march1;
     ct_referenceNumber := None |}.

(** The update that only supplies a description. *)
Definition rename (description : string) : UpdateTransactionData :=
  {| ud_amount := None; ud_description := Some description; ud_date := None;
     ud_status := None; ud_referenceNumber := None |}.

(** The update that makes a transaction a purchase of 450 at the coffee
    shop. *)
Definition intoCoffee : UpdateTransactionData :=
  {| ud_amount := Some (Num (450 # 1)); ud_description := Some "Coffee Shop";
     ud_date := None; ud_status := None; ud_referenceNumber := None |}.

(** The edit request that only supplies an amount. *)
Definition amountEdit (a : JSNum) : EditBody :=
  {| eb_date := None; eb_amount := Some a; eb_description := None;
     eb_type := None; eb_referenceNumber := None |}.

(** The body with its amount replaced. *)
Definition withAmount (body : EditBody) (a : JSNum) : EditBody :=
  {| eb_date := eb_date body; eb_amount := Some a; eb_description := eb_description body;
     eb_type := eb_type body; eb_referenceNumber := eb_referenceNumber body |}.

Definition accepted {A} (r : Response A) : bool :=
  match r with Json _ => true | Failure _ _ => false end.

(** A completed upload with an income candidate of 1000 and an expense
    candidate of 300, on an empty ledger; the account holds 5000. *)
Definition salaryWorld : World :=
  world (upload csv parse_completed
           (map storedParsed
              [candidate "temp_1" 1000 "Salary" income;
               candidate "temp_2" 300 "Groceries" expense]))
    [] EmptyString.

Definition confirmAll (skipDuplicates : bool) : ConfirmBody :=
  {| cb_transactionIds := None; cb_skipDuplicates := skipDuplicates |}.

(** A completed upload whose two candidates are the same purchase (the
    statement lists it twice), neither flagged, on an empty ledger. *)
Definition twinWorld : World :=
  world (upload csv parse_completed
           (map storedParsed
              [candidate "temp_1" 450 "Coffee Shop" expense;
               candidate "temp_2" 450 "Coffee Shop" expense]))
    [] EmptyString.

(** The outcome of a row on a ledger that already went through the batch. *)
Definition replayOutcome (ledger : Ledger) (txData : CreateTransactionData) : RowOutcome :=
  if fingerprintPresent ledger txData then Duplicate else Skipped.

(** * Properties *)

(** The conjuncts of a goal, one by one, without unifying the two sides of
    an equation. *)
Ltac conjuncts := repeat match goal with |- _ /\ _ => split end.

Example parseFloat_ex :
  JS.parseFloat "-450.00" = JS.Num (-450 # 1) /\ JS.parseFloat "01-03-2024" = JS.Num (1 # 1) /\
  JS.parseFloat "Coffee" = JS.NaN /\ JS.parseFloat ".5" = JS.Num (1 # 2) /\
  JS.parseFloat "1.5e3x" = JS.Num (1500 # 1) /\ JS.parseFloat "." = JS.NaN /\
  JS.parseFloat "--5" = JS.NaN /\ JS.parseFloat " 12.50abc" = JS.Num (25 # 2) /\
  JS.parseFloat "0.1" = JS.Num (3602879701896397 # 36028797018963968) /\
  JS.parseFloat "1e400" = JS.Inf false /\ JS.parseFloat "9007199254740993" = JS.Num (9007199254740992 # 1).
Proof. conjuncts; vm_compute; reflexivity. Qed.
Example add_ex :
  JS.numberToString (JS.add (JS.parseFloat "0.1") (JS.parseFloat "0.2")) = "0.30000000000000004" /\
  JS.add (JS.parseFloat "0.5") (JS.parseFloat "0.25") = JS.Num (3 # 4) /\
  JS.add (JS.ofZ 9007199254740992) (JS.ofZ 1) = JS.ofZ 9007199254740992 /\
  JS.add (JS.Inf false) (JS.Inf true) = JS.NaN.
Proof. conjuncts; vm_compute; reflexivity. Qed.
Example numberToString_ex :
  JS.numberToString (JS.Num (-450 # 1)) = "-450" /\ JS.numberToString (JS.Num (25 # 2)) = "12.5" /\
  JS.numberToString (JS.parseFloat "2e-2") = "0.02" /\ JS.numberToString (JS.Num 0) = "0" /\
  JS.numberToString (JS.parseFloat "1e21") = "1e+21" /\
  JS.numberToString (JS.parseFloat "123456789012345678901") = "123456789012345680000" /\
  JS.numberToString (JS.parseFloat "0.0000001") = "1e-7" /\
  JS.numberToString (JS.parseFloat "0.000001234") = "0.000001234" /\
  JS.numberToString (JS.parseFloat "-1.5e-9") = "-1.5e-9".
Proof. conjuncts; vm_compute; reflexivity. Qed.
Example parseInt_ex :
  JS.parseInt "03" = Some 3%Z /\ JS.parseInt "Jan" = None /\ JS.parseInt "2024" = Some 2024%Z.
Proof. conjuncts; vm_compute; reflexivity. Qed.
Example civil_ex :
  JS.daysFromCivil 1970 1 1 = 0%Z /\ JS.daysFromCivil 2024 3 1 = 19783%Z /\
  JS.civilFromDays 19783 = (2024, 3, 1)%Z /\ JS.civilFromDays (-1) = (1969, 12, 31)%Z /\
  JS.MakeDay 2024 2 1 = 19783%Z /\ JS.MakeDay 2023 14 1 = 19783%Z /\
  JS.toISOString (JS.validDate (19783 * 86400000 + 3723004)) = Some "2024-03-01T01:02:03.004Z" /\
  JS.toISOString (JS.validDate (-1)) = Some "1969-12-31T23:59:59.999Z".
Proof. conjuncts; vm_compute; reflexivity. Qed.
Example parseCSVLine_ex :
  parseCSVLine "01-03-2024,-450.00,Electricity Bill" = ["01-03-2024"; "-450.00"; "Electricity Bill"].
Proof. reflexivity. Qed.
Example findColumnIndex_ex :
  findColumnIndex "date,narration,amount,type" ["description"; "particulars"; "narration"; "details"] = 1%Z /\
  findColumnIndex "date,amount,description" ["type"; "transaction type"; "debit/credit"; "dr/cr"] = (-1)%Z.
Proof. split; reflexivity. Qed.
Example trim_ex : JS.trim "  Coffee Shop  " = "Coffee Shop".
Proof. reflexivity. Qed.
Example split_ex : JS.split "," "a,b,,c" = ["a"; "b"; ""; "c"].
Proof. reflexivity. Qed.
Example split_ex2 : JS.split "," "" = [""].
Proof. reflexivity. Qed.
Example incl_ex : JS.includes "description" "type" = false /\ JS.includes "txn type" "type" = true /\ JS.includes "" "" = true.
Proof. conjuncts; vm_compute; reflexivity. Qed.
Example tostr_ex : JS.natToString 0 = "0" /\ JS.natToString 12 = "12" /\ JS.ZToString (-5) = "-5" /\ JS.ZToString 0 = "0".
Proof. conjuncts; vm_compute; reflexivity. Qed.

(** ** Fingerprint engine *)

(** C4. The fingerprint depends on the description only through its
    trimmed, lower-cased form: two descriptions that agree after [trim] and
    [toLowerCase] give the same fingerprint for the same date, amount and
    account. *)
Theorem fingerprint_case_whitespace_insensitive :
  forall (d : JSDate) (a : JSNum) (s1 s2 acct : string),
    toLowerCase (trim s1) = toLowerCase (trim s2) ->
    generateDuplicateHash d a s1 acct = generateDuplicateHash d a s2 acct.
Proof.
  intros d a s1 s2 acct Hnorm.
  unfold generateDuplicateHash.
  rewrite Hnorm.
  reflexivity.
Qed.

(** The instance of the specification: the two spellings of the coffee
    shop, on 1 March 2024 for 450. *)
Lemma fingerprint_coffee_shop :
  toLowerCase (trim "  Coffee Shop  ") = toLowerCase (trim "coffee shop") /\
  generateDuplicateHash (validDate 1709251200000) (Num (450 # 1)) "  Coffee Shop  " acct1
  = generateDuplicateHash (validDate 1709251200000) (Num (450 # 1)) "coffee shop" acct1.
Proof.
  split; [reflexivity|].
  apply (fingerprint_case_whitespace_insensitive
           (validDate 1709251200000) (Num (450 # 1)) "  Coffee Shop  " "coffee shop" acct1).
  reflexivity.
Defined.

Example fingerprint_message :
  generateDuplicateHash (validDate 1709251200000) (Num (450 # 1)) "  Coffee Shop  " acct1
  = inr (SHA256 "2024-03-01|450|coffee shop|acc000000000000000000001").
Proof. reflexivity. Qed.

(** ** Lookups by ObjectId *)

Lemma pair_answer {A B} (call : A * B) (answer : B) :
  call.2 = answer -> call = (call.1, answer).
Proof. intros <-. apply surjective_pairing. Qed.

Section Lookups.
Context `{eng : Engine}.

Lemma objectId_cast (id canonical : string) :
  castObjectId id = Some canonical -> objectId id = canonical.
Proof. unfold objectId. intros ->. reflexivity. Qed.

Lemma findStatement_Some (w : World) (statementId userId : string) (statement : BankStatement) :
  findStatement w statementId userId = inr (Some statement) ->
  castObjectId statementId = Some (objectId statementId) /\
  statements w !! objectId statementId = Some statement /\
  castObjectId userId = Some (st_userId statement).
Proof.
  unfold findStatement, objectId.
  destruct (castObjectId statementId) as [id|]; [|discriminate].
  destruct (castObjectId userId) as [owner|]; [|discriminate].
  cbn [default]. destruct (statements w !! id) as [st|] eqn:Hlookup; [|discriminate].
  destruct (String.eqb_spec (st_userId st) owner) as [Howner|]; [|discriminate].
  intros [= <-]. rewrite Howner. auto.
Qed.

Lemma findStatement_lookup (w : World) (statementId userId : string) (statement : BankStatement) :
  castObjectId statementId = Some (objectId statementId) ->
  castObjectId userId = Some (st_userId statement) ->
  statements w !! objectId statementId = Some statement ->
  findStatement w statementId userId = inr (Some statement).
Proof.
  intros Hid Howner Hlookup. unfold findStatement.
  rewrite Hid, Howner, Hlookup, String.eqb_refl. reflexivity.
Qed.

Lemma findStatement_set (w : World) (statementId userId : string) (statement : BankStatement) :
  castObjectId statementId = Some (objectId statementId) ->
  castObjectId userId = Some (st_userId statement) ->
  findStatement (setStatement w (objectId statementId) statement) statementId userId
  = inr (Some statement).
Proof.
  intros Hid Howner. apply findStatement_lookup; [exact Hid|exact Howner|].
  unfold setStatement. cbn [statements]. apply lookup_insert_eq.
Qed.

Lemma findStatement_statements (w w' : World) (statementId userId : string) :
  statements w' = statements w ->
  findStatement w' statementId userId = findStatement w statementId userId.
Proof. intros Hsame. unfold findStatement. rewrite Hsame. reflexivity. Qed.

Lemma findStatement_cast_fails (w : World) (statementId userId : string) :
  castObjectId statementId = None ->
  findStatement w statementId userId = inl (castError statementId "_id" "BankStatement").
Proof. intros Hid. unfold findStatement. rewrite Hid. reflexivity. Qed.

Lemma getBankAccountById_Some (w : World) (accountId userId : string) (account : BankAccount) :
  getBankAccountById w accountId userId = inr (Some account) ->
  castObjectId accountId = Some (objectId accountId) /\
  bankAccounts w !! objectId accountId = Some account /\
  castObjectId userId = Some (acc_userId account).
Proof.
  unfold getBankAccountById, objectId.
  destruct (castObjectId accountId) as [id|]; [|discriminate].
  destruct (castObjectId userId) as [owner|]; [|discriminate].
  cbn [default]. destruct (bankAccounts w !! id) as [a|] eqn:Hlookup; [|discriminate].
  destruct (String.eqb_spec (acc_userId a) owner) as [Howner|]; [|discriminate].
  intros [= <-]. rewrite Howner. auto.
Qed.

Lemma getBankAccountById_accounts (w w' : World) (accountId userId : string) :
  bankAccounts w' = bankAccounts w ->
  getBankAccountById w' accountId userId = getBankAccountById w accountId userId.
Proof. intros Hsame. unfold getBankAccountById. rewrite Hsame. reflexivity. Qed.

Lemma findStatement_thrown (w : World) (statementId userId : string) (thrown : Error) :
  findStatement w statementId userId = inl thrown ->
  forall fallback, messageOr thrown fallback = thrown.
Proof.
  unfold findStatement. destruct (castObjectId statementId); [|intros [= <-]; reflexivity].
  destruct (castObjectId userId); [discriminate | intros [= <-]; reflexivity].
Qed.

Lemma getBankAccountById_thrown (w : World) (accountId userId : string) (thrown : Error) :
  getBankAccountById w accountId userId = inl thrown ->
  forall fallback, messageOr thrown fallback = thrown.
Proof.
  unfold getBankAccountById. destruct (castObjectId accountId); [|intros [= <-]; reflexivity].
  destruct (castObjectId userId); [discriminate | intros [= <-]; reflexivity].
Qed.

End Lookups.

(** ** Tabular extractor: the guard on the number of lines *)

Section TabularGuard.
Context `{eng : Engine}.

Lemma parseCSVStatement_too_short (fileContent : string) :
  (List.length (split "010" (trim fileContent)) < 2)%nat ->
  parseCSVStatement fileContent = inl "CSV file is empty or invalid".
Proof.
  intros Hshort. unfold parseCSVStatement.
  apply Nat.ltb_lt in Hshort. rewrite Hshort. reflexivity.
Qed.

(** C10. A tabular document whose trimmed content has fewer than two
    lines makes [parseCSVStatement] throw, with the message of the source;
    and [parseStatementHandler], run on an upload of kind csv with that
    content, answers 500 with the message and marks the upload failed: the
    document that the caller finds afterwards has the status [failed] and
    carries the message, its candidate list and its count are untouched,
    and nothing else in the world changes. *)
Theorem csv_fewer_than_two_lines_fails :
  forall (fileContent : string),
    (List.length (split "010" (trim fileContent)) < 2)%nat ->
    parseCSVStatement fileContent = inl "CSV file is empty or invalid" /\
    forall (w : World) (userId statementId filePath : string) (statement : BankStatement),
      findStatement w statementId userId = inr (Some statement) ->
      st_fileType statement = csv ->
      st_filePath statement = Some filePath ->
      truthy filePath = true ->
      files w !! filePath = Some fileContent ->
      exists (w' : World) (stored : BankStatement),
        parseStatementHandler w userId statementId
        = (w', Failure 500 "CSV file is empty or invalid") /\
        findStatement w' statementId userId = inr (Some stored) /\
        st_parseStatus stored = failed /\
        st_errorMessage stored = Some "CSV file is empty or invalid" /\
        st_parsedTransactions stored = st_parsedTransactions statement /\
        st_transactionCount stored = st_transactionCount statement /\
        (st_userId stored, st_bankAccountId stored, st_fileName stored,
         st_fileType stored, st_filePath stored)
        = (st_userId statement, st_bankAccountId statement, st_fileName statement,
           st_fileType statement, st_filePath statement) /\
        (forall other : string,
           other <> objectId statementId -> statements w' !! other = statements w !! other) /\
        transactions w' = transactions w /\
        bankAccounts w' = bankAccounts w /\
        files w' = files w.
Proof.
  intros fileContent Hshort.
  pose proof (parseCSVStatement_too_short fileContent Hshort) as Hthrow.
  split; [exact Hthrow|].
  intros w userId statementId filePath statement Hfind Hcsv Hpath Htruthy Hfile.
  destruct (findStatement_Some _ _ _ _ Hfind) as (Hid & Hlookup & Howner).
  unfold parseStatementHandler.
  rewrite Hfind, Hpath, Htruthy. cbn [negb].
  unfold extract, readFile. cbn [files setStatement].
  rewrite Hfile. cbn [st_fileType withStatus]. rewrite Hcsv, Hthrow.
  eexists. eexists. split; [reflexivity|].
  split.
  { unfold findStatement. rewrite Hid, Howner. cbn [statements setStatement].
    rewrite lookup_insert_eq. cbn [st_userId withError withStatus].
    rewrite String.eqb_refl. reflexivity. }
  cbn [st_parseStatus st_errorMessage st_parsedTransactions st_transactionCount
       st_userId st_bankAccountId st_fileName st_fileType st_filePath withError withStatus
       statements setStatement transactions bankAccounts files].
  do 4 (split; [reflexivity|]).
  split; [rewrite Hcsv, Hpath; reflexivity|].
  split; [|repeat split].
  intros other Hother. rewrite !lookup_insert_ne by congruence. reflexivity.
Qed.

End TabularGuard.

(** The upload whose file is the single data row of the specification:
    it is marked failed. *)
Lemma one_row_upload_fails :
  (List.length (split "010" (trim electricityRow)) < 2)%nat /\
  parseCSVStatement (eng := utcEngine) electricityRow = inl "CSV file is empty or invalid" /\
  exists (w' : World) (stored : BankStatement),
    parseStatementHandler (eng := utcEngine)
      (world (upload csv parse_pending []) [] electricityRow) user1 stmt1
    = (w', Failure 500 "CSV file is empty or invalid") /\
    findStatement (eng := utcEngine) w' stmt1 user1 = inr (Some stored) /\
    st_parseStatus stored = failed /\
    st_errorMessage stored = Some "CSV file is empty or invalid" /\
    st_parsedTransactions stored = [] /\
    st_transactionCount stored = 0%nat.
Proof.
  assert (Hshort : (List.length (split "010" (trim electricityRow)) < 2)%nat)
    by (vm_compute; lia).
  destruct (csv_fewer_than_two_lines_fails (eng := utcEngine) electricityRow Hshort)
    as [Hthrow Hhandler].
  split; [exact Hshort|]. split; [exact Hthrow|].
  destruct (Hhandler (world (upload csv parse_pending []) [] electricityRow)
              user1 stmt1 "uploads/march" (upload csv parse_pending []))
    as (w' & stored & Hanswer & Hfound & Hstatus & Hmessage & Hlist & Hcount & _);
    try reflexivity.
  exists w', stored. repeat split; assumption.
Defined.

(** ** Date normalizer *)

(** C5, evaluated on the code.  The first format is not anchored: on the
    token 2024-03-01 it matches 24-03-01, and the token is read as day 24,
    month 3, year 01, that is 24 March 2001, on every engine.  The second
    format is never tried.  On the reference engine the result prints as
    2001-03-24 and is not the date 1 March 2024. *)
Theorem parseDate_year_first_token :
  (forall eng : Engine,
      exec (List.hd Eps formats) "2024-03-01"
      = Some {| whole := "24-03-01"; groups := [(3, "01"); (2, "03"); (1, "24")]%nat |} /\
      parseDate (eng := eng) "2024-03-01"
      = Some (newDate (eng := eng) (Some 2001%Z) (Some 2%Z) (Some 24%Z))) /\
  (parseDate (eng := utcEngine) "2024-03-01" ≫= toISOString)
  = Some "2001-03-24T00:00:00.000Z" /\
  parseDate (eng := utcEngine) "2024-03-01"
  <> Some (newDate (eng := utcEngine) (Some 2024%Z) (Some 2%Z) (Some 1%Z)).
Proof.
  split; [|split].
  - intros eng. split; [vm_compute; reflexivity|].
    lazy -[newDate]. reflexivity.
  - vm_compute. reflexivity.
  - vm_compute. discriminate.
Qed.

(** ** Free-text extractor *)

(** C8, evaluated on the code.  The line [Coffee Shop 450.00 01-03-2024]
    has the shape description, amount, date, and only the third pattern
    matches it.  Its third group, the date token, is not [NaN] under
    [parseFloat] (it reads 1), so the branch for a leading date runs: the
    description is handed to [parseDate] and the date token becomes the
    description.  Whatever the engine, the extractor emits nothing, or one
    candidate described by the date token and dated by the generic parse of
    the description; on the reference engine it emits nothing. *)
Theorem parsePDFStatement_trailing_date_line :
  (forall eng : Engine,
      parsePDFStatement (eng := eng) "Coffee Shop 450.00 01-03-2024"
      = if isValidDate (Date_parse "Coffee Shop")
        then [ {| pt_date := Date_parse "Coffee Shop";
                  pt_amount := Num (450 # 1);
                  pt_description := "01-03-2024";
                  pt_type := income;
                  pt_referenceNumber := None;
                  pt_balance := None;
                  pt_isDuplicate := None;
                  pt_matchingTransactionId := None;
                  pt_tempId := Some "temp_0" |} ]
        else []) /\
  exec (List.nth 2 patterns Eps) "Coffee Shop 450.00 01-03-2024"
  = Some {| whole := "Coffee Shop 450.00 01-03-2024";
            groups := [(3, "01-03-2024"); (2, "450.00"); (1, "Coffee Shop")]%nat |} /\
  parseFloat "01-03-2024" = Num (1 # 1) /\
  parsePDFStatement (eng := utcEngine) "Coffee Shop 450.00 01-03-2024" = [].
Proof.
  split; [|split; [|split]].
  - intros [tza dp]. vm_compute.
    destruct (dp _) as [[t|]]; reflexivity.
  - vm_compute. reflexivity.
  - vm_compute. reflexivity.
  - vm_compute. reflexivity.
Qed.

(** ** Duplicate check against soft-deleted transactions *)

(** C2, evaluated on the code.  For a single candidate,
    [checkDuplicates] answers with the first transaction of the owner that
    carries the fingerprint, deleted or not.  In the example the ledger of
    [user1] holds one transaction with the fingerprint of the candidate, and
    it is soft-deleted.  The filter of [checkDuplicates] has no [deletedAt]
    condition: the mapping it returns gives that deleted transaction for the
    fingerprint, and [detectDuplicates] flags the candidate as a duplicate of
    it.  The filter of the create path, which has the condition, finds
    nothing for the same fingerprint. *)
Theorem checkDuplicates_reports_soft_deleted :
  (forall (ledger : Ledger) (userId : string) (tx : HashInput) (hash : Digest)
          (found : Transaction),
      generateDuplicateHash (hi_date tx) (hi_amount tx) (hi_description tx) (hi_accountId tx)
      = inr hash ->
      findOne (byHash userId hash) ledger = Some found ->
      checkDuplicates ledger userId [tx] = inr {[ hash := Some found ]}) /\
  generateDuplicateHash march1 (Num (450 # 1)) "Coffee Shop" acct1 = inr coffeeHash /\
  checkDuplicates [coffeeEntry (Some march1)] user1
    [ {| hi_date := march1; hi_amount := Num (450 # 1);
         hi_description := "Coffee Shop"; hi_accountId := acct1 |} ]
  = inr {[ coffeeHash := Some (coffeeEntry (Some march1)) ]} /\
  findOne (byHashNotDeleted user1 coffeeHash) [coffeeEntry (Some march1)] = None /\
  detectDuplicates [coffeeEntry (Some march1)] user1
    [candidate "temp_1" 450 "Coffee Shop" expense] acct1
  = inr [ {| pt_date := march1;
             pt_amount := Num (450 # 1);
             pt_description := "Coffee Shop";
             pt_type := expense;
             pt_referenceNumber := None;
             pt_balance := None;
             pt_isDuplicate := Some true;
             pt_matchingTransactionId := Some "tx_0";
             pt_tempId := Some "temp_1" |} ].
Proof.
  split.
  - intros ledger userId tx hash found Hhash Hfound.
    unfold checkDuplicates. cbn [checkDuplicates_loop].
    rewrite Hhash, Hfound. reflexivity.
  - conjuncts; vm_compute; reflexivity.
Qed.

(** ** Bulk create without the duplicate check *)

(** C3, evaluated on the code.  Without [skipDuplicates] the bulk
    create saves every valid row, whatever the ledger holds.  In the example
    the ledger of [user1] holds a transaction that is not deleted and has the
    fingerprint of the data.  The single
    create refuses the data as a duplicate, and the bulk create with
    [skipDuplicates] counts it as a duplicate; but the bulk create without
    [skipDuplicates] makes no lookup and the schema index on the fingerprint
    is not unique, so the row is saved a second time.  Through the confirm
    handler: the flagged candidate is imported again and the balance of the
    account is charged again. *)
Theorem createTransactions_inserts_duplicate :
  (forall (ledger : Ledger) (txData : CreateTransactionData) (hash : Digest),
      fingerprintOf txData = inr hash ->
      validTransaction txData = true ->
      exists saved,
        createTransactions ledger [txData] false
        = (ledger ++ [saved], {| created := [saved]; skipped := 0; duplicates := 0 |}) /\
        tx_duplicateCheckHash saved = hash /\
        tx_userId saved = ct_userId txData /\
        tx_deletedAt saved = None) /\
  createTransaction [coffeeEntry None] coffeeData
  = ([coffeeEntry None], inl "Duplicate transaction detected") /\
  createTransactions [coffeeEntry None] [coffeeData] true
  = ([coffeeEntry None], {| created := []; skipped := 0; duplicates := 1 |}) /\
  (exists saved,
      createTransactions [coffeeEntry None] [coffeeData] false
      = ([coffeeEntry None; saved], {| created := [saved]; skipped := 0; duplicates := 0 |}) /\
      tx_duplicateCheckHash saved = coffeeHash /\
      tx_userId saved = user1 /\
      tx_deletedAt saved = None) /\
  (exists w',
      confirmParsedTransactionsHandler (eng := utcEngine)
        (world (upload csv parse_completed
                  [ {| pt_date := march1; pt_amount := Num (450 # 1);
                       pt_description := "Coffee Shop"; pt_type := expense;
                       pt_referenceNumber := None; pt_balance := None;
                       pt_isDuplicate := Some true;
                       pt_matchingTransactionId := Some "tx_0";
                       pt_tempId := None |} ])
               [coffeeEntry None] EmptyString)
        user1 stmt1 {| cb_transactionIds := None; cb_skipDuplicates := false |}
      = (w', Json {| cd_created := 1; cd_skipped := 0; cd_duplicates := 0 |}) /\
      map tx_duplicateCheckHash (transactions w') = [coffeeHash; coffeeHash] /\
      map tx_deletedAt (transactions w') = [None; None] /\
      acc_currentBalance <$> bankAccounts w' !! acct1 = Some (Num (4550 # 1))).
Proof.
  split.
  { intros ledger txData hash Hhash Hvalid.
    unfold createTransactions. cbn [createTransactions_loop].
    unfold fingerprintOf in Hhash. rewrite Hhash. cbn [andb].
    unfold save. rewrite Hvalid.
    eexists. split; [reflexivity|]. repeat split. }
  split; [vm_compute; reflexivity|].
  split; [vm_compute; reflexivity|].
  split.
  - eexists. conjuncts; vm_compute; reflexivity.
  - match goal with
    | |- exists w', ?call = _ /\ _ => exists call.1; split; [apply pair_answer|]
    end; conjuncts; vm_compute; reflexivity.
Qed.

(** ** Tabular extractor: sign of the amount *)

Lemma lt0_number (x : JSNum) :
  lt0 x = true ->
  isNaN x = false /\ isZero x = false /\ gt0 x = false /\ gt0 (abs x) = true.
Proof.
  destruct x as [|negative|[n d]]; cbn; try discriminate.
  - intros ->. auto.
  - intros Hneg. apply Z.ltb_lt in Hneg.
    repeat split.
    + unfold Qeq_bool; cbn. apply Z.eqb_neq. lia.
    + apply Z.ltb_ge. lia.
    + apply Z.ltb_lt. lia.
Qed.

Section TabularSign.
Context `{eng : Engine}.

Lemma parseCSVRows_elem (cols : Columns) (lines : list string) :
  forall (start k : nat) (rawLine : string) (tx : ParsedTransaction),
    lines !! k = Some rawLine ->
    parseCSVRow cols (start + k) rawLine = Some tx ->
    tx ∈ parseCSVRows cols start lines.
Proof.
  induction lines as [|l lines IH]; intros start k rawLine tx Hk Hrow.
  - discriminate.
  - destruct k as [|k]; cbn in Hk.
    + injection Hk as ->. rewrite Nat.add_0_r in Hrow.
      cbn. rewrite Hrow. left.
    + cbn. replace (start + S k)%nat with (S start + k)%nat in Hrow by lia.
      pose proof (IH (S start) k rawLine tx Hk Hrow) as Hin.
      destruct (parseCSVRow cols start l); [right|]; exact Hin.
Qed.

(** C6. In a tabular document of at least two lines, take a data line
    with at least three fields whose date field parses, whose amount field
    parses to a negative number, whose description field exists and whose
    type column, if any, imposes nothing.  The extractor returns a list that
    holds a candidate for that line: its amount is the absolute value of the
    parsed number (strictly positive) and its direction is expense. *)
Theorem csv_negative_amount_is_expense :
  forall (fileContent : string) (i : nat) (rawLine dateStr amountStr descStr : string)
         (date : JSDate),
    let lines := split "010" (trim fileContent) in
    let cols := detectColumns (toLowerCase (List.hd EmptyString lines)) in
    let columns := parseCSVLine (trim rawLine) in
    (2 <= List.length lines)%nat ->
    (dataStartIndex cols <= i)%nat ->
    lines !! i = Some rawLine ->
    (3 <= List.length columns)%nat ->
    column columns (dateCol cols) (columns !! 0%nat) = Some dateStr ->
    parseDate dateStr = Some date ->
    column columns (amountCol cols) (columns !! 1%nat) = Some amountStr ->
    lt0 (parseFloat (numericChars amountStr)) = true ->
    column columns (descriptionCol cols) (columns !! 2%nat) = Some descStr ->
    typeColumnOverride cols columns = None ->
    exists (txs : list ParsedTransaction) (tx : ParsedTransaction),
      parseCSVStatement fileContent = inr txs /\
      tx ∈ txs /\
      pt_tempId tx = Some (String.append "temp_" (natToString i)) /\
      pt_amount tx = abs (parseFloat (numericChars amountStr)) /\
      gt0 (pt_amount tx) = true /\
      pt_type tx = expense.
Proof.
  intros fileContent i rawLine dateStr amountStr descStr date lines cols columns
    Hlen Hstart Hline Hfields Hdate Hparse Hamount Hneg Hdesc Htype.
  destruct (lt0_number _ Hneg) as (Hnan & Hzero & Hgt & Habs).
  assert (Hrow : exists tx,
             parseCSVRow cols i rawLine = Some tx /\
             pt_tempId tx = Some (String.append "temp_" (natToString i)) /\
             pt_amount tx = abs (parseFloat (numericChars amountStr)) /\
             pt_type tx = expense).
  { unfold parseCSVRow. fold columns.
    assert (Htruthy : truthy (trim rawLine) = true).
    { subst columns. destruct (trim rawLine); [cbn in Hfields; lia | reflexivity]. }
    rewrite Htruthy. cbn [negb].
    assert (Hge : (List.length columns <? 3)%nat = false) by (apply Nat.ltb_ge; lia).
    assert (Hty : match column columns (typeCol cols) (Some EmptyString) with
                  | Some t => if truthy t then default expense (typeOverride t) else expense
                  | None => expense
                  end = expense).
    { unfold typeColumnOverride in Htype.
      destruct (column columns (typeCol cols) (Some EmptyString)) as [t|]; [|reflexivity].
      destruct (truthy t); [|reflexivity].
      rewrite Htype. reflexivity. }
    rewrite Hge, Hdate, Hparse, Hamount, Hnan, Hzero, Hgt, Hdesc, Hty. cbn [orb].
    eexists. split; [reflexivity|].
    cbn [pt_tempId pt_amount pt_type]. auto. }
  destruct Hrow as (tx & Hrow & Hid & Hval & Hty).
  exists (parseCSVRows cols (dataStartIndex cols) (drop (dataStartIndex cols) lines)), tx.
  split.
  { unfold parseCSVStatement. fold lines.
    assert (Hge : (List.length lines <? 2)%nat = false) by (apply Nat.ltb_ge; lia).
    rewrite Hge. reflexivity. }
  split.
  { apply (parseCSVRows_elem cols _ (dataStartIndex cols) (i - dataStartIndex cols) rawLine tx).
    - rewrite lookup_drop. replace (dataStartIndex cols + (i - dataStartIndex cols))%nat with i by lia.
      exact Hline.
    - replace (dataStartIndex cols + (i - dataStartIndex cols))%nat with i by lia.
      exact Hrow. }
  rewrite Hval. auto.
Qed.

End TabularSign.

(** The row of the specification under its header: line 1 of the
    document yields amount 450 and direction expense. *)
Lemma electricity_row_is_expense :
  (2 <= List.length (split "010" (trim electricityDocument)))%nat /\
  split "010" (trim electricityDocument) !! 1%nat = Some electricityRow /\
  parseCSVLine (trim electricityRow) = ["01-03-2024"; "-450.00"; "Electricity Bill"] /\
  parseFloat (numericChars "-450.00") = Num (-450 # 1) /\
  exists (txs : list ParsedTransaction) (tx : ParsedTransaction),
    parseCSVStatement (eng := utcEngine) electricityDocument = inr txs /\
    tx ∈ txs /\
    pt_tempId tx = Some "temp_1" /\
    pt_amount tx = Num (450 # 1) /\
    gt0 (pt_amount tx) = true /\
    pt_type tx = expense.
Proof.
  split; [vm_compute; lia|].
  split; [reflexivity|].
  split; [reflexivity|].
  split; [reflexivity|].
  apply (csv_negative_amount_is_expense (eng := utcEngine) electricityDocument 1
           electricityRow "01-03-2024" "-450.00" "Electricity Bill"
           (newDate (eng := utcEngine) (Some 1%Z) (Some 2%Z) (Some 2024%Z)));
    try (vm_compute; reflexivity); vm_compute; lia.
Defined.

Example electricity_document_candidates :
  parseCSVStatement (eng := utcEngine) electricityDocument
  = inr [ {| pt_date := newDate (eng := utcEngine) (Some 1%Z) (Some 2%Z) (Some 2024%Z);
             pt_amount := Num (450 # 1);
             pt_description := "Electricity Bill";
             pt_type := expense;
             pt_referenceNumber := None;
             pt_balance := None;
             pt_isDuplicate := None;
             pt_matchingTransactionId := None;
             pt_tempId := Some "temp_1" |} ].
Proof. vm_compute. reflexivity. Qed.

(** ** Sign of the candidate amounts *)

Lemma abs_positive (a : JSNum) :
  isNaN a = false -> isZero a = false -> gt0 (abs a) = true.
Proof.
  destruct a as [|negative|[n d]]; cbn; try discriminate; auto.
  intros _ Hzero. unfold Qeq_bool in Hzero. cbn in Hzero.
  apply Z.eqb_neq in Hzero. apply Z.ltb_lt. lia.
Qed.

Section CandidateAmounts.
Context `{eng : Engine}.

Lemma parseCSVRow_positive (cols : Columns) (i : nat) (rawLine : string) (tx : ParsedTransaction) :
  parseCSVRow cols i rawLine = Some tx -> gt0 (pt_amount tx) = true.
Proof.
  unfold parseCSVRow. intros Hrow.
  destruct (negb (truthy (trim rawLine))); [discriminate|].
  destruct (List.length (parseCSVLine (trim rawLine)) <? 3)%nat; [discriminate|].
  destruct (match column _ (dateCol cols) _ with Some d => parseDate d | None => None end)
    as [date|]; [|discriminate].
  destruct (column _ (amountCol cols) _) as [amountStr|]; [|discriminate].
  destruct (isNaN _ || isZero _) eqn:Hbad; [discriminate|].
  destruct (column _ (descriptionCol cols) _) as [descStr|]; [|discriminate].
  injection Hrow as <-. cbn [pt_amount].
  apply orb_false_elim in Hbad as [Hnan Hzero].
  apply abs_positive; assumption.
Qed.

Lemma parseCSVRows_positive (cols : Columns) (lines : list string) :
  forall i, Forall (fun tx => gt0 (pt_amount tx) = true) (parseCSVRows cols i lines).
Proof.
  induction lines as [|l lines IH]; intros i; cbn [parseCSVRows].
  - constructor.
  - destruct (parseCSVRow cols i l) as [tx|] eqn:Hrow; [|apply IH].
    constructor; [eapply parseCSVRow_positive; eassumption | apply IH].
Qed.

Lemma candidateOfMatch_positive (m : MatchResult) (tempId : nat) (tx : ParsedTransaction) :
  candidateOfMatch m tempId = Some tx -> gt0 (pt_amount tx) = true.
Proof.
  unfold candidateOfMatch. intros Hc.
  match type of Hc with
  | (match ?scrutinee with _ => _ end) = _ =>
      destruct scrutinee as [[date amount] description]
  end.
  destruct date as [date|]; [|discriminate].
  destruct description as [description|]; [|discriminate].
  destruct (negb (isNaN amount) && negb (isZero amount) && truthy (trim description)) eqn:Hok;
    [|discriminate].
  injection Hc as <-. cbn [pt_amount].
  apply andb_prop in Hok as [Hok _]. apply andb_prop in Hok as [Hnan Hzero].
  apply abs_positive; [apply negb_true_iff, Hnan | apply negb_true_iff, Hzero].
Qed.

Lemma tryPatterns_positive (ps : list regex) (line : string) (tempId : nat) (tx : ParsedTransaction) :
  tryPatterns ps line tempId = Some tx -> gt0 (pt_amount tx) = true.
Proof.
  induction ps as [|p ps IH]; cbn [tryPatterns]; [discriminate|].
  destruct (exec p line) as [m|]; [|exact IH].
  destruct (candidateOfMatch m tempId) as [tx'|] eqn:Hc; [|exact IH].
  intros [= <-]. eapply candidateOfMatch_positive; eassumption.
Qed.

Lemma parsePDFLines_positive (lines : list string) :
  forall tempId, Forall (fun tx => gt0 (pt_amount tx) = true) (parsePDFLines tempId lines).
Proof.
  induction lines as [|l lines IH]; intros tempId; cbn [parsePDFLines].
  - constructor.
  - destruct (negb (truthy (trim l))); [apply IH|].
    destruct (tryPatterns patterns (trim l) tempId) as [tx|] eqn:Htry; [|apply IH].
    constructor; [eapply tryPatterns_positive; eassumption | apply IH].
Qed.

Lemma generateDuplicateHash_message (date : JSDate) (amount : JSNum)
    (description accountId : string) :
  match generateDuplicateHash date amount description accountId with
  | inl e => e = "Invalid time value"
  | inr _ => True
  end.
Proof. unfold generateDuplicateHash. destruct (toISOString date); auto. Qed.

Lemma detectDuplicates_message (ledger : Ledger) (userId accountId : string)
    (tx : ParsedTransaction) :
  match detectDuplicates ledger userId [tx] accountId with
  | inl e => e = "Invalid time value"
  | inr _ => True
  end.
Proof.
  unfold detectDuplicates, checkDuplicates. cbn [map checkDuplicates_loop hi_date hi_amount
    hi_description hi_accountId].
  pose proof (generateDuplicateHash_message (pt_date tx) (pt_amount tx) (pt_description tx)
                accountId) as Hmessage.
  destruct (generateDuplicateHash _ _ _ _); [exact Hmessage | exact I].
Qed.

(** What [detectDuplicates] returns for one candidate: the candidate with
    its two duplicate fields set, or the error of the fingerprint. *)
Lemma detectDuplicates_single (ledger : Ledger) (userId accountId : string)
    (tx : ParsedTransaction) :
  match detectDuplicates ledger userId [tx] accountId with
  | inr l =>
      isValidDate (pt_date tx) = true /\
      exists flag matching,
        l = [ {| pt_date := pt_date tx; pt_amount := pt_amount tx;
                 pt_description := pt_description tx; pt_type := pt_type tx;
                 pt_referenceNumber := pt_referenceNumber tx; pt_balance := pt_balance tx;
                 pt_isDuplicate := flag; pt_matchingTransactionId := matching;
                 pt_tempId := pt_tempId tx |} ]
  | inl _ => isValidDate (pt_date tx) = false
  end.
Proof.
  unfold detectDuplicates, checkDuplicates. cbn [map checkDuplicates_loop hi_date hi_amount
    hi_description hi_accountId].
  unfold generateDuplicateHash, toISOString, isValidDate.
  destruct (timeValue (pt_date tx)) as [t|]; [|reflexivity].
  destruct (civilFromDays (t / msPerDay)) as [[y mo] dd].
  split; [reflexivity|]. eauto.
Qed.

Lemma detectDuplicates_amounts (ledger : Ledger) (userId accountId : string)
    (txs out : list ParsedTransaction) :
  detectDuplicates ledger userId txs accountId = inr out ->
  map pt_amount out = map pt_amount txs /\
  map pt_tempId out = map pt_tempId txs.
Proof.
  unfold detectDuplicates.
  destruct (checkDuplicates ledger userId _) as [e|duplicateMap]; [discriminate|].
  intros [= <-]. rewrite !map_map. split; reflexivity.
Qed.

Lemma extract_positive (w : World) (userId : string) (statement : BankStatement)
    (filePath : string) (candidates : list ParsedTransaction) :
  extract w userId statement filePath = inr candidates ->
  Forall (fun tx => gt0 (pt_amount tx) = true) candidates.
Proof.
  unfold extract. destruct (readFile w filePath) as [e|content]; [discriminate|].
  assert (Hflagged : forall parsed,
             Forall (fun tx => gt0 (pt_amount tx) = true) parsed ->
             detectDuplicates (transactions w) userId parsed (st_bankAccountId statement)
             = inr candidates ->
             Forall (fun tx => gt0 (pt_amount tx) = true) candidates).
  { intros parsed Hpositive Hdetect.
    apply detectDuplicates_amounts in Hdetect as [Hamounts _].
    apply (Forall_map pt_amount (fun a => gt0 a = true)). rewrite Hamounts.
    apply (Forall_map pt_amount (fun a => gt0 a = true)). exact Hpositive. }
  destruct (st_fileType statement).
  - destruct (pdfParse content) as [e|text]; [discriminate|].
    apply Hflagged. apply parsePDFLines_positive.
  - destruct (parseCSVStatement content) as [e|parsed] eqn:Hparse; [discriminate|].
    apply Hflagged. unfold parseCSVStatement in Hparse.
    destruct (List.length _ <? 2)%nat; [discriminate|].
    injection Hparse as <-. apply parseCSVRows_positive.
Qed.

(** What a parse that answers with data has read and written. *)
Lemma parse_answered (w w' : World) (userId statementId : string) (data : ParseData) :
  parseStatementHandler w userId statementId = (w', Json data) ->
  exists (statement : BankStatement) (filePath : string),
    findStatement w statementId userId = inr (Some statement) /\
    st_filePath statement = Some filePath /\
    extract (setStatement w (objectId statementId) (withStatus statement parsing)) userId
      (withStatus statement parsing) filePath
    = inr (pd_transactions data) /\
    forallb validParsed (pd_transactions data) = true /\
    pd_duplicateCount data = List.length (List.filter isFlagged (pd_transactions data)) /\
    w' = setStatement (setStatement w (objectId statementId) (withStatus statement parsing))
           (objectId statementId)
           (withParsed
              (withStatus
                 (withCount (withParsed (withStatus statement parsing) (pd_transactions data))
                    (List.length (pd_transactions data)))
                 parse_completed)
              (map storedParsed (pd_transactions data))).
Proof.
  unfold parseStatementHandler.
  destruct (findStatement w statementId userId) as [e|[statement|]] eqn:Hfind;
    [discriminate| |discriminate].
  destruct (st_filePath statement) as [filePath|] eqn:Hpath; [|discriminate].
  destruct (truthy filePath); cbn [negb]; [|discriminate].
  cbv zeta.
  destruct (extract _ userId _ filePath) as [parseError|candidates] eqn:Hextract; [discriminate|].
  destruct (forallb validParsed candidates) eqn:Hvalid; [|discriminate].
  intros [= <- <-]. exists statement, filePath. cbn [pd_transactions pd_duplicateCount].
  repeat split; try assumption; reflexivity.
Qed.

(** What the caller finds after a parse that answered with data. *)
Lemma parse_stored (w w' : World) (userId statementId : string) (data : ParseData) :
  parseStatementHandler w userId statementId = (w', Json data) ->
  exists stored,
    findStatement w' statementId userId = inr (Some stored) /\
    statements w' !! objectId statementId = Some stored /\
    st_parseStatus stored = parse_completed /\
    st_parsedTransactions stored = map storedParsed (pd_transactions data) /\
    st_transactionCount stored = List.length (pd_transactions data) /\
    pd_duplicateCount data = List.length (List.filter isFlagged (pd_transactions data)).
Proof.
  intros Hparse.
  destruct (parse_answered _ _ _ _ _ Hparse)
    as (statement & filePath & Hfind & _ & _ & _ & Hcount & ->).
  destruct (findStatement_Some _ _ _ _ Hfind) as (Hid & _ & Howner).
  eexists. split.
  { unfold findStatement. rewrite Hid, Howner. cbn [setStatement statements].
    rewrite lookup_insert_eq. cbn [withParsed withStatus withCount st_userId].
    rewrite String.eqb_refl. reflexivity. }
  split; [cbn [setStatement statements]; apply lookup_insert_eq|].
  cbn [withParsed withStatus withCount st_parseStatus st_parsedTransactions st_transactionCount].
  repeat split. exact Hcount.
Qed.

Lemma edit_rejected (w w' : World) (userId statementId transactionId : string)
    (body : EditBody) (status : nat) (error : string) :
  editParsedTransactionHandler w userId statementId transactionId body
  = (w', Failure status error) ->
  w' = w.
Proof.
  unfold editParsedTransactionHandler. intros Hedit.
  repeat match type of Hedit with
         | (match ?x with _ => _ end) = _ => destruct x
         | (if ?x then _ else _) = _ => destruct x
         end;
    injection Hedit as <-; try reflexivity; discriminate.
Qed.

Lemma edit_sign_blind (w : World) (userId statementId transactionId : string)
    (body : EditBody) (a1 a2 : JSNum) :
  isNaN a1 = false -> isNaN a2 = false ->
  accepted (editParsedTransactionHandler w userId statementId transactionId (withAmount body a1)).2
  = accepted (editParsedTransactionHandler w userId statementId transactionId (withAmount body a2)).2
  /\
  forall (status : nat) (error : string),
    (editParsedTransactionHandler w userId statementId transactionId (withAmount body a1)).2
    = Failure status error ->
    (editParsedTransactionHandler w userId statementId transactionId (withAmount body a2)).2
    = Failure status error.
Proof.
  intros Ha1 Ha2. unfold editParsedTransactionHandler.
  destruct (findStatement w statementId userId) as [e|[statement|]]; [tauto| |tauto].
  cbv zeta.
  destruct (negb (bool_decide (st_parseStatus statement = parse_completed))); [tauto|].
  destruct (findIndex _ _ =? -1)%Z; [tauto|].
  destruct (st_parsedTransactions statement !! _) as [old|]; [|tauto].
  unfold applyEdit. cbn [withAmount eb_date eb_amount eb_description eb_type eb_referenceNumber].
  destruct (match eb_type body with Some t => _ | None => _ end) as [type|]; [|tauto].
  cbn [option_map default].
  match goal with
  | |- accepted (match detectDuplicates ?l ?u [?t1] ?acc with _ => _ end).2
       = accepted (match detectDuplicates ?l ?u [?t2] ?acc with _ => _ end).2 /\ _ =>
      pose proof (detectDuplicates_single l u acc t1) as H1;
      pose proof (detectDuplicates_single l u acc t2) as H2;
      pose proof (generateDuplicateHash_message (pt_date t1) (pt_amount t1)
                    (pt_description t1) acc) as G1;
      pose proof (generateDuplicateHash_message (pt_date t2) (pt_amount t2)
                    (pt_description t2) acc) as G2;
      pose proof (detectDuplicates_message l u acc t1) as M1;
      pose proof (detectDuplicates_message l u acc t2) as M2;
      destruct (detectDuplicates l u [t1] acc) as [e1|l1];
      destruct (detectDuplicates l u [t2] acc) as [e2|l2]
  end; cbn [pt_date] in H1, H2.
  - subst e1 e2. tauto.
  - destruct H2 as [H2 _]. congruence.
  - destruct H1 as [H1 _]. congruence.
  - destruct H1 as (_ & f1 & m1 & ->). destruct H2 as (_ & f2 & m2 & ->).
    unfold validParsed. cbn [pt_date pt_amount pt_description pt_type pt_balance].
    unfold id. rewrite Ha1, Ha2.
    destruct (isValidDate _ && negb false && truthy _ && bool_decide _ && _); cbn [snd accepted];
      [split; [reflexivity | discriminate] | tauto].
Qed.

(** C7, as the code has it.  Both extractors emit candidates with a
    strictly positive amount only, so the candidates that a parse answers
    and those it stores are strictly positive.  An edit of the review
    buffer is not checked against the sign of the amount: two edits that
    differ only in a non-[NaN] amount are both accepted or both rejected,
    and when rejected they get the same answer; a rejected edit leaves the
    world, and so the candidate list, unchanged. *)
Theorem extractors_emit_positive_amounts_edits_ignore_sign :
  (forall (fileContent : string) (txs : list ParsedTransaction),
      parseCSVStatement fileContent = inr txs ->
      Forall (fun tx => gt0 (pt_amount tx) = true) txs) /\
  (forall text : string,
      Forall (fun tx => gt0 (pt_amount tx) = true) (parsePDFStatement text)) /\
  (forall (w w' : World) (userId statementId : string) (data : ParseData),
      parseStatementHandler w userId statementId = (w', Json data) ->
      Forall (fun tx => gt0 (pt_amount tx) = true) (pd_transactions data) /\
      exists stored : BankStatement,
        findStatement w' statementId userId = inr (Some stored) /\
        map pt_amount (st_parsedTransactions stored) = map pt_amount (pd_transactions data) /\
        Forall (fun tx => gt0 (pt_amount tx) = true) (st_parsedTransactions stored)) /\
  (forall (w : World) (userId statementId transactionId : string) (body : EditBody)
          (a1 a2 : JSNum),
      isNaN a1 = false -> isNaN a2 = false ->
      accepted (editParsedTransactionHandler w userId statementId transactionId
                  (withAmount body a1)).2
      = accepted (editParsedTransactionHandler w userId statementId transactionId
                    (withAmount body a2)).2 /\
      forall (status : nat) (error : string),
        (editParsedTransactionHandler w userId statementId transactionId
           (withAmount body a1)).2 = Failure status error ->
        (editParsedTransactionHandler w userId statementId transactionId
           (withAmount body a2)).2 = Failure status error) /\
  (forall (w w' : World) (userId statementId transactionId : string) (body : EditBody)
          (status : nat) (error : string),
      editParsedTransactionHandler w userId statementId transactionId body
      = (w', Failure status error) ->
      w' = w).
Proof.
  split; [|split; [|split; [|split]]].
  - intros fileContent txs. unfold parseCSVStatement.
    destruct (List.length _ <? 2)%nat; [discriminate|].
    intros [= <-]. apply parseCSVRows_positive.
  - intros text. apply parsePDFLines_positive.
  - intros w w' userId statementId data Hparse.
    destruct (parse_answered _ _ _ _ _ Hparse) as (statement & filePath & _ & _ & Hextract & _).
    pose proof (extract_positive _ _ _ _ _ Hextract) as Hpositive.
    split; [exact Hpositive|].
    destruct (parse_stored _ _ _ _ _ Hparse) as (stored & Hfound & _ & _ & Hlist & _).
    exists stored. split; [exact Hfound|]. rewrite Hlist, map_map. cbn [storedParsed pt_amount].
    split; [reflexivity|].
    apply Forall_map. cbn [storedParsed pt_amount]. exact Hpositive.
  - intros. apply edit_sign_blind; assumption.
  - intros. eapply edit_rejected; eassumption.
Qed.

End CandidateAmounts.

(** C7 as stated fails: an edit that supplies a negative amount is not
    rejected as a validation error.  After the parse of the electricity
    document, whose answer names its candidate temp_1, the edit of temp_1
    with the amount -5 is answered 404 "Transaction not found", and so is
    the same edit with the amount 5. *)
Lemma negative_edit_is_no_validation_error :
  map (fun tx => (pt_tempId tx, pt_amount tx))
     <$> match (parseStatementHandler (eng := utcEngine)
                   (world (upload csv parse_pending []) [] electricityDocument) user1 stmt1).2 with
         | Json data => Some (pd_transactions data)
         | Failure _ _ => None
         end
  = Some [(Some "temp_1", Num (450 # 1))] /\
  (editParsedTransactionHandler (eng := utcEngine)
     (parseStatementHandler (eng := utcEngine)
        (world (upload csv parse_pending []) [] electricityDocument) user1 stmt1).1
     user1 stmt1 "temp_1" (amountEdit (Num (-5 # 1)))).2
  = Failure 404 "Transaction not found" /\
  (editParsedTransactionHandler (eng := utcEngine)
     (parseStatementHandler (eng := utcEngine)
        (world (upload csv parse_pending []) [] electricityDocument) user1 stmt1).1
     user1 stmt1 "temp_1" (amountEdit (Num (5 # 1)))).2
  = Failure 404 "Transaction not found".
Proof. conjuncts; vm_compute; reflexivity. Qed.

(** ** The bulk create as a list of outcomes *)

Lemma createTransactions_loop_outcomes (skipDuplicates : bool)
    (transactions : list CreateTransactionData) :
  forall (ledger : Ledger) (acc : BulkResult),
    createTransactions_loop skipDuplicates transactions ledger acc
    = (ledger ++ createdOf (outcomes skipDuplicates transactions ledger),
       {| created := created acc ++ createdOf (outcomes skipDuplicates transactions ledger);
          skipped := skipped acc + skippedOf (outcomes skipDuplicates transactions ledger);
          duplicates := duplicates acc + duplicatesOf (outcomes skipDuplicates transactions ledger) |}).
Proof.
  induction transactions as [|txData rest IH]; intros ledger acc.
  - cbn. rewrite !app_nil_r, !Nat.add_0_r. destruct acc; reflexivity.
  - cbn [createTransactions_loop outcomes].
    unfold rowOutcome, fingerprintOf.
    destruct (generateDuplicateHash _ _ _ _) as [error|hash] eqn:Hhash.
    + assert (Herror : error = "Invalid time value").
      { unfold generateDuplicateHash in Hhash.
        destruct (toISOString _); congruence. }
      subst error. rewrite IH.
      cbn [ledgerAfter createdOf skippedOf duplicatesOf].
      unfold catchRow. cbn [String.eqb Ascii.eqb Bool.eqb andb created skipped duplicates].
      rewrite ?Nat.add_succ_r. reflexivity.
    + destruct (skipDuplicates && bool_decide _).
      * rewrite IH. cbn [ledgerAfter createdOf skippedOf duplicatesOf created skipped duplicates].
        rewrite ?Nat.add_succ_r. reflexivity.
      * destruct (save ledger txData hash) as [error|saved] eqn:Hsave.
        -- assert (Herror : error = "Transaction validation failed").
           { unfold save in Hsave. destruct (validTransaction _); congruence. }
           subst error. rewrite IH.
           cbn [ledgerAfter createdOf skippedOf duplicatesOf].
           unfold catchRow. cbn [String.eqb Ascii.eqb Bool.eqb andb created skipped duplicates].
           rewrite ?Nat.add_succ_r. reflexivity.
        -- rewrite IH.
           cbn [ledgerAfter createdOf skippedOf duplicatesOf created skipped duplicates].
           rewrite <- !app_assoc. reflexivity.
Qed.

Lemma createTransactions_outcomes (ledger : Ledger) (transactions : list CreateTransactionData)
    (skipDuplicates : bool) :
  createTransactions ledger transactions skipDuplicates
  = (ledger ++ createdOf (outcomes skipDuplicates transactions ledger),
     {| created := createdOf (outcomes skipDuplicates transactions ledger);
        skipped := skippedOf (outcomes skipDuplicates transactions ledger);
        duplicates := duplicatesOf (outcomes skipDuplicates transactions ledger) |}).
Proof.
  unfold createTransactions. rewrite createTransactions_loop_outcomes. reflexivity.
Qed.

Lemma outcomes_length (skipDuplicates : bool) (transactions : list CreateTransactionData) :
  forall ledger,
    List.length (createdOf (outcomes skipDuplicates transactions ledger))
    + duplicatesOf (outcomes skipDuplicates transactions ledger)
    + skippedOf (outcomes skipDuplicates transactions ledger)
    = List.length transactions.
Proof.
  induction transactions as [|txData rest IH]; intros ledger; [reflexivity|].
  cbn [outcomes]. specialize (IH (ledgerAfter (rowOutcome skipDuplicates ledger txData) ledger)).
  destruct (rowOutcome skipDuplicates ledger txData);
    cbn [createdOf duplicatesOf skippedOf ledgerAfter List.length] in *; lia.
Qed.

(** ** Balance update of the confirm *)

Lemma roundHalfEven_exact (n : Z) : roundHalfEven n 1 = n.
Proof. unfold roundHalfEven. rewrite Z.mod_1_r, Z.div_1_r. reflexivity. Qed.

Lemma Qred_whole (z : Z) : Qred (z # 1) = z # 1.
Proof.
  unfold Qred.
  pose proof (Z.ggcd_gcd z 1) as Hgcd.
  pose proof (Z.ggcd_correct_divisors z 1) as Hdiv.
  destruct (Z.ggcd z 1) as [g [aa bb]]. cbn [fst snd] in *.
  rewrite Z.gcd_1_r in Hgcd. subst g. destruct Hdiv as [Ha Hb].
  rewrite Z.mul_1_l in Ha, Hb. subst aa bb. reflexivity.
Qed.

Lemma Qred_integer (z : Z) (c : positive) : Qred ((z * Zpos c) # c) = z # 1.
Proof.
  rewrite <- (Qred_whole z).
  apply Qred_complete. unfold Qeq. cbn. lia.
Qed.

Lemma scaled_integer (n e : Z) : (e <= 0)%Z -> scaled n 1 e = ((n * 2 ^ (- e))%Z, 1%Z).
Proof.
  intros He. unfold scaled. destruct (Z.leb_spec 0 e) as [Hzero|Hneg]; [|reflexivity].
  assert (e = 0%Z) by lia. subst e.
  change (2 ^ 0)%Z with 1%Z. change (- 0)%Z with 0%Z. change (2 ^ 0)%Z with 1%Z.
  rewrite !Z.mul_1_r. reflexivity.
Qed.

Lemma exponentOf_integer (n : Z) :
  (0 < n < 2 ^ 53)%Z -> exponentOf n 1 = (Z.log2 n - 52)%Z /\ (Z.log2 n - 52 <= 0)%Z.
Proof.
  intros [Hpos Hsafe]. unfold exponentOf. change (Z.log2 1) with 0%Z. rewrite Z.sub_0_r.
  destruct (Z.log2_spec n Hpos) as [Hlow Hhigh].
  assert (Hlog : (0 <= Z.log2 n <= 52)%Z).
  { split; [apply Z.log2_nonneg|].
    destruct (Z.le_gt_cases (Z.log2 n) 52) as [H|H]; [exact H|exfalso].
    assert (2 ^ 53 <= 2 ^ Z.log2 n)%Z by (apply Z.pow_le_mono_r; lia). lia. }
  set (a := Z.log2 n) in *.
  rewrite scaled_integer by lia. cbn [fst snd].
  replace (- (a - 52))%Z with (52 - a)%Z by lia.
  assert (Hscale : (2 ^ 52 = 2 ^ a * 2 ^ (52 - a))%Z).
  { rewrite <- Z.pow_add_r by lia. f_equal. lia. }
  assert (Hshift : (0 < 2 ^ (52 - a))%Z) by (apply Z.pow_pos_nonneg; lia).
  replace (n * 2 ^ (52 - a) <? 2 ^ 52 * 1)%Z with false
    by (symmetry; apply Z.ltb_ge; rewrite Z.mul_1_r, Hscale; nia).
  split; lia.
Qed.

(** A whole number below 2^53 in absolute value is a double. *)
Lemma toDouble_integer (z : Z) :
  (Z.abs z < 2 ^ 53)%Z -> toDouble (z # 1) = Num (z # 1).
Proof.
  intros Hsafe. unfold toDouble. cbn [Qnum Qden].
  destruct (Z.eqb_spec (Z.abs z) 0) as [Hzero|Hnonzero].
  { assert (z = 0%Z) by lia. subst z. reflexivity. }
  destruct (exponentOf_integer (Z.abs z)) as [-> He]; [lia|].
  pose proof (Z.log2_nonneg (Z.abs z)) as Hlog.
  set (a := Z.log2 (Z.abs z)) in *.
  rewrite scaled_integer by exact He. cbn [fst snd]. rewrite roundHalfEven_exact.
  replace (971 <? a - 52)%Z with false by (symmetry; apply Z.ltb_ge; lia).
  replace (a - 52 =? 971)%Z with false by (symmetry; apply Z.eqb_neq; lia).
  cbn [orb andb]. f_equal.
  assert (Hshift : (0 < 2 ^ (- (a - 52)))%Z) by (apply Z.pow_pos_nonneg; lia).
  set (c := Z.to_pos (2 ^ (- (a - 52)))).
  assert (Hc : (2 ^ (- (a - 52)) = Zpos c)%Z) by (subst c; rewrite Z2Pos.id; lia).
  assert (Hvalue : Qred (if (z <? 0)%Z
                         then (- ((Z.abs z * 2 ^ (- (a - 52)))%Z # c))%Q
                         else (Z.abs z * 2 ^ (- (a - 52)))%Z # c) = z # 1).
  { rewrite Hc. destruct (Z.ltb_spec z 0) as [Hlt|Hge].
    - rewrite Z.abs_neq by lia. unfold Qopp. cbn [Qnum Qden].
      replace (- (- z * Z.pos c))%Z with (z * Z.pos c)%Z by lia. apply Qred_integer.
    - rewrite Z.abs_eq by lia. apply Qred_integer. }
  destruct (Z.leb_spec 0 (a - 52)) as [Hzero|Hneg]; [|exact Hvalue].
  assert (Ha : (a - 52 = 0)%Z) by lia.
  rewrite <- Hvalue. subst c. rewrite Ha. change (- 0)%Z with 0%Z. change (2 ^ 0)%Z with 1%Z.
  change (Z.to_pos 1) with 1%positive. rewrite !Z.mul_1_r. reflexivity.
Qed.

(** The sum of two whole numbers is exact while it stays below 2^53. *)
Lemma add_integers (x y : Z) :
  (Z.abs (x + y) < 2 ^ 53)%Z -> add (ofZ x) (ofZ y) = ofZ (x + y).
Proof.
  intros Hsafe. unfold add, ofZ.
  replace ((x # 1) + (y # 1))%Q with ((x + y)%Z # 1).
  - apply toDouble_integer, Hsafe.
  - unfold Qplus. cbn [Qnum Qden]. rewrite !Z.mul_1_r. reflexivity.
Qed.

Lemma sub_integers (x y : Z) :
  (Z.abs (x - y) < 2 ^ 53)%Z -> sub (ofZ x) (ofZ y) = ofZ (x - y).
Proof.
  intros Hsafe. unfold sub. change (neg (ofZ y)) with (ofZ (- y)).
  rewrite add_integers by (replace (x + - y)%Z with (x - y)%Z by lia; exact Hsafe).
  f_equal.
Qed.

(** One step of the [reduce]. *)
Lemma balanceChange_snoc (created : list Transaction) (t : Transaction) :
  balanceChange (created ++ [t])
  = match tx_type t with
    | income => add (balanceChange created) (tx_amount t)
    | expense => sub (balanceChange created) (tx_amount t)
    | transfer => balanceChange created
    end.
Proof. unfold balanceChange. rewrite fold_left_app. reflexivity. Qed.

Lemma balanceChange_from_integers (entries : list (TxType * Z)) :
  forall (created : list Transaction) (sum : Z),
    map (fun t => (tx_type t, tx_amount t)) created
    = map (fun e => (fst e, ofZ (snd e))) entries ->
    (Z.abs sum + magnitude entries < 2 ^ 53)%Z ->
    fold_left
      (fun sum tx =>
         match tx_type tx with
         | income => add sum (tx_amount tx)
         | expense => sub sum (tx_amount tx)
         | transfer => sum
         end)
      created (ofZ sum)
    = ofZ (fold_left
             (fun sum e =>
                match fst e with
                | income => sum + snd e
                | expense => sum - snd e
                | transfer => sum
                end)%Z
             entries sum).
Proof.
  induction entries as [|[type amount] entries IH]; intros created sum Hshape Hsafe;
    destruct created as [|t created]; try discriminate; [reflexivity|].
  cbn [map fst snd] in Hshape. injection Hshape as Htype Hamount Hrest.
  cbn [fold_left fst snd magnitude fold_right] in *.
  assert (Hpos : (0 <= magnitude entries)%Z).
  { clear. induction entries as [|e entries IH]; cbn [magnitude fold_right]; [lia|].
    unfold magnitude in IH. lia. }
  unfold magnitude in Hpos. rewrite Htype, Hamount.
  destruct type.
  - rewrite add_integers by lia. apply IH; [exact Hrest|]. unfold magnitude. lia.
  - rewrite sub_integers by lia. apply IH; [exact Hrest|]. unfold magnitude. lia.
  - apply IH; [exact Hrest|]. unfold magnitude. lia.
Qed.

Section BalanceDelta.
Context `{eng : Engine}.

(** C9, as the code has it.  [balanceChange] is the signed sum of the
    created transactions, computed from 0 in their order: +amount for an
    income, -amount for an expense, nothing for a transfer; on whole amounts
    it is the exact signed sum as long as the amounts stay below 2^53 in
    total, and in general it is rounded as the sums of doubles are (0.1 and
    0.2 give 0.30000000000000004).  Whatever a confirm call answers, the ledger only grows by the
    transactions it created and the uploads and files are untouched.  When
    the call answers with data and created something, exactly one account
    document is written, the linked account of the upload, and its balance
    is the old balance plus [balanceChange] of the created transactions;
    when it created nothing, the accounts are untouched.  When the call
    fails, the accounts are untouched; it then has created transactions
    only when the new balance would have been [NaN]. *)
Theorem confirm_balance_delta :
  (balanceChange [] = ofZ 0 /\
   forall (created : list Transaction) (t : Transaction),
     balanceChange (created ++ [t])
     = match tx_type t with
       | income => add (balanceChange created) (tx_amount t)
       | expense => sub (balanceChange created) (tx_amount t)
       | transfer => balanceChange created
       end) /\
  (forall (created : list Transaction) (entries : list (TxType * Z)),
      map (fun t => (tx_type t, tx_amount t)) created
      = map (fun e => (fst e, ofZ (snd e))) entries ->
      (magnitude entries < 2 ^ 53)%Z ->
      balanceChange created = ofZ (signedSum entries)) /\
  (forall t1 t2 : Transaction,
      tx_type t1 = income -> tx_amount t1 = parseFloat "0.1" ->
      tx_type t2 = income -> tx_amount t2 = parseFloat "0.2" ->
      balanceChange [t1; t2] = parseFloat "0.30000000000000004" /\
      balanceChange [t1; t2] <> parseFloat "0.3") /\
  forall (w w' : World) (userId statementId : string) (body : ConfirmBody)
         (response : Response ConfirmData),
    confirmParsedTransactionsHandler w userId statementId body = (w', response) ->
    exists createdTxs : list Transaction,
      transactions w' = transactions w ++ createdTxs /\
      statements w' = statements w /\
      files w' = files w /\
      match response with
      | Json data =>
          cd_created data = List.length createdTxs /\
          (createdTxs = [] -> bankAccounts w' = bankAccounts w) /\
          (createdTxs <> [] ->
           exists (statement : BankStatement) (account : BankAccount),
             findStatement w statementId userId = inr (Some statement) /\
             getBankAccountById w (st_bankAccountId statement) userId = inr (Some account) /\
             bankAccounts w'
             = <[objectId (st_bankAccountId statement) :=
                   {| acc_userId := acc_userId account;
                      acc_currentBalance :=
                        add (acc_currentBalance account) (balanceChange createdTxs);
                      acc_currency := acc_currency account |}]> (bankAccounts w))
      | Failure _ _ =>
          bankAccounts w' = bankAccounts w /\
          (createdTxs <> [] ->
           exists (statement : BankStatement) (account : BankAccount),
             findStatement w statementId userId = inr (Some statement) /\
             getBankAccountById w (st_bankAccountId statement) userId = inr (Some account) /\
             isNaN (add (acc_currentBalance account) (balanceChange createdTxs)) = true)
      end.
Proof.
  split; [split; [reflexivity | exact balanceChange_snoc]|].
  split.
  { intros created entries Hshape Hsafe. unfold balanceChange, signedSum.
    apply balanceChange_from_integers; [exact Hshape|]. cbn [Z.abs]. lia. }
  split.
  { intros t1 t2 Htype1 Hamount1 Htype2 Hamount2. unfold balanceChange. cbn [fold_left].
    rewrite Htype1, Hamount1, Htype2, Hamount2.
    split; [vm_compute; reflexivity | vm_compute; discriminate]. }
  intros w w' userId statementId body response Hconfirm.
  assert (Hnothing : forall status error,
             (w', response) = (w, Failure status error) ->
             exists createdTxs : list Transaction,
               transactions w' = transactions w ++ createdTxs /\
               statements w' = statements w /\
               files w' = files w /\
               match response with
               | Json data =>
                   cd_created data = List.length createdTxs /\
                   (createdTxs = [] -> bankAccounts w' = bankAccounts w) /\
                   (createdTxs <> [] ->
                    exists (statement : BankStatement) (account : BankAccount),
                      findStatement w statementId userId = inr (Some statement) /\
                      getBankAccountById w (st_bankAccountId statement) userId
                      = inr (Some account) /\
                      bankAccounts w'
                      = <[objectId (st_bankAccountId statement) :=
                            {| acc_userId := acc_userId account;
                               acc_currentBalance :=
                                 add (acc_currentBalance account) (balanceChange createdTxs);
                               acc_currency := acc_currency account |}]> (bankAccounts w))
               | Failure _ _ =>
                   bankAccounts w' = bankAccounts w /\
                   (createdTxs <> [] ->
                    exists (statement : BankStatement) (account : BankAccount),
                      findStatement w statementId userId = inr (Some statement) /\
                      getBankAccountById w (st_bankAccountId statement) userId
                      = inr (Some account) /\
                      isNaN (add (acc_currentBalance account) (balanceChange createdTxs)) = true)
               end).
  { intros status error [= -> ->]. exists []. rewrite app_nil_r.
    repeat split; congruence. }
  unfold confirmParsedTransactionsHandler in Hconfirm.
  destruct (findStatement w statementId userId) as [e|[statement|]] eqn:Hfind;
    [eapply Hnothing; symmetry; exact Hconfirm| |eapply Hnothing; symmetry; exact Hconfirm].
  destruct (negb (bool_decide (st_parseStatus statement = parse_completed)));
    [eapply Hnothing; symmetry; exact Hconfirm|].
  destruct (getBankAccountById w (st_bankAccountId statement) userId) as [e|[account|]] eqn:Hacc;
    [eapply Hnothing; symmetry; exact Hconfirm| |eapply Hnothing; symmetry; exact Hconfirm].
  clear Hnothing.
  destruct (getBankAccountById_Some _ _ _ _ Hacc) as (Hid & Hlookup & _).
  rewrite createTransactions_outcomes in Hconfirm.
  cbn [created skipped duplicates] in Hconfirm.
  set (createdTxs := createdOf _) in Hconfirm.
  exists createdTxs.
  destruct createdTxs as [|t ts] eqn:Hcreated.
  - cbn [List.length Nat.ltb Nat.leb] in Hconfirm. injection Hconfirm as <- <-.
    cbn [transactions statements files bankAccounts cd_created List.length].
    repeat split; congruence.
  - cbn [List.length Nat.ltb Nat.leb] in Hconfirm.
    unfold updateBankAccountBalance in Hconfirm. rewrite Hid, Hlookup in Hconfirm.
    destruct (isNaN (add (acc_currentBalance account) (balanceChange (t :: ts)))) eqn:Hnan;
      injection Hconfirm as <- <-;
      cbn [transactions statements files bankAccounts cd_created List.length].
    + split; [reflexivity|]. split; [reflexivity|]. split; [reflexivity|].
      split; [reflexivity|]. intros _. exists statement, account. auto.
    + split; [reflexivity|]. split; [reflexivity|]. split; [reflexivity|].
      split; [reflexivity|]. split; [discriminate|].
      intros _. exists statement, account. auto.
Qed.

End BalanceDelta.

(** The example of the specification: an income of 1000 and an expense
    of 300 committed against a balance of 5000 leave 5700, in one write. *)
Lemma confirm_salary_and_groceries :
  (confirmParsedTransactionsHandler (eng := utcEngine) salaryWorld user1 stmt1
     (confirmAll true)).2
  = Json {| cd_created := 2; cd_skipped := 0; cd_duplicates := 0 |} /\
  acc_currentBalance <$> bankAccounts salaryWorld !! acct1 = Some (Num (5000 # 1)) /\
  exists createdTxs : list Transaction,
    transactions (confirmParsedTransactionsHandler (eng := utcEngine) salaryWorld user1 stmt1
                    (confirmAll true)).1
    = transactions salaryWorld ++ createdTxs /\
    map (fun t => (tx_type t, tx_amount t)) createdTxs
    = [(income, Num (1000 # 1)); (expense, Num (300 # 1))] /\
    balanceChange createdTxs = ofZ (signedSum [(income, 1000%Z); (expense, 300%Z)]) /\
    signedSum [(income, 1000%Z); (expense, 300%Z)] = 700%Z /\
    bankAccounts (confirmParsedTransactionsHandler (eng := utcEngine) salaryWorld user1 stmt1
                    (confirmAll true)).1
    = <[acct1 := {| acc_userId := user1;
                    acc_currentBalance := Num (5700 # 1);
                    acc_currency := "INR" |}]> (bankAccounts salaryWorld).
Proof.
  destruct (confirm_balance_delta (eng := utcEngine)) as (_ & Hintegers & _ & Hconfirm).
  assert (Hanswer :
            (confirmParsedTransactionsHandler (eng := utcEngine) salaryWorld user1 stmt1
               (confirmAll true)).2
            = Json {| cd_created := 2; cd_skipped := 0; cd_duplicates := 0 |})
    by (vm_compute; reflexivity).
  split; [exact Hanswer|]. split; [vm_compute; reflexivity|].
  destruct (Hconfirm salaryWorld
              (confirmParsedTransactionsHandler (eng := utcEngine) salaryWorld user1 stmt1
                 (confirmAll true)).1
              user1 stmt1 (confirmAll true)
              (Json {| cd_created := 2; cd_skipped := 0; cd_duplicates := 0 |}))
    as (createdTxs & Hledger & _ & _ & Hcount & _ & Hwrite).
  { apply pair_answer. exact Hanswer. }
  exists createdTxs. split; [exact Hledger|].
  assert (Hcreated : createdTxs
                     = transactions (confirmParsedTransactionsHandler (eng := utcEngine)
                                       salaryWorld user1 stmt1 (confirmAll true)).1).
  { rewrite Hledger. reflexivity. }
  assert (Hshape : map (fun t => (tx_type t, tx_amount t)) createdTxs
                   = [(income, Num (1000 # 1)); (expense, Num (300 # 1))])
    by (rewrite Hcreated; vm_compute; reflexivity).
  split; [exact Hshape|].
  assert (Hchange : balanceChange createdTxs
                    = ofZ (signedSum [(income, 1000%Z); (expense, 300%Z)])).
  { apply Hintegers; [exact Hshape | vm_compute; reflexivity]. }
  split; [exact Hchange|]. split; [reflexivity|].
  destruct Hwrite as (statement & account & Hfind & Hacc & ->).
  { rewrite Hcreated. vm_compute. discriminate. }
  rewrite Hchange.
  assert (Hstatement : statement = upload csv parse_completed
                         (map storedParsed
                            [candidate "temp_1" 1000 "Salary" income;
                             candidate "temp_2" 300 "Groceries" expense])).
  { assert (Hsalary : findStatement (eng := utcEngine) salaryWorld stmt1 user1
                      = inr (Some (upload csv parse_completed
                                     (map storedParsed
                                        [candidate "temp_1" 1000 "Salary" income;
                                         candidate "temp_2" 300 "Groceries" expense]))))
      by reflexivity.
    congruence. }
  subst statement.
  assert (Haccount : account = {| acc_userId := user1;
                                  acc_currentBalance := Num (5000 # 1);
                                  acc_currency := "INR" |}).
  { assert (Hsalary : getBankAccountById (eng := utcEngine) salaryWorld acct1 user1
                      = inr (Some {| acc_userId := user1;
                                     acc_currentBalance := Num (5000 # 1);
                                     acc_currency := "INR" |}))
      by reflexivity.
    change (st_bankAccountId _) with acct1 in Hacc. congruence. }
  subst account. reflexivity.
Defined.

(** C9 as stated fails: on the upload of a document with an income and an
    expense that are both beyond the largest double, the confirm creates
    the two transactions, whose signed sum is [NaN]; the save of the account
    refuses the new balance, the call answers 400 and the balance stays at
    5000. *)
Lemma confirm_overflow_keeps_balance :
  map (fun t => (tx_type t, tx_amount t))
    (transactions (confirmParsedTransactionsHandler (eng := utcEngine)
                     (parsedWorld overflowDocument) user1 stmt1 (confirmAll false)).1)
  = [(income, Inf false); (expense, Inf false)] /\
  transactions (parsedWorld overflowDocument) = [] /\
  balanceChange
    (transactions (confirmParsedTransactionsHandler (eng := utcEngine)
                     (parsedWorld overflowDocument) user1 stmt1 (confirmAll false)).1)
  = NaN /\
  (confirmParsedTransactionsHandler (eng := utcEngine)
     (parsedWorld overflowDocument) user1 stmt1 (confirmAll false)).2
  = Failure 400 "BankAccount validation failed" /\
  acc_currentBalance <$>
    bankAccounts (confirmParsedTransactionsHandler (eng := utcEngine)
                    (parsedWorld overflowDocument) user1 stmt1 (confirmAll false)).1
    !! acct1
  = Some (Num (5000 # 1)).
Proof. conjuncts; vm_compute; reflexivity. Qed.

(** ** Confirming twice *)

Lemma find_app_Some {A} (p : A -> bool) (l l' : list A) :
  is_Some (List.find p l) -> is_Some (List.find p (l ++ l')).
Proof.
  induction l as [|x l IH]; cbn.
  - intros [y Hy]. discriminate.
  - destruct (p x); [eauto | exact IH].
Qed.

Lemma fingerprintPresent_app (ledger new : Ledger) (txData : CreateTransactionData) :
  fingerprintPresent ledger txData = true ->
  fingerprintPresent (ledger ++ new) txData = true.
Proof.
  unfold fingerprintPresent.
  destruct (fingerprintOf txData) as [e|hash]; [discriminate|].
  rewrite !bool_decide_eq_true. apply find_app_Some.
Qed.

Lemma find_snoc_Some {A} (p : A -> bool) (l : list A) (x : A) :
  p x = true -> is_Some (List.find p (l ++ [x])).
Proof.
  intros Hx. induction l as [|y l IH]; cbn.
  - rewrite Hx. eauto.
  - destruct (p y); [eauto | exact IH].
Qed.

(** A row that is not skipped leaves its fingerprint in the ledger; a row
    that is skipped fails on every ledger. *)
Lemma rowOutcome_classified (ledger : Ledger) (txData : CreateTransactionData) :
  match rowOutcome true ledger txData with
  | Skipped => rowFails txData = true
  | o => fingerprintPresent (ledgerAfter o ledger) txData = true
  end.
Proof.
  unfold rowOutcome, rowFails, fingerprintPresent.
  destruct (fingerprintOf txData) as [e|hash]; [reflexivity|].
  cbn [andb].
  destruct (bool_decide (is_Some (findOne (byHashNotDeleted (ct_userId txData) hash) ledger)))
    eqn:Hfound.
  - cbn [ledgerAfter]. exact Hfound.
  - unfold save. destruct (validTransaction txData); [|reflexivity].
    cbn [ledgerAfter]. apply bool_decide_eq_true. unfold findOne.
    apply find_snoc_Some.
    unfold byHashNotDeleted, byHash.
    cbn [tx_userId tx_duplicateCheckHash tx_deletedAt].
    rewrite String.eqb_refl, !bool_decide_eq_true_2 by reflexivity. reflexivity.
Qed.

Lemma createdOf_ledgerAfter (o : RowOutcome) (os : list RowOutcome) (ledger : Ledger) :
  ledger ++ createdOf (o :: os) = ledgerAfter o ledger ++ createdOf os.
Proof.
  destruct o; cbn [createdOf ledgerAfter]; [|reflexivity|reflexivity].
  rewrite <- app_assoc. reflexivity.
Qed.

(** First run: against the ledger it leaves, every row has its
    fingerprint present, unless it was skipped, and then it always fails. *)
Lemma first_run (transactions : list CreateTransactionData) :
  forall ledger : Ledger,
    Forall2
      (fun txData o =>
         match o with
         | Skipped => rowFails txData = true
         | _ => fingerprintPresent
                  (ledger ++ createdOf (outcomes true transactions ledger)) txData = true
         end)
      transactions (outcomes true transactions ledger).
Proof.
  induction transactions as [|txData rest IH]; intros ledger; cbn [outcomes].
  - constructor.
  - set (o := rowOutcome true ledger txData).
    pose proof (rowOutcome_classified ledger txData) as Hhead. fold o in Hhead.
    rewrite createdOf_ledgerAfter.
    constructor.
    + destruct o; [|apply fingerprintPresent_app; exact Hhead|exact Hhead].
      apply fingerprintPresent_app; exact Hhead.
    + exact (IH (ledgerAfter o ledger)).
Qed.

(** Second run: on a ledger where every row has its fingerprint present
    or always fails, no row is created and the ledger stays as it is. *)
Lemma second_run (ledger : Ledger) (transactions : list CreateTransactionData) :
  Forall (fun txData => fingerprintPresent ledger txData = true \/ rowFails txData = true)
    transactions ->
  outcomes true transactions ledger = map (replayOutcome ledger) transactions.
Proof.
  induction 1 as [|txData rest Hhead _ IH]; cbn [outcomes map]; [reflexivity|].
  assert (Ho : rowOutcome true ledger txData = replayOutcome ledger txData).
  { unfold rowOutcome, replayOutcome, fingerprintPresent, rowFails in *.
    destruct (fingerprintOf txData) as [e|hash]; [reflexivity|].
    cbn [andb].
    destruct (bool_decide (is_Some (findOne (byHashNotDeleted (ct_userId txData) hash) ledger)));
      [reflexivity|].
    destruct Hhead as [Hhead|Hhead]; [discriminate|].
    unfold save. apply negb_true_iff in Hhead. rewrite Hhead. reflexivity. }
  rewrite Ho.
  replace (ledgerAfter (replayOutcome ledger txData) ledger) with ledger
    by (unfold replayOutcome; destruct (fingerprintPresent ledger txData); reflexivity).
  rewrite IH. reflexivity.
Qed.

Lemma replay_counts (ledger : Ledger) (transactions : list CreateTransactionData) :
  createdOf (map (replayOutcome ledger) transactions) = [] /\
  duplicatesOf (map (replayOutcome ledger) transactions)
  + skippedOf (map (replayOutcome ledger) transactions)
  = List.length transactions.
Proof.
  induction transactions as [|txData rest [IHc IHn]]; [split; reflexivity|].
  cbn [map].
  assert (Ho : replayOutcome ledger txData = Duplicate \/ replayOutcome ledger txData = Skipped)
    by (unfold replayOutcome; destruct (fingerprintPresent ledger txData); auto).
  destruct Ho as [-> | ->];
    cbn [createdOf duplicatesOf skippedOf List.length]; split; try assumption; lia.
Qed.

Lemma replay_duplicates_bound (ledger : Ledger) (transactions : list CreateTransactionData)
    (os : list RowOutcome) :
  Forall2
    (fun txData o =>
       match o with
       | Skipped => rowFails txData = true
       | _ => fingerprintPresent ledger txData = true
       end)
    transactions os ->
  List.length (createdOf os) + duplicatesOf os
  <= duplicatesOf (map (replayOutcome ledger) transactions).
Proof.
  induction 1 as [|txData o rest os' Hhead _ IH]; [reflexivity|].
  cbn [map]. unfold replayOutcome at 1.
  destruct o; cbn [createdOf duplicatesOf List.length].
  - rewrite Hhead. cbn [duplicatesOf]. lia.
  - rewrite Hhead. cbn [duplicatesOf]. lia.
  - destruct (fingerprintPresent ledger txData); cbn [duplicatesOf]; lia.
Qed.

Lemma Forall2_left {A B} (R : A -> B -> Prop) (Q : A -> Prop) (l : list A) (k : list B) :
  Forall2 R l k -> (forall x y, R x y -> Q x) -> Forall Q l.
Proof.
  intros HR HQ. induction HR as [|x y l k Hxy _ IH]; constructor; eauto.
Qed.

Section ConfirmTwice.
Context `{eng : Engine}.

Lemma updateBankAccountBalance_keeps_owner (accounts accounts' : gmap string BankAccount)
    (accountId : string) (amount : JSNum) (account : BankAccount) :
  castObjectId accountId = Some (objectId accountId) ->
  accounts !! objectId accountId = Some account ->
  updateBankAccountBalance accounts accountId amount = inr accounts' ->
  exists account',
    accounts' !! objectId accountId = Some account' /\
    acc_userId account' = acc_userId account /\
    acc_currency account' = acc_currency account.
Proof.
  intros Hid Hlookup. unfold updateBankAccountBalance. rewrite Hid, Hlookup.
  destruct (isNaN _); [discriminate|]. intros [= <-].
  eexists. rewrite lookup_insert_eq. split; [reflexivity|]. split; reflexivity.
Qed.

(** C1, as the code has it.  With [skipDuplicates] set, when a confirm
    call succeeds, the same call repeated on the world it left answers
    again, leaves that world exactly as it is (no transaction is created,
    no balance is written) and reports created = 0.  Its two other counters
    add up to the three counters of the first call, and its duplicates
    count is at least the created plus the duplicates of the first call; it
    equals the created count N of the first call when the first call
    reported neither a duplicate nor a skipped row. *)
Theorem confirm_twice_creates_once :
  forall (w w1 : World) (userId statementId : string) (body : ConfirmBody) (r1 : ConfirmData),
    cb_skipDuplicates body = true ->
    confirmParsedTransactionsHandler w userId statementId body = (w1, Json r1) ->
    exists r2 : ConfirmData,
      confirmParsedTransactionsHandler w1 userId statementId body = (w1, Json r2) /\
      cd_created r2 = 0%nat /\
      (cd_duplicates r2 + cd_skipped r2 = cd_created r1 + cd_duplicates r1 + cd_skipped r1)%nat /\
      (cd_created r1 + cd_duplicates r1 <= cd_duplicates r2)%nat /\
      (cd_duplicates r1 = 0%nat -> cd_skipped r1 = 0%nat -> cd_duplicates r2 = cd_created r1).
Proof.
  intros w w1 userId statementId body r1 Hskip Hfirst.
  unfold confirmParsedTransactionsHandler in Hfirst.
  destruct (findStatement w statementId userId) as [e|[statement|]] eqn:Hfind;
    [discriminate| |discriminate].
  destruct (negb (bool_decide (st_parseStatus statement = parse_completed))) eqn:Hstatus;
    [discriminate|].
  destruct (getBankAccountById w (st_bankAccountId statement) userId)
    as [e|[bankAccount|]] eqn:Hacc; [discriminate| |discriminate].
  destruct (getBankAccountById_Some _ _ _ _ Hacc) as (Hid & Hlookup & Howner).
  rewrite createTransactions_outcomes, Hskip in Hfirst.
  cbn [created skipped duplicates] in Hfirst.
  set (txs := map (toCreateData userId statement bankAccount) (transactionsToImport statement body))
    in Hfirst.
  set (os := outcomes true txs (transactions w)) in Hfirst.
  destruct (if (0 <? List.length (createdOf os))%nat then _ else _)
    as [e|accounts1] eqn:Hwrite in Hfirst; [discriminate|].
  injection Hfirst as <- <-.
  (* the second call reads the same upload and an account with the same currency *)
  assert (Hacc1 : exists bankAccount',
             getBankAccountById
               {| statements := statements w; transactions := transactions w ++ createdOf os;
                  bankAccounts := accounts1; files := files w |}
               (st_bankAccountId statement) userId = inr (Some bankAccount') /\
             acc_currency bankAccount' = acc_currency bankAccount).
  { unfold getBankAccountById. cbn [bankAccounts]. rewrite Hid, Howner.
    destruct (0 <? List.length (createdOf os))%nat.
    - destruct (updateBankAccountBalance_keeps_owner _ _ _ _ _ Hid Hlookup Hwrite)
        as (account' & Hlookup' & Howner' & Hcurrency').
      exists account'. rewrite Hlookup', Howner', String.eqb_refl.
      split; [reflexivity | exact Hcurrency'].
    - injection Hwrite as <-. exists bankAccount. rewrite Hlookup, String.eqb_refl.
      split; reflexivity. }
  destruct Hacc1 as (bankAccount' & Hacc1 & Hcurrency).
  assert (Htxs : map (toCreateData userId statement bankAccount')
                   (transactionsToImport statement body) = txs).
  { subst txs. apply map_ext. intros tx. unfold toCreateData. rewrite Hcurrency. reflexivity. }
  (* every row is now a duplicate or fails as before *)
  pose proof (first_run txs (transactions w)) as Hrows. fold os in Hrows.
  assert (Hreplay : outcomes true txs (transactions w ++ createdOf os)
                    = map (replayOutcome (transactions w ++ createdOf os)) txs).
  { apply second_run. eapply Forall2_left; [exact Hrows|].
    intros txData o Ho. destruct o; auto. }
  destruct (replay_counts (transactions w ++ createdOf os) txs) as [Hnone Hsum].
  pose proof (replay_duplicates_bound (transactions w ++ createdOf os) txs os Hrows) as Hbound.
  pose proof (outcomes_length true txs (transactions w)) as Hlen. fold os in Hlen.
  exists {| cd_created := 0;
            cd_skipped := skippedOf (map (replayOutcome (transactions w ++ createdOf os)) txs);
            cd_duplicates :=
              duplicatesOf (map (replayOutcome (transactions w ++ createdOf os)) txs) |}.
  split.
  - unfold confirmParsedTransactionsHandler.
    rewrite (findStatement_statements w) by reflexivity.
    rewrite Hfind, Hstatus, Hacc1, Htxs, createTransactions_outcomes, Hskip.
    cbn [transactions created skipped duplicates bankAccounts files].
    rewrite Hreplay, Hnone, app_nil_r. reflexivity.
  - cbn [cd_created cd_skipped cd_duplicates]. repeat split; lia.
Qed.

End ConfirmTwice.

(** The salary upload confirmed twice: 2 created, then 0 created and 2
    duplicates. *)
Lemma confirm_salary_twice :
  cb_skipDuplicates (confirmAll true) = true /\
  (confirmParsedTransactionsHandler (eng := utcEngine) salaryWorld user1 stmt1 (confirmAll true)).2
  = Json {| cd_created := 2; cd_skipped := 0; cd_duplicates := 0 |} /\
  exists r2 : ConfirmData,
    confirmParsedTransactionsHandler (eng := utcEngine)
      (confirmParsedTransactionsHandler (eng := utcEngine) salaryWorld user1 stmt1 (confirmAll true)).1
      user1 stmt1 (confirmAll true)
    = ((confirmParsedTransactionsHandler (eng := utcEngine) salaryWorld user1 stmt1 (confirmAll true)).1,
       Json r2) /\
    cd_created r2 = 0%nat /\
    cd_duplicates r2 = 2%nat.
Proof.
  split; [reflexivity|].
  assert (Hanswer :
            (confirmParsedTransactionsHandler (eng := utcEngine) salaryWorld user1 stmt1 (confirmAll true)).2
            = Json {| cd_created := 2; cd_skipped := 0; cd_duplicates := 0 |})
    by (vm_compute; reflexivity).
  split; [exact Hanswer|].
  destruct (confirm_twice_creates_once (eng := utcEngine) salaryWorld
              (confirmParsedTransactionsHandler (eng := utcEngine) salaryWorld user1 stmt1 (confirmAll true)).1
              user1 stmt1 (confirmAll true)
              {| cd_created := 2; cd_skipped := 0; cd_duplicates := 0 |})
    as (r2 & Hsecond & Hcreated & _ & _ & Hduplicates).
  { reflexivity. }
  { rewrite <- Hanswer. apply surjective_pairing. }
  exists r2. split; [exact Hsecond|]. split; [exact Hcreated|].
  apply Hduplicates; reflexivity.
Defined.

(** C1 as stated fails: when the upload lists the same purchase twice,
    the first confirm creates N = 1 transaction and counts the twin as a
    duplicate, and the second confirm reports 2 duplicates, not 1. *)
Lemma confirm_twins_twice :
  (confirmParsedTransactionsHandler (eng := utcEngine) twinWorld user1 stmt1
     (confirmAll true)).2
  = Json {| cd_created := 1; cd_skipped := 0; cd_duplicates := 1 |} /\
  (confirmParsedTransactionsHandler (eng := utcEngine)
     (confirmParsedTransactionsHandler (eng := utcEngine) twinWorld user1 stmt1
        (confirmAll true)).1
     user1 stmt1 (confirmAll true)).2
  = Json {| cd_created := 0; cd_skipped := 0; cd_duplicates := 2 |}.
Proof.
  split; vm_compute; reflexivity.
Qed.

(** * Further properties of the sources *)

(** ** Facts on strings *)

Lemma append_cons (c : ascii) (s t : string) :
  String.append (String c s) t = String c (String.append s t).
Proof. reflexivity. Qed.

Lemma append_nil_l (t : string) : String.append EmptyString t = t.
Proof. reflexivity. Qed.

Lemma append_nil_r (s : string) : String.append s EmptyString = s.
Proof.
  induction s as [|c s IH]; [reflexivity|].
  rewrite append_cons, IH. reflexivity.
Qed.

Lemma append_assoc (s1 s2 s3 : string) :
  String.append s1 (String.append s2 s3) = String.append (String.append s1 s2) s3.
Proof.
  induction s1 as [|c s1 IH]; [reflexivity|].
  rewrite !append_cons, IH. reflexivity.
Qed.

(** ** Row tokenizer *)

Lemma parseCSVLine_from_unquoted (line : string) :
  forall (result : list string) (current : string),
    occurs quoteChar line = false ->
    parseCSVLine_from line result current false
    = result ++ match split "," line with
                | h :: t => trim (String.append current h) :: map trim t
                | [] => []
                end.
Proof.
  induction line as [|c line IH]; intros result current Hq.
  - cbn [parseCSVLine_from split]. rewrite append_nil_r. reflexivity.
  - cbn [occurs] in Hq. apply orb_false_elim in Hq as [Hc Hq].
    cbn [parseCSVLine_from split]. unfold quoteChar in Hc. rewrite Hc.
    destruct (Ascii.eqb c ",") eqn:Hcomma; cbn [andb negb].
    + rewrite IH by exact Hq. rewrite append_nil_r.
      destruct (split "," line) as [|h t].
      * rewrite app_nil_r. reflexivity.
      * rewrite append_nil_l, <- app_assoc. reflexivity.
    + rewrite IH by exact Hq.
      destruct (split "," line) as [|h t] eqn:Hsplit.
      * destruct line; cbn in Hsplit; [discriminate|].
        destruct (Ascii.eqb a ","); [discriminate|]. destruct (split "," line); discriminate.
      * rewrite <- append_assoc, append_cons, append_nil_l. reflexivity.
Qed.

(** X1. On a line without a double quote, [parseCSVLine] is the split on
    commas with every field trimmed. *)
Theorem parseCSVLine_unquoted :
  forall line : string,
    occurs quoteChar line = false ->
    parseCSVLine line = map trim (split "," line).
Proof.
  intros line Hq. unfold parseCSVLine.
  rewrite parseCSVLine_from_unquoted by exact Hq. cbn [app].
  destruct (split "," line); reflexivity.
Qed.

Lemma parseCSVLine_unquoted_witness :
  occurs quoteChar electricityRow = false /\
  parseCSVLine electricityRow = map trim (split "," electricityRow).
Proof.
  split; [reflexivity|].
  apply (parseCSVLine_unquoted electricityRow). reflexivity.
Defined.

Lemma parseCSVLine_from_quoted (q : string) :
  forall (rest : string) (result : list string) (current : string),
    occurs quoteChar q = false ->
    parseCSVLine_from (String.append q (String quoteChar rest)) result current true
    = parseCSVLine_from rest result (String.append current q) false.
Proof.
  induction q as [|c q IH]; intros rest result current Hq.
  - rewrite append_nil_l, append_nil_r. cbn [parseCSVLine_from].
    unfold quoteChar. cbn [Ascii.eqb Bool.eqb negb]. reflexivity.
  - cbn [occurs] in Hq. apply orb_false_elim in Hq as [Hc Hq].
    rewrite append_cons. cbn [parseCSVLine_from]. unfold quoteChar in Hc. rewrite Hc.
    rewrite andb_false_r. rewrite IH by exact Hq.
    rewrite <- append_assoc, append_cons, append_nil_l. reflexivity.
Qed.

(** X2. A field written between double quotes is one field, whatever
    commas it holds: the quotes are dropped, the commas are kept and the
    content is trimmed. *)
Theorem parseCSVLine_quoted_field :
  forall q : string,
    occurs quoteChar q = false ->
    parseCSVLine (String quoteChar (String.append q (String quoteChar EmptyString)))
    = [trim q].
Proof.
  intros q Hq. unfold parseCSVLine. cbn [parseCSVLine_from].
  unfold quoteChar at 1. cbn [Ascii.eqb Bool.eqb negb].
  rewrite parseCSVLine_from_quoted by exact Hq. reflexivity.
Qed.

Lemma parseCSVLine_quoted_field_witness :
  occurs quoteChar "Rent, March" = false /\
  parseCSVLine (String quoteChar (String.append "Rent, March" (String quoteChar EmptyString)))
  = ["Rent, March"].
Proof.
  split; [reflexivity|].
  apply (parseCSVLine_quoted_field "Rent, March"). reflexivity.
Defined.

(** ** Facts on [trim] *)

Lemma trimEnd_idempotent (s : string) : trimEnd (trimEnd s) = trimEnd s.
Proof.
  induction s as [|c s IH]; [reflexivity|].
  cbn [trimEnd]. destruct (trimEnd s) as [|a t] eqn:Hs.
  - destruct (isWhiteSpace c) eqn:Hc; [reflexivity|].
    cbn [trimEnd]. rewrite Hc. reflexivity.
  - change (trimEnd (String c (String a t)))
      with (match trimEnd (String a t) with
            | EmptyString => if isWhiteSpace c then EmptyString else String c EmptyString
            | String a' t' => String c (String a' t')
            end).
    rewrite IH. reflexivity.
Qed.

Lemma trimStart_head (s : string) :
  trimStart s = EmptyString \/
  exists c s', trimStart s = String c s' /\ isWhiteSpace c = false.
Proof.
  induction s as [|c s IH]; [left; reflexivity|].
  cbn [trimStart]. destruct (isWhiteSpace c) eqn:Hc; [exact IH|].
  right. exists c, s. split; [reflexivity | exact Hc].
Qed.

Lemma trimEnd_head (c : ascii) (s : string) :
  isWhiteSpace c = false -> exists x, trimEnd (String c s) = String c x.
Proof.
  intros Hc. cbn [trimEnd]. destruct (trimEnd s) as [|a t]; [|eauto].
  rewrite Hc. eauto.
Qed.

Lemma trim_idempotent (s : string) : trim (trim s) = trim s.
Proof.
  unfold trim. destruct (trimStart_head s) as [-> | (c & s' & -> & Hc)]; [reflexivity|].
  destruct (trimEnd_head c s' Hc) as [x Hx]. rewrite Hx.
  cbn [trimStart]. rewrite Hc, <- Hx. apply trimEnd_idempotent.
Qed.

Lemma occurs_append (c : ascii) (s t : string) :
  occurs c (String.append s t) = occurs c s || occurs c t.
Proof.
  induction s as [|a s IH]; [reflexivity|].
  rewrite append_cons. cbn [occurs]. rewrite IH, orb_assoc. reflexivity.
Qed.

Lemma occurs_trimStart (c : ascii) (s : string) :
  occurs c s = false -> occurs c (trimStart s) = false.
Proof.
  induction s as [|a s IH]; [reflexivity|].
  intros Hs. cbn [trimStart]. destruct (isWhiteSpace a); [|exact Hs].
  cbn [occurs] in Hs. apply orb_false_elim in Hs as [_ Hs]. exact (IH Hs).
Qed.

Lemma occurs_trimEnd (c : ascii) (s : string) :
  occurs c s = false -> occurs c (trimEnd s) = false.
Proof.
  induction s as [|a s IH]; [reflexivity|].
  intros Hs. cbn [occurs] in Hs. apply orb_false_elim in Hs as [Ha Hs].
  specialize (IH Hs). cbn [trimEnd]. destruct (trimEnd s) as [|b t].
  - destruct (isWhiteSpace a); [reflexivity|]. cbn [occurs]. rewrite Ha. reflexivity.
  - cbn [occurs] in *. rewrite Ha. exact IH.
Qed.

Lemma occurs_trim (c : ascii) (s : string) :
  occurs c s = false -> occurs c (trim s) = false.
Proof. intros Hs. unfold trim. apply occurs_trimEnd, occurs_trimStart, Hs. Qed.

Lemma parseCSVLine_from_fields (line : string) :
  forall (result : list string) (current : string) (inQuotes : bool),
    Forall (fun f => trim f = f /\ occurs quoteChar f = false) result ->
    occurs quoteChar current = false ->
    Forall (fun f => trim f = f /\ occurs quoteChar f = false)
      (parseCSVLine_from line result current inQuotes) /\
    (List.length result < List.length (parseCSVLine_from line result current inQuotes))%nat.
Proof.
  induction line as [|c line IH]; intros result current inQuotes Hresult Hcurrent.
  - cbn [parseCSVLine_from]. split.
    + apply Forall_app. split; [exact Hresult|].
      constructor; [|constructor].
      split; [apply trim_idempotent | apply occurs_trim, Hcurrent].
    + rewrite length_app. cbn. lia.
  - cbn [parseCSVLine_from].
    destruct (Ascii.eqb c "034") eqn:Hquote; [apply IH; assumption|].
    destruct (Ascii.eqb c "," && negb inQuotes).
    + destruct (IH (result ++ [trim current]) EmptyString inQuotes) as [Hall Hlen].
      * apply Forall_app. split; [exact Hresult|].
        constructor; [|constructor].
        split; [apply trim_idempotent | apply occurs_trim, Hcurrent].
      * reflexivity.
      * split; [exact Hall|]. rewrite length_app in Hlen. cbn in Hlen. lia.
    + apply IH; [exact Hresult|].
      rewrite occurs_append, Hcurrent. cbn [occurs orb]. unfold quoteChar.
      rewrite Hquote. reflexivity.
Qed.

(** X3. Whatever the line, [parseCSVLine] returns at least one field,
    and every field it returns is trimmed and holds no double quote. *)
Theorem parseCSVLine_fields :
  forall line : string,
    (1 <= List.length (parseCSVLine line))%nat /\
    Forall (fun f => trim f = f /\ occurs quoteChar f = false) (parseCSVLine line).
Proof.
  intros line. unfold parseCSVLine.
  destruct (parseCSVLine_from_fields line [] EmptyString false) as [Hall Hlen];
    [constructor | reflexivity |].
  split; [cbn in Hlen; lia | exact Hall].
Qed.

(** ** Column mapper *)

Lemma findIndex_spec {A} (pred : A -> bool) (l : list A) :
  (findIndex pred l = (-1)%Z /\ Forall (fun x => pred x = false) l) \/
  (exists x, (0 <= findIndex pred l)%Z /\
             l !! Z.to_nat (findIndex pred l) = Some x /\ pred x = true /\
             Forall (fun y => pred y = false) (take (Z.to_nat (findIndex pred l)) l)).
Proof.
  induction l as [|a l IH]; [left; split; [reflexivity | constructor]|].
  cbn [findIndex]. destruct (pred a) eqn:Ha.
  - right. exists a. split; [lia|]. split; [reflexivity|]. split; [exact Ha | constructor].
  - destruct IH as [[Hnone Hall] | (x & Hpos & Hx & Hpx & Hbefore)].
    + rewrite Hnone. cbn. left. split; [reflexivity | constructor; assumption].
    + destruct (findIndex pred l =? -1)%Z eqn:Hminus; [apply Z.eqb_eq in Hminus; lia|].
      right. exists x.
      replace (Z.to_nat (findIndex pred l + 1)) with (S (Z.to_nat (findIndex pred l))) by lia.
      repeat split; [lia | exact Hx | exact Hpx |].
      cbn [take]. constructor; assumption.
Qed.

(** X4. [findColumnIndex] answers -1 exactly when no header column
    includes a keyword; any other answer is the index, within the header,
    of a column that includes one of the keywords (compared in lower case,
    the columns trimmed). *)
Theorem findColumnIndex_sound :
  forall (header : string) (keywords : list string),
    (findColumnIndex header keywords = (-1)%Z /\
     Forall (fun keyword =>
               Forall (fun col => includes col (toLowerCase keyword) = false)
                 (headerColumns header))
       keywords) \/
    (exists col keyword,
        (0 <= findColumnIndex header keywords < Z.of_nat (List.length (headerColumns header)))%Z /\
        headerColumns header !! Z.to_nat (findColumnIndex header keywords) = Some col /\
        keyword ∈ keywords /\
        includes col (toLowerCase keyword) = true).
Proof.
  intros header keywords. unfold findColumnIndex. fold (headerColumns header).
  induction keywords as [|keyword rest IH]; [left; split; [reflexivity | constructor]|].
  cbn [findColumnIndex_keywords].
  destruct (findIndex_spec (fun col => includes col (toLowerCase keyword)) (headerColumns header))
    as [[Hnone Hall] | (col & Hpos & Hcol & Hincl & _)].
  - rewrite Hnone. cbn [Z.eqb negb].
    destruct IH as [[Hrest Hkeys] | (col & kw & Hrange & Hcol & Hkw & Hincl)].
    + left. split; [exact Hrest | constructor; assumption].
    + right. exists col, kw. repeat split; try tauto. right. exact Hkw.
  - destruct (findIndex _ (headerColumns header) =? -1)%Z eqn:Hminus;
      [apply Z.eqb_eq in Hminus; lia|].
    cbn [negb]. right. exists col, keyword.
    split; [|split; [exact Hcol|split; [left | exact Hincl]]].
    apply lookup_lt_Some in Hcol. lia.
Qed.

(** ** Temporary identifiers *)

Lemma append_inj_l (s a b : string) :
  String.append s a = String.append s b -> a = b.
Proof.
  induction s as [|c s IH]; [auto|].
  rewrite !append_cons. intros [= H]. exact (IH H).
Qed.

Lemma natToString_inj (n m : nat) : natToString n = natToString m -> n = m.
Proof.
  unfold natToString. intros Heq.
  assert (Hof : forall d, exists d',
               NilZero.uint_of_string (NilZero.string_of_uint d) = Some d' /\
               Nat.of_uint d' = Nat.of_uint d).
  { intros d. destruct (NilZero.usu_gen d) as [Hd | Hd].
    - exists d. split; [exact Hd | reflexivity].
    - exists Decimal.zero. split; [exact Hd|].
      destruct d; [reflexivity | ..];
        rewrite NilZero.usu in Hd by discriminate;
        first [discriminate | injection Hd as ->; reflexivity]. }
  destruct (Hof (Nat.to_uint n)) as (dn & Hn & Hvn).
  destruct (Hof (Nat.to_uint m)) as (dm & Hm & Hvm).
  rewrite Heq, Hm in Hn. injection Hn as <-.
  rewrite <- (DecimalNat.Unsigned.of_to n), <- (DecimalNat.Unsigned.of_to m).
  congruence.
Qed.

Lemma tempIdOf_inj (n m : nat) : tempIdOf n = tempIdOf m -> n = m.
Proof. unfold tempIdOf. intros H. apply natToString_inj, (append_inj_l _ _ _ H). Qed.

(** ** Tabular extractor: where the candidates come from *)

Section TabularOrigin.
Context `{eng : Engine}.

Lemma parseCSVRow_fields (cols : Columns) (i : nat) (rawLine : string) (tx : ParsedTransaction) :
  parseCSVRow cols i rawLine = Some tx ->
  let columns := parseCSVLine (trim rawLine) in
  exists dateStr amountStr descStr : string,
    (3 <= List.length columns)%nat /\
    column columns (dateCol cols) (columns !! 0%nat) = Some dateStr /\
    parseDate dateStr = Some (pt_date tx) /\
    column columns (amountCol cols) (columns !! 1%nat) = Some amountStr /\
    pt_amount tx = abs (parseFloat (numericChars amountStr)) /\
    column columns (descriptionCol cols) (columns !! 2%nat) = Some descStr /\
    pt_description tx = trim descStr /\
    pt_type tx = default (if gt0 (parseFloat (numericChars amountStr)) then income else expense)
                   (typeColumnOverride cols columns) /\
    pt_tempId tx = Some (tempIdOf i) /\
    pt_isDuplicate tx = None.
Proof.
  unfold parseCSVRow. intros Hrow. set (columns := parseCSVLine (trim rawLine)) in *.
  destruct (negb (truthy (trim rawLine))); [discriminate|].
  destruct (List.length columns <? 3)%nat eqn:Hlen; [discriminate|].
  apply Nat.ltb_ge in Hlen.
  destruct (column columns (dateCol cols) (columns !! 0%nat)) as [dateStr|] eqn:Hdate;
    [|discriminate].
  destruct (parseDate dateStr) as [date|] eqn:Hparse; [|discriminate].
  destruct (column columns (amountCol cols) (columns !! 1%nat)) as [amountStr|] eqn:Hamount;
    [|discriminate].
  destruct (isNaN _ || isZero _); [discriminate|].
  destruct (column columns (descriptionCol cols) (columns !! 2%nat)) as [descStr|] eqn:Hdesc;
    [|discriminate].
  injection Hrow as <-.
  exists dateStr, amountStr, descStr.
  cbn [pt_date pt_amount pt_description pt_type pt_tempId pt_isDuplicate].
  repeat split; try assumption.
  unfold typeColumnOverride.
  destruct (column columns (typeCol cols) (Some EmptyString)) as [t|]; [|reflexivity].
  destruct (truthy t); reflexivity.
Qed.

Lemma parseCSVRows_origin (cols : Columns) (lines : list string) :
  forall (start : nat) (tx : ParsedTransaction),
    tx ∈ parseCSVRows cols start lines ->
    exists (k : nat) (rawLine : string),
      lines !! k = Some rawLine /\ parseCSVRow cols (start + k) rawLine = Some tx.
Proof.
  induction lines as [|l lines IH]; intros start tx Hin; cbn [parseCSVRows] in Hin.
  - apply elem_of_nil in Hin. destruct Hin.
  - assert (Hrest : tx ∈ parseCSVRows cols (S start) lines ->
                    exists k rawLine, (l :: lines) !! k = Some rawLine /\
                                      parseCSVRow cols (start + k) rawLine = Some tx).
    { intros Htail. destruct (IH _ _ Htail) as (k & rawLine & Hk & Hrow).
      exists (S k), rawLine. split; [exact Hk|].
      replace (start + S k)%nat with (S start + k)%nat by lia. exact Hrow. }
    destruct (parseCSVRow cols start l) as [tx'|] eqn:Hhead; [|exact (Hrest Hin)].
    apply elem_of_cons in Hin as [-> | Hin]; [|exact (Hrest Hin)].
    exists 0%nat, l. split; [reflexivity|]. rewrite Nat.add_0_r. exact Hhead.
Qed.

Lemma List_filter_cons {A} (f : A -> bool) (x : A) (l : list A) :
  List.filter f (x :: l) = if f x then x :: List.filter f l else List.filter f l.
Proof. reflexivity. Qed.

Lemma numericChar_class (c : ascii) :
  isDigit c || Ascii.eqb c "." || Ascii.eqb c "-"
  = existsb (Ascii.eqb c) (list_ascii_of_string "0123456789.-").
Proof. destruct c as [[] [] [] [] [] [] [] []]; reflexivity. Qed.

Lemma numericChars_filter (s : string) :
  list_ascii_of_string (numericChars s)
  = List.filter (fun c => existsb (Ascii.eqb c) (list_ascii_of_string "0123456789.-"))
      (list_ascii_of_string s).
Proof.
  unfold numericChars. induction s as [|c s IH]; [reflexivity|].
  cbn [keepChars].
  change (list_ascii_of_string (String c s)) with (c :: list_ascii_of_string s).
  rewrite (List_filter_cons (fun c => existsb (Ascii.eqb c) (list_ascii_of_string "0123456789.-"))).
  rewrite <- numericChar_class.
  destruct (isDigit c || Ascii.eqb c "." || Ascii.eqb c "-"); [|exact IH].
  change (list_ascii_of_string (String c ?t)) with (c :: list_ascii_of_string t).
  cbn [list_ascii_of_string]. f_equal. exact IH.
Qed.

(** X5. Every candidate that the tabular extractor returns stems from one
    line of the document, at or after the first data line.  Its
    identifier is temp_i for the index i of that line; its date is the
    parsed date field; its amount is the absolute value of the number read
    from the amount field once everything but digits, dots and minus signs
    is removed, the characters that are left keeping their order; its
    description is the trimmed description field; and its direction is the
    one the type column imposes, if any, else income for a positive number
    and expense otherwise. *)
Theorem csv_candidate_origin :
  forall (fileContent : string) (txs : list ParsedTransaction) (tx : ParsedTransaction),
    parseCSVStatement fileContent = inr txs ->
    tx ∈ txs ->
    let lines := split "010" (trim fileContent) in
    let cols := detectColumns (toLowerCase (List.hd EmptyString lines)) in
    exists (i : nat) (rawLine dateStr amountStr descStr stripped : string),
      let columns := parseCSVLine (trim rawLine) in
      (dataStartIndex cols <= i)%nat /\
      lines !! i = Some rawLine /\
      pt_tempId tx = Some (tempIdOf i) /\
      column columns (dateCol cols) (columns !! 0%nat) = Some dateStr /\
      parseDate dateStr = Some (pt_date tx) /\
      column columns (amountCol cols) (columns !! 1%nat) = Some amountStr /\
      list_ascii_of_string stripped
      = List.filter (fun c => existsb (Ascii.eqb c) (list_ascii_of_string "0123456789.-"))
          (list_ascii_of_string amountStr) /\
      pt_amount tx = abs (parseFloat stripped) /\
      column columns (descriptionCol cols) (columns !! 2%nat) = Some descStr /\
      pt_description tx = trim descStr /\
      pt_type tx = default (if gt0 (parseFloat stripped) then income else expense)
                     (typeColumnOverride cols columns).
Proof.
  intros fileContent txs tx Hparse Hin lines cols.
  unfold parseCSVStatement in Hparse. fold lines in Hparse. fold cols in Hparse.
  destruct (List.length lines <? 2)%nat; [discriminate|].
  injection Hparse as <-.
  destruct (parseCSVRows_origin _ _ _ _ Hin) as (k & rawLine & Hk & Hrow).
  rewrite lookup_drop in Hk.
  destruct (parseCSVRow_fields _ _ _ _ Hrow)
    as (dateStr & amountStr & descStr & _ & Hdate & Hpd & Hamount & Hval & Hdesc & Hd & Hty & Hid & _).
  exists (dataStartIndex cols + k)%nat, rawLine, dateStr, amountStr, descStr,
    (numericChars amountStr).
  cbn zeta. repeat split; try assumption; [lia | apply numericChars_filter].
Qed.

Lemma parseCSVRows_ids (cols : Columns) (lines : list string) :
  forall start : nat,
    map pt_tempId (parseCSVRows cols start lines)
      `sublist_of` map (fun i => Some (tempIdOf i)) (seq start (List.length lines)).
Proof.
  induction lines as [|l lines IH]; intros start; cbn [parseCSVRows List.length seq map].
  - constructor.
  - destruct (parseCSVRow cols start l) as [tx|] eqn:Hrow.
    + destruct (parseCSVRow_fields _ _ _ _ Hrow) as (? & ? & ? & ? & ? & ? & ? & ? & ? & ? & ? & Hid & ?).
      cbn [map]. rewrite Hid. apply sublist_skip, IH.
    + apply sublist_cons, IH.
Qed.

Lemma tempIds_NoDup (start n : nat) :
  NoDup (map (fun i => Some (tempIdOf i)) (seq start n)).
Proof.
  apply NoDup_fmap_2_strong; [|apply NoDup_seq].
  intros i j _ _ Hij. apply tempIdOf_inj. congruence.
Qed.

(** X6. The temporary identifiers that the tabular extractor gives are
    pairwise different, and there are no more candidates than lines after
    the first data line. *)
Theorem csv_candidate_ids_unique :
  forall (fileContent : string) (txs : list ParsedTransaction),
    parseCSVStatement fileContent = inr txs ->
    NoDup (map pt_tempId txs) /\
    (List.length txs
     <= List.length (split "010" (trim fileContent))
        - dataStartIndex (detectColumns
                            (toLowerCase (List.hd EmptyString (split "010" (trim fileContent))))))%nat.
Proof.
  intros fileContent txs Hparse. unfold parseCSVStatement in Hparse.
  destruct (List.length _ <? 2)%nat; [discriminate|].
  injection Hparse as <-.
  match goal with
  | |- context [parseCSVRows ?cols ?start ?ls] =>
      pose proof (parseCSVRows_ids cols ls start) as Hsub
  end.
  split.
  - eapply sublist_NoDup; [apply tempIds_NoDup | exact Hsub].
  - apply sublist_length in Hsub.
    rewrite !length_map, length_seq, length_drop in Hsub. exact Hsub.
Qed.

End TabularOrigin.

(** The second row of March: the amount field 1,200.50 is read as
    1200.5, the amount field INR -450.00 of the first as -450. *)
Lemma csv_candidate_origin_witness :
  exists (bill salary : ParsedTransaction) (amountStr stripped : string),
    parseCSVStatement (eng := utcEngine) marchDocument = inr [bill; salary] /\
    salary ∈ [bill; salary] /\
    pt_tempId salary = Some (tempIdOf 2) /\
    pt_description salary = "Salary" /\
    amountStr = "1,200.50" /\
    stripped = "1200.50" /\
    list_ascii_of_string stripped
    = List.filter (fun c => existsb (Ascii.eqb c) (list_ascii_of_string "0123456789.-"))
        (list_ascii_of_string amountStr) /\
    pt_amount salary = abs (parseFloat stripped) /\
    pt_amount salary = Num (2401 # 2) /\
    pt_amount bill = abs (parseFloat "-450.00") /\
    pt_type salary = income /\ pt_type bill = expense.
Proof.
  assert (Hrows : exists bill salary,
             parseCSVStatement (eng := utcEngine) marchDocument = inr [bill; salary] /\
             pt_tempId salary = Some (tempIdOf 2) /\
             pt_description salary = "Salary" /\
             pt_amount salary = Num (2401 # 2) /\
             pt_amount bill = Num (450 # 1) /\
             pt_type salary = income /\ pt_type bill = expense)
    by (eexists _, _; conjuncts; vm_compute; reflexivity).
  destruct Hrows
    as (bill & salary & Hparse & Hsecond & Hdescription & Hsalary & Hbill & Hin & Hout).
  assert (Hmember : salary ∈ [bill; salary]) by (right; left).
  destruct (csv_candidate_origin (eng := utcEngine) marchDocument [bill; salary] salary
              Hparse Hmember)
    as (i & rawLine & dateStr & amountStr & descStr & stripped
        & Hstart & Hline & Hid & Hdate & Hparsed & Hamount & Hstripped & Hvalue & _).
  assert (Hi : i = 2%nat) by (apply tempIdOf_inj; congruence).
  subst i. vm_compute in Hline. injection Hline as <-.
  vm_compute in Hamount. injection Hamount as <-.
  assert (Hclean : stripped = "1200.50").
  { apply (f_equal string_of_list_ascii) in Hstripped.
    rewrite string_of_list_ascii_of_string in Hstripped. exact Hstripped. }
  exists bill, salary, "1,200.50", stripped.
  split; [exact Hparse|]. split; [exact Hmember|]. split; [exact Hid|].
  split; [exact Hdescription|]. split; [reflexivity|]. split; [exact Hclean|].
  split; [exact Hstripped|]. split; [exact Hvalue|]. split; [exact Hsalary|].
  split; [rewrite Hbill; vm_compute; reflexivity|]. split; assumption.
Defined.

(** The two rows of March get two different identifiers. *)
Lemma csv_candidate_ids_unique_witness :
  exists txs : list ParsedTransaction,
    parseCSVStatement (eng := utcEngine) marchDocument = inr txs /\
    map pt_tempId txs = [Some "temp_1"; Some "temp_2"] /\
    NoDup (map pt_tempId txs).
Proof.
  assert (Hrows : exists txs,
             parseCSVStatement (eng := utcEngine) marchDocument = inr txs /\
             map pt_tempId txs = [Some "temp_1"; Some "temp_2"])
    by (eexists; split; vm_compute; reflexivity).
  destruct Hrows as (txs & Hparse & Hids).
  exists txs. split; [exact Hparse|]. split; [exact Hids|].
  exact (proj1 (csv_candidate_ids_unique (eng := utcEngine) marchDocument txs Hparse)).
Defined.

(** ** Free-text extractor: identifiers and descriptions *)

Section FreeTextCandidates.
Context `{eng : Engine}.

Lemma candidateOfMatch_fields (m : MatchResult) (tempId : nat) (tx : ParsedTransaction) :
  candidateOfMatch m tempId = Some tx ->
  pt_tempId tx = Some (tempIdOf tempId) /\
  trim (pt_description tx) = pt_description tx /\
  truthy (pt_description tx) = true /\
  pt_type tx <> transfer /\
  pt_balance tx = None /\
  pt_referenceNumber tx = None /\
  pt_isDuplicate tx = None.
Proof.
  unfold candidateOfMatch. intros Hc.
  match type of Hc with
  | (match ?scrutinee with _ => _ end) = _ =>
      destruct scrutinee as [[date amount] description]
  end.
  destruct date as [date|]; [|discriminate].
  destruct description as [description|]; [|discriminate].
  destruct (negb (isNaN amount) && negb (isZero amount) && truthy (trim description)) eqn:Hok;
    [|discriminate].
  injection Hc as <-.
  cbn [pt_tempId pt_description pt_type pt_balance pt_referenceNumber pt_isDuplicate].
  apply andb_prop in Hok as [_ Hdesc].
  repeat split; try assumption; [apply trim_idempotent | destruct (gt0 amount); discriminate].
Qed.

Lemma tryPatterns_fields (ps : list regex) (line : string) (tempId : nat) (tx : ParsedTransaction) :
  tryPatterns ps line tempId = Some tx ->
  pt_tempId tx = Some (tempIdOf tempId) /\
  trim (pt_description tx) = pt_description tx /\
  truthy (pt_description tx) = true /\
  pt_type tx <> transfer /\
  pt_balance tx = None /\
  pt_referenceNumber tx = None /\
  pt_isDuplicate tx = None.
Proof.
  induction ps as [|p ps IH]; cbn [tryPatterns]; [discriminate|].
  destruct (exec p line) as [m|]; [|exact IH].
  destruct (candidateOfMatch m tempId) as [tx'|] eqn:Hc; [|exact IH].
  intros [= <-]. eapply candidateOfMatch_fields; eassumption.
Qed.

Lemma parsePDFLines_ids (lines : list string) :
  forall start : nat,
    map pt_tempId (parsePDFLines start lines)
    = map (fun i => Some (tempIdOf i)) (seq start (List.length (parsePDFLines start lines))) /\
    (List.length (parsePDFLines start lines)
     <= List.length (List.filter (fun line => truthy (trim line)) lines))%nat.
Proof.
  induction lines as [|l lines IH]; intros start; cbn [parsePDFLines List.filter].
  - split; [reflexivity | cbn; lia].
  - destruct (truthy (trim l)) eqn:Hblank; cbn [negb]; [|apply IH].
    destruct (tryPatterns patterns (trim l) start) as [tx|] eqn:Htry.
    + destruct (tryPatterns_fields _ _ _ _ Htry) as (Hid & _).
      destruct (IH (S start)) as [Hids Hlen].
      cbn [map List.length seq]. rewrite Hid, Hids. split; [reflexivity | lia].
    + destruct (IH start) as [Hids Hlen]. split; [exact Hids|]. cbn [List.length]. lia.
Qed.

(** X7. The free-text extractor numbers its candidates in order from 0
    without a gap: the k-th candidate returned is temp_k, so the
    identifiers are pairwise different; and it returns at most one candidate
    per non-blank line of the text. *)
Theorem pdf_candidate_ids_consecutive :
  forall text : string,
    map pt_tempId (parsePDFStatement text)
    = map (fun i => Some (tempIdOf i)) (seq 0 (List.length (parsePDFStatement text))) /\
    NoDup (map pt_tempId (parsePDFStatement text)) /\
    (List.length (parsePDFStatement text)
     <= List.length (List.filter (fun line => truthy (trim line)) (split "010" text)))%nat.
Proof.
  intros text. unfold parsePDFStatement.
  destruct (parsePDFLines_ids (split "010" text) 0) as [Hids Hlen].
  split; [exact Hids|]. split; [|exact Hlen].
  rewrite Hids. apply tempIds_NoDup.
Qed.

(** X8. Every candidate of the free-text extractor has a description that
    is trimmed and not empty, a direction that is income or expense, and no
    balance, reference number or duplicate flag. *)
Theorem pdf_candidate_shape :
  forall text : string,
    Forall (fun tx =>
              trim (pt_description tx) = pt_description tx /\
              truthy (pt_description tx) = true /\
              pt_type tx <> transfer /\
              pt_balance tx = None /\
              pt_referenceNumber tx = None /\
              pt_isDuplicate tx = None)
      (parsePDFStatement text).
Proof.
  intros text. unfold parsePDFStatement. generalize 0%nat.
  induction (split "010" text) as [|l lines IH]; intros start; cbn [parsePDFLines].
  - constructor.
  - destruct (negb (truthy (trim l))); [apply IH|].
    destruct (tryPatterns patterns (trim l) start) as [tx|] eqn:Htry; [|apply IH].
    constructor; [|apply IH].
    destruct (tryPatterns_fields _ _ _ _ Htry) as (_ & H). exact H.
Qed.

End FreeTextCandidates.

(** ** Duplicate detection *)

Lemma generateDuplicateHash_error (date : JSDate) (amount : JSNum) (description accountId : string) :
  match generateDuplicateHash date amount description accountId with
  | inl e => e = "Invalid time value" /\ isValidDate date = false
  | inr _ => isValidDate date = true
  end.
Proof.
  unfold generateDuplicateHash, toISOString, isValidDate.
  destruct (timeValue date) as [t|]; [|split; reflexivity].
  destruct (civilFromDays (t / msPerDay)) as [[y mo] dd]. reflexivity.
Qed.

Lemma checkDuplicates_loop_spec (ledger : Ledger) (userId : string) (txs : list HashInput) :
  forall m0 m : gmap Digest (option Transaction),
    checkDuplicates_loop ledger userId txs m0 = inr m ->
    (forall h v, m0 !! h = Some v -> v = findOne (byHash userId h) ledger) ->
    (forall h v, m !! h = Some v -> v = findOne (byHash userId h) ledger) /\
    (forall h, is_Some (m0 !! h) -> is_Some (m !! h)) /\
    Forall (fun tx =>
              exists h,
                generateDuplicateHash (hi_date tx) (hi_amount tx) (hi_description tx)
                  (hi_accountId tx) = inr h /\
                is_Some (m !! h))
      txs.
Proof.
  induction txs as [|tx txs IH]; intros m0 m Hloop Hm0; cbn [checkDuplicates_loop] in Hloop.
  - injection Hloop as <-. split; [exact Hm0|]. split; [auto | constructor].
  - destruct (generateDuplicateHash _ _ _ _) as [e|hash] eqn:Hhash; [discriminate|].
    destruct (IH _ _ Hloop) as (Hm & Hkeep & Hall).
    { intros h v. rewrite lookup_insert. case_decide as Heq.
      - subst h. intros [= <-]. reflexivity.
      - apply Hm0. }
    split; [exact Hm|]. split.
    + intros h Hh. apply Hkeep. rewrite lookup_insert.
      case_decide; [eauto | exact Hh].
    + constructor; [|exact Hall].
      exists hash. split; [exact Hhash|]. apply Hkeep. rewrite lookup_insert_eq. eauto.
Qed.

Lemma Forall2_map_diag {A B} (g : A -> B) (R : A -> B -> Prop) (l : list A) :
  Forall (fun x => R x (g x)) l -> Forall2 R l (map g l).
Proof. induction 1; cbn [map]; constructor; assumption. Qed.

Lemma checkDuplicates_loop_error (ledger : Ledger) (userId : string) (txs : list HashInput) :
  forall (m0 : gmap Digest (option Transaction)),
    match checkDuplicates_loop ledger userId txs m0 with
    | inl e => e = "Invalid time value" /\ Exists (fun tx => isValidDate (hi_date tx) = false) txs
    | inr _ => Forall (fun tx => isValidDate (hi_date tx) = true) txs
    end.
Proof.
  induction txs as [|tx txs IH]; intros m0; cbn [checkDuplicates_loop]; [constructor|].
  pose proof (generateDuplicateHash_error (hi_date tx) (hi_amount tx) (hi_description tx)
                (hi_accountId tx)) as Hgen.
  destruct (generateDuplicateHash _ _ _ _) as [e|hash].
  - destruct Hgen as [-> Hdate]. split; [reflexivity | left; exact Hdate].
  - specialize (IH (<[hash := findOne (byHash userId hash) ledger]> m0)).
    destruct (checkDuplicates_loop _ _ txs _) as [e|m].
    + destruct IH as [-> Hex]. split; [reflexivity | right; exact Hex].
    + constructor; assumption.
Qed.

(** X9. When [detectDuplicates] succeeds it returns the candidates in
    the same order, each with its fields as they were and its two duplicate
    fields set from the ledger alone: the flag says whether some transaction
    of the owner carries the fingerprint of the candidate (for the account
    given), and the matching id is that of the first such transaction.  The
    other candidates of the batch play no part. *)
Theorem detectDuplicates_flags :
  forall (ledger : Ledger) (userId accountId : string) (txs out : list ParsedTransaction),
    detectDuplicates ledger userId txs accountId = inr out ->
    Forall2
      (fun tx tx' =>
         exists hash,
           generateDuplicateHash (pt_date tx) (pt_amount tx) (pt_description tx) accountId
           = inr hash /\
           tx' = {| pt_date := pt_date tx;
                    pt_amount := pt_amount tx;
                    pt_description := pt_description tx;
                    pt_type := pt_type tx;
                    pt_referenceNumber := pt_referenceNumber tx;
                    pt_balance := pt_balance tx;
                    pt_isDuplicate :=
                      Some (bool_decide (is_Some (findOne (byHash userId hash) ledger)));
                    pt_matchingTransactionId :=
                      option_map tx_id (findOne (byHash userId hash) ledger);
                    pt_tempId := pt_tempId tx |})
      txs out.
Proof.
  intros ledger userId accountId txs out Hdetect.
  unfold detectDuplicates, checkDuplicates in Hdetect.
  destruct (checkDuplicates_loop ledger userId _ ∅) as [e|m] eqn:Hloop; [discriminate|].
  injection Hdetect as <-.
  destruct (checkDuplicates_loop_spec _ _ _ _ _ Hloop) as (Hm & _ & Hall).
  { intros h v Hv. rewrite lookup_empty in Hv. discriminate. }
  apply Forall2_map_diag.
  clear Hloop. induction txs as [|tx txs IH]; [constructor|].
  cbn [map] in Hall. apply Forall_cons in Hall as [Htx Hall].
  constructor; [|exact (IH Hall)].
  cbn [hi_date hi_amount hi_description hi_accountId] in Htx.
  destruct Htx as (h & Hh & [v Hv]).
  exists h. split; [exact Hh|]. rewrite Hh, Hv. cbn [mjoin option_bind option_join].
  rewrite (Hm h v Hv). reflexivity.
Qed.

Lemma detectDuplicates_flags_witness :
  exists out,
    detectDuplicates [coffeeEntry None] user1 [candidate "temp_1" 450 "Coffee Shop" expense]
      acct1 = inr out /\
    Forall2
      (fun tx tx' =>
         exists hash,
           generateDuplicateHash (pt_date tx) (pt_amount tx) (pt_description tx) acct1
           = inr hash /\
           tx' = {| pt_date := pt_date tx;
                    pt_amount := pt_amount tx;
                    pt_description := pt_description tx;
                    pt_type := pt_type tx;
                    pt_referenceNumber := pt_referenceNumber tx;
                    pt_balance := pt_balance tx;
                    pt_isDuplicate :=
                      Some (bool_decide
                              (is_Some (findOne (byHash user1 hash) [coffeeEntry None])));
                    pt_matchingTransactionId :=
                      option_map tx_id (findOne (byHash user1 hash) [coffeeEntry None]);
                    pt_tempId := pt_tempId tx |})
      [candidate "temp_1" 450 "Coffee Shop" expense] out.
Proof.
  eexists. split; [vm_compute; reflexivity|].
  apply (detectDuplicates_flags [coffeeEntry None] user1 acct1).
  vm_compute. reflexivity.
Defined.

(** X10. [detectDuplicates] throws exactly when one of the candidates
    carries an invalid date, with the message of the range error; then no
    candidate is flagged at all. *)
Theorem detectDuplicates_error :
  forall (ledger : Ledger) (userId accountId : string) (txs : list ParsedTransaction),
    match detectDuplicates ledger userId txs accountId with
    | inl e => e = "Invalid time value" /\ Exists (fun tx => isValidDate (pt_date tx) = false) txs
    | inr out =>
        Forall (fun tx => isValidDate (pt_date tx) = true) txs /\
        List.length out = List.length txs
    end.
Proof.
  intros ledger userId accountId txs. unfold detectDuplicates, checkDuplicates.
  match goal with
  | |- context [checkDuplicates_loop ?l ?u ?hs ?m0] =>
      pose proof (checkDuplicates_loop_error l u hs m0) as Hloop;
      destruct (checkDuplicates_loop l u hs m0) as [e|m]
  end.
  - destruct Hloop as [-> Hex]. split; [reflexivity|].
    apply Exists_exists in Hex as (hi & Hin & Hbad).
    apply list_elem_of_In, in_map_iff in Hin as (tx & <- & Hin).
    apply Exists_exists. exists tx. split; [apply list_elem_of_In; exact Hin | exact Hbad].
  - split; [|apply length_map].
    apply Forall_forall. intros tx Hin.
    rewrite Forall_forall in Hloop.
    apply (Hloop {| hi_date := pt_date tx; hi_amount := pt_amount tx;
                    hi_description := pt_description tx; hi_accountId := accountId |}).
    apply list_elem_of_In, in_map_iff. exists tx.
    split; [reflexivity | apply list_elem_of_In; exact Hin].
Qed.

(** ** Single and bulk create *)

Lemma liveKeys_app (l l' : Ledger) : liveKeys (l ++ l') = liveKeys l ++ liveKeys l'.
Proof. unfold liveKeys. rewrite List.filter_app, List.map_app. reflexivity. Qed.

Lemma liveKeys_cons (t : Transaction) (l : Ledger) :
  liveKeys (t :: l)
  = if bool_decide (tx_deletedAt t = None)
    then (tx_userId t, tx_duplicateCheckHash t) :: liveKeys l
    else liveKeys l.
Proof.
  unfold liveKeys. cbn [List.filter].
  destruct (bool_decide (tx_deletedAt t = None)); reflexivity.
Qed.

Lemma byHashNotDeleted_true (userId : string) (hash : Digest) (t : Transaction) :
  byHashNotDeleted userId hash t = true <->
  tx_userId t = userId /\ tx_duplicateCheckHash t = hash /\ tx_deletedAt t = None.
Proof.
  unfold byHashNotDeleted, byHash.
  rewrite !andb_true_iff, String.eqb_eq, !bool_decide_eq_true. tauto.
Qed.

Lemma findOne_live_liveKeys (userId : string) (hash : Digest) (ledger : Ledger) :
  is_Some (findOne (byHashNotDeleted userId hash) ledger) <-> (userId, hash) ∈ liveKeys ledger.
Proof.
  unfold findOne. induction ledger as [|t ledger IH].
  - cbn. split; [intros [x Hx]; discriminate | intros Hin; apply elem_of_nil in Hin; destruct Hin].
  - cbn [List.find]. rewrite liveKeys_cons.
    destruct (byHashNotDeleted userId hash t) eqn:Ht.
    + apply byHashNotDeleted_true in Ht as (Hu & Hh & Hd).
      rewrite bool_decide_eq_true_2 by exact Hd. rewrite Hu, Hh.
      split; [intros _; left | eauto].
    + rewrite IH. destruct (bool_decide (tx_deletedAt t = None)) eqn:Hd; [|reflexivity].
      rewrite elem_of_cons. split; [auto|]. intros [Heq | Hin]; [|exact Hin].
      injection Heq as Hu Hh. apply bool_decide_eq_true in Hd.
      assert (byHashNotDeleted userId hash t = true) by (apply byHashNotDeleted_true; auto).
      congruence.
Qed.

Lemma save_document (ledger : Ledger) (data : CreateTransactionData) (hash : Digest)
    (saved : Transaction) :
  save ledger data hash = inr saved ->
  validTransaction data = true /\
  tx_userId saved = ct_userId data /\
  tx_accountId saved = ct_accountId data /\
  tx_accountType saved = ct_accountType data /\
  tx_type saved = ct_type data /\
  tx_amount saved = ct_amount data /\
  tx_currency saved = toUpperCase (ct_currency data) /\
  tx_status saved = completed /\
  tx_duplicateCheckHash saved = hash /\
  tx_deletedAt saved = None.
Proof.
  unfold save. destruct (validTransaction data); [|discriminate].
  intros [= <-]. cbn. repeat split.
Qed.

Lemma LiveUnique_snoc (ledger : Ledger) (saved : Transaction) :
  LiveUnique ledger ->
  tx_deletedAt saved = None ->
  findOne (byHashNotDeleted (tx_userId saved) (tx_duplicateCheckHash saved)) ledger = None ->
  LiveUnique (ledger ++ [saved]).
Proof.
  unfold LiveUnique. intros Hunique Hlive Habsent.
  rewrite liveKeys_app, liveKeys_cons, bool_decide_eq_true_2 by exact Hlive.
  apply NoDup_app. split; [exact Hunique|]. split; [|apply NoDup_singleton].
  intros key Hkey Hin. apply list_elem_of_singleton in Hin. subst key.
  apply findOne_live_liveKeys in Hkey. rewrite Habsent in Hkey.
  destruct Hkey as [x Hx]. discriminate.
Qed.

(** X11. A successful [createTransaction] appends exactly one document,
    which is not deleted, belongs to the user of the data and carries the
    fingerprint of the data; the same create repeated on the ledger it left
    is refused as a duplicate and changes nothing.  A create that fails
    leaves the ledger as it was. *)
Theorem createTransaction_once :
  forall (ledger : Ledger) (data : CreateTransactionData),
    match createTransaction ledger data with
    | (ledger', inr saved) =>
        ledger' = ledger ++ [saved] /\
        tx_deletedAt saved = None /\
        tx_userId saved = ct_userId data /\
        fingerprintOf data = inr (tx_duplicateCheckHash saved) /\
        createTransaction ledger' data = (ledger', inl "Duplicate transaction detected")
    | (ledger', inl _) => ledger' = ledger
    end.
Proof.
  intros ledger data. unfold createTransaction. fold (fingerprintOf data).
  destruct (fingerprintOf data) as [e|hash] eqn:Hhash; [reflexivity|].
  destruct (findOne (byHashNotDeleted (ct_userId data) hash) ledger) eqn:Hfound; [reflexivity|].
  destruct (save ledger data hash) as [e|saved] eqn:Hsave; [reflexivity|].
  destruct (save_document _ _ _ _ Hsave) as (_ & Hu & _ & _ & _ & _ & _ & _ & Hh & Hd).
  split; [reflexivity|]. split; [exact Hd|]. split; [exact Hu|]. split; [rewrite Hh; reflexivity|].
  assert (Hnow : is_Some (findOne (byHashNotDeleted (ct_userId data) hash) (ledger ++ [saved]))).
  { apply findOne_live_liveKeys. rewrite liveKeys_app, liveKeys_cons, Hu, Hh.
    rewrite bool_decide_eq_true_2 by exact Hd. apply elem_of_app. right. left. }
  destruct Hnow as [x Hx]. rewrite Hx. reflexivity.
Qed.

Lemma rowOutcome_LiveUnique (ledger : Ledger) (txData : CreateTransactionData) :
  LiveUnique ledger -> LiveUnique (ledgerAfter (rowOutcome true ledger txData) ledger).
Proof.
  intros Hunique. unfold rowOutcome.
  destruct (fingerprintOf txData) as [e|hash]; [exact Hunique|].
  cbn [andb].
  destruct (bool_decide (is_Some (findOne (byHashNotDeleted (ct_userId txData) hash) ledger)))
    eqn:Hfound; [exact Hunique|].
  destruct (save ledger txData hash) as [e|saved] eqn:Hsave; [exact Hunique|].
  destruct (save_document _ _ _ _ Hsave) as (_ & Hu & _ & _ & _ & _ & _ & _ & Hh & Hd).
  cbn [ledgerAfter]. apply LiveUnique_snoc; [exact Hunique | exact Hd|].
  rewrite Hu, Hh. apply bool_decide_eq_false in Hfound.
  destruct (findOne _ ledger) eqn:Hf; [|reflexivity].
  exfalso. apply Hfound. eauto.
Qed.

Lemma outcomes_LiveUnique (transactions : list CreateTransactionData) :
  forall ledger : Ledger,
    LiveUnique ledger ->
    LiveUnique (ledger ++ createdOf (outcomes true transactions ledger)).
Proof.
  induction transactions as [|txData rest IH]; intros ledger Hunique; cbn [outcomes].
  - cbn [createdOf]. rewrite app_nil_r. exact Hunique.
  - rewrite createdOf_ledgerAfter. apply IH, rowOutcome_LiveUnique, Hunique.
Qed.

Lemma saveFirst_delete_liveKeys (filter : Transaction -> bool) (now : JSDate) (ledger : Ledger) :
  liveKeys (saveFirst filter (fun t => withDeletedAt t (Some now)) ledger)
    `sublist_of` liveKeys ledger.
Proof.
  induction ledger as [|t ledger IH]; cbn [saveFirst]; [constructor|].
  destruct (filter t).
  - rewrite !liveKeys_cons. cbn [withDeletedAt tx_deletedAt].
    rewrite bool_decide_eq_false_2 by discriminate.
    destruct (bool_decide (tx_deletedAt t = None)); [apply sublist_cons|]; reflexivity.
  - rewrite !liveKeys_cons.
    destruct (bool_decide (tx_deletedAt t = None)); [apply sublist_skip|]; exact IH.
Qed.

(** X12. The fingerprint stays unique among the transactions of an owner
    that are not deleted: on a ledger where it is, it still is after a
    single create, after a bulk create with [skipDuplicates], and after a
    soft delete, whatever their arguments and results. *)
Theorem live_fingerprints_stay_unique :
  forall ledger : Ledger,
    LiveUnique ledger ->
    (forall data, LiveUnique (createTransaction ledger data).1) /\
    (forall transactions, LiveUnique (createTransactions ledger transactions true).1) /\
    (forall transactionId userId now,
        LiveUnique (deleteTransaction ledger transactionId userId now).1).
Proof.
  intros ledger Hunique. split; [|split].
  - intros data. unfold createTransaction. fold (fingerprintOf data).
    destruct (fingerprintOf data) as [e|hash]; [exact Hunique|].
    destruct (findOne (byHashNotDeleted (ct_userId data) hash) ledger) eqn:Hfound;
      [exact Hunique|].
    destruct (save ledger data hash) as [e|saved] eqn:Hsave; [exact Hunique|].
    destruct (save_document _ _ _ _ Hsave) as (_ & Hu & _ & _ & _ & _ & _ & _ & Hh & Hd).
    cbn [fst]. apply LiveUnique_snoc; [exact Hunique | exact Hd|].
    rewrite Hu, Hh. exact Hfound.
  - intros transactions. rewrite createTransactions_outcomes. cbn [fst].
    apply outcomes_LiveUnique, Hunique.
  - intros transactionId userId now. unfold deleteTransaction.
    destruct (findOne _ ledger); [|exact Hunique].
    cbn [fst]. unfold LiveUnique.
    eapply sublist_NoDup; [exact Hunique | apply saveFirst_delete_liveKeys].
Qed.

(** On the ledger with the coffee and the lunch, a bulk create of the
    coffee, the rent and the rent again creates the rent once. *)
Lemma live_fingerprints_stay_unique_witness :
  LiveUnique [coffeeEntry None; lunchEntry] /\
  (createTransactions [coffeeEntry None; lunchEntry] [coffeeData; rentData; rentData] true).2
  = {| created := created
                    (createTransactions [coffeeEntry None; lunchEntry]
                       [coffeeData; rentData; rentData] true).2;
       skipped := 0; duplicates := 2 |} /\
  map tx_description
    (createTransactions [coffeeEntry None; lunchEntry] [coffeeData; rentData; rentData] true).1
  = ["Coffee Shop"; "Lunch"; "Rent"] /\
  LiveUnique
    (createTransactions [coffeeEntry None; lunchEntry] [coffeeData; rentData; rentData] true).1 /\
  map tx_description (createTransaction [coffeeEntry None; lunchEntry] rentData).1
  = ["Coffee Shop"; "Lunch"; "Rent"] /\
  LiveUnique (createTransaction [coffeeEntry None; lunchEntry] rentData).1 /\
  map tx_deletedAt (deleteTransaction [coffeeEntry None; lunchEntry] "tx_0" user1 march1).1
  = [Some march1; None] /\
  LiveUnique (deleteTransaction [coffeeEntry None; lunchEntry] "tx_0" user1 march1).1.
Proof.
  assert (Hunique : LiveUnique [coffeeEntry None; lunchEntry]).
  { unfold LiveUnique. apply (bool_decide_unpack _). vm_compute. exact I. }
  destruct (live_fingerprints_stay_unique [coffeeEntry None; lunchEntry] Hunique)
    as (Hsingle & Hbulk & Hdelete).
  split; [exact Hunique|]. split; [vm_compute; reflexivity|].
  split; [vm_compute; reflexivity|]. split; [apply Hbulk|].
  split; [vm_compute; reflexivity|]. split; [apply Hsingle|].
  split; [vm_compute; reflexivity | apply Hdelete].
Defined.

Lemma outcomes_without_skip (transactions : list CreateTransactionData) :
  forall ledger : Ledger, duplicatesOf (outcomes false transactions ledger) = 0%nat.
Proof.
  induction transactions as [|txData rest IH]; intros ledger; [reflexivity|].
  cbn [outcomes]. unfold rowOutcome at 1.
  destruct (fingerprintOf txData) as [e|hash]; [apply IH|].
  cbn [andb]. destruct (save ledger txData hash); apply IH.
Qed.

Lemma outcomes_created (skipDuplicates : bool) (transactions : list CreateTransactionData) :
  forall ledger : Ledger,
    Forall (fun saved => tx_deletedAt saved = None /\ tx_status saved = completed /\
                         exists txData, txData ∈ transactions /\
                                        tx_userId saved = ct_userId txData /\
                                        fingerprintOf txData = inr (tx_duplicateCheckHash saved))
      (createdOf (outcomes skipDuplicates transactions ledger)).
Proof.
  induction transactions as [|txData rest IH]; intros ledger; [constructor|].
  cbn [outcomes].
  assert (Hrest : Forall (fun saved => tx_deletedAt saved = None /\ tx_status saved = completed /\
                            exists d, d ∈ txData :: rest /\ tx_userId saved = ct_userId d /\
                                      fingerprintOf d = inr (tx_duplicateCheckHash saved))
                    (createdOf (outcomes skipDuplicates rest
                                  (ledgerAfter (rowOutcome skipDuplicates ledger txData) ledger)))).
  { eapply Forall_impl; [apply IH|].
    intros saved (Hd & Hs & d & Hin & Hu & Hh). repeat split; try assumption.
    exists d. split; [right; exact Hin | auto]. }
  unfold rowOutcome at 1.
  destruct (fingerprintOf txData) as [e|hash] eqn:Hhash; [exact Hrest|].
  destruct (skipDuplicates && bool_decide _); [exact Hrest|].
  destruct (save ledger txData hash) as [e|saved] eqn:Hsave; [exact Hrest|].
  cbn [createdOf]. constructor; [|exact Hrest].
  destruct (save_document _ _ _ _ Hsave) as (_ & Hu & _ & _ & _ & _ & _ & Hs & Hh & Hd).
  repeat split; try assumption.
  exists txData. split; [left|]. split; [exact Hu | rewrite Hh; exact Hhash].
Qed.

(** X13. The bulk create accounts for every row: the documents it
    created, the rows it skipped and the duplicates it counted add up to the
    number of rows; the ledger it leaves is the old ledger followed by the
    created documents, so no existing document is touched and nothing is
    rolled back; every created document is not deleted and has status
    completed; and without [skipDuplicates] no row is counted as a
    duplicate. *)
Theorem createTransactions_accounting :
  forall (ledger : Ledger) (transactions : list CreateTransactionData) (skipDuplicates : bool),
    (createTransactions ledger transactions skipDuplicates).1
    = ledger ++ created (createTransactions ledger transactions skipDuplicates).2 /\
    (List.length (created (createTransactions ledger transactions skipDuplicates).2)
     + skipped (createTransactions ledger transactions skipDuplicates).2
     + duplicates (createTransactions ledger transactions skipDuplicates).2
     = List.length transactions)%nat /\
    Forall (fun saved => tx_deletedAt saved = None /\ tx_status saved = completed)
      (created (createTransactions ledger transactions skipDuplicates).2) /\
    (skipDuplicates = false ->
     duplicates (createTransactions ledger transactions skipDuplicates).2 = 0%nat).
Proof.
  intros ledger transactions skipDuplicates.
  rewrite createTransactions_outcomes. cbn [fst snd created skipped duplicates].
  split; [reflexivity|]. split.
  - pose proof (outcomes_length skipDuplicates transactions ledger). lia.
  - split.
    + eapply Forall_impl; [apply outcomes_created|]. intros saved (Hd & Hs & _). auto.
    + intros ->. apply outcomes_without_skip.
Qed.

(** ** Soft delete and restore *)

Lemma findOne_Some {A} (filter : A -> bool) (collection : list A) (x : A) :
  findOne filter collection = Some x -> In x collection /\ filter x = true.
Proof. unfold findOne. apply find_some. Qed.

Lemma byId_true (transactionId userId : string) (t : Transaction) :
  byId transactionId userId t = true <-> tx_id t = transactionId /\ tx_userId t = userId.
Proof. unfold byId. rewrite andb_true_iff, !String.eqb_eq. tauto. Qed.

Lemma byIdNotDeleted_true (transactionId userId : string) (t : Transaction) :
  byIdNotDeleted transactionId userId t = true <->
  tx_id t = transactionId /\ tx_userId t = userId /\ tx_deletedAt t = None.
Proof.
  unfold byIdNotDeleted. rewrite andb_true_iff, byId_true, bool_decide_eq_true. tauto.
Qed.

Lemma byIdDeleted_true (transactionId userId : string) (t : Transaction) :
  byIdDeleted transactionId userId t = true <->
  tx_id t = transactionId /\ tx_userId t = userId /\ is_Some (tx_deletedAt t).
Proof.
  unfold byIdDeleted. rewrite andb_true_iff, byId_true, bool_decide_eq_true. tauto.
Qed.

Lemma findOne_id_absent (filter : Transaction -> bool) (transactionId : string)
    (x : Transaction) (rest : Ledger) :
  NoDup (map tx_id (x :: rest)) ->
  tx_id x = transactionId ->
  (forall t, filter t = true -> tx_id t = transactionId) ->
  findOne filter rest = None.
Proof.
  intros Hids Hx Hfilter. destruct (findOne filter rest) as [t|] eqn:Hfound; [|reflexivity].
  exfalso. apply findOne_Some in Hfound as [Hin Ht].
  cbn [map] in Hids. apply NoDup_cons in Hids as [Hnotin _]. apply Hnotin.
  rewrite Hx, <- (Hfilter t Ht). apply list_elem_of_In, in_map, Hin.
Qed.

Lemma withDeletedAt_undo (t : Transaction) (now : JSDate) :
  tx_deletedAt t = None -> withDeletedAt (withDeletedAt t (Some now)) None = t.
Proof. destruct t. cbn. intros ->. reflexivity. Qed.

Lemma saveFirst_ids (filter : Transaction -> bool) (update : Transaction -> Transaction)
    (ledger : Ledger) :
  (forall t, tx_id (update t) = tx_id t) ->
  map tx_id (saveFirst filter update ledger) = map tx_id ledger.
Proof.
  intros Hid. induction ledger as [|x rest IH]; [reflexivity|].
  cbn [saveFirst]. destruct (filter x); cbn [map]; [rewrite Hid | rewrite IH]; reflexivity.
Qed.

Lemma delete_then (transactionId userId : string) (now : JSDate) (ledger : Ledger) :
  NoDup (map tx_id ledger) ->
  is_Some (findOne (byIdNotDeleted transactionId userId) ledger) ->
  findOne (byIdNotDeleted transactionId userId)
    (saveFirst (byIdNotDeleted transactionId userId) (fun t => withDeletedAt t (Some now)) ledger)
  = None /\
  is_Some (findOne (byIdDeleted transactionId userId)
             (saveFirst (byIdNotDeleted transactionId userId)
                (fun t => withDeletedAt t (Some now)) ledger)) /\
  saveFirst (byIdDeleted transactionId userId) (fun t => withDeletedAt t None)
    (saveFirst (byIdNotDeleted transactionId userId) (fun t => withDeletedAt t (Some now)) ledger)
  = ledger.
Proof.
  induction ledger as [|x rest IH]; intros Hids Hfound.
  - destruct Hfound as [t Ht]. discriminate.
  - cbn [saveFirst]. destruct (byIdNotDeleted transactionId userId x) eqn:Hx.
    + apply byIdNotDeleted_true in Hx as (Hid & Hu & Hlive).
      assert (Hdel : byIdDeleted transactionId userId (withDeletedAt x (Some now)) = true).
      { apply byIdDeleted_true. cbn. eauto. }
      assert (Hnot : byIdNotDeleted transactionId userId (withDeletedAt x (Some now)) = false).
      { unfold byIdNotDeleted. cbn [withDeletedAt tx_deletedAt].
        rewrite bool_decide_eq_false_2 by discriminate. apply andb_false_r. }
      unfold findOne. cbn [List.find saveFirst]. rewrite Hnot, Hdel. split; [|split].
      * apply (findOne_id_absent _ transactionId x rest Hids Hid).
        intros t Ht. apply byIdNotDeleted_true in Ht. tauto.
      * eauto.
      * rewrite withDeletedAt_undo by exact Hlive. reflexivity.
    + unfold findOne in Hfound. cbn [List.find] in Hfound. rewrite Hx in Hfound.
      assert (Hids' : NoDup (map tx_id rest)).
      { cbn [map] in Hids. apply NoDup_cons in Hids. tauto. }
      destruct (IH Hids' Hfound) as (Hnone & Hsome & Hback).
      assert (Hxd : byIdDeleted transactionId userId x = false).
      { destruct (byIdDeleted transactionId userId x) eqn:Hxd; [|reflexivity].
        apply byIdDeleted_true in Hxd as (Hid & _).
        assert (Habs : findOne (byIdNotDeleted transactionId userId) rest = None).
        { apply (findOne_id_absent _ transactionId x rest Hids Hid).
          intros t Ht. apply byIdNotDeleted_true in Ht. tauto. }
        unfold findOne in Habs. rewrite Habs in Hfound. destruct Hfound as [t Ht]. discriminate. }
      unfold findOne. cbn [List.find saveFirst]. rewrite Hx, Hxd.
      split; [exact Hnone|]. split; [exact Hsome|]. rewrite Hback. reflexivity.
Qed.

(** X14. On a ledger whose ids are distinct, a soft delete that reports
    success is undone exactly by [restoreTransaction] with the same id and
    user: the ledger is again the one before the delete.  Until then a
    second delete of the same transaction reports that nothing was found
    and changes nothing.  The delete keeps every document and its id. *)
Theorem soft_delete_round_trip :
  forall (ledger ledger' : Ledger) (transactionId userId : string) (now later : JSDate),
    NoDup (map tx_id ledger) ->
    deleteTransaction ledger transactionId userId now = (ledger', true) ->
    restoreTransaction ledger' transactionId userId = (ledger, true) /\
    deleteTransaction ledger' transactionId userId later = (ledger', false) /\
    map tx_id ledger' = map tx_id ledger.
Proof.
  intros ledger ledger' transactionId userId now later Hids Hdelete.
  unfold deleteTransaction in Hdelete.
  destruct (findOne (byIdNotDeleted transactionId userId) ledger) as [t|] eqn:Hfound;
    [|discriminate].
  injection Hdelete as <-.
  destruct (delete_then transactionId userId now ledger Hids) as (Hnone & [d Hd] & Hback);
    [rewrite Hfound; eauto|].
  split; [|split].
  - unfold restoreTransaction. rewrite Hd, Hback. reflexivity.
  - unfold deleteTransaction. rewrite Hnone. reflexivity.
  - apply saveFirst_ids. reflexivity.
Qed.

Lemma soft_delete_round_trip_witness :
  restoreTransaction [coffeeEntry (Some march1)] "tx_0" user1 = ([coffeeEntry None], true) /\
  deleteTransaction [coffeeEntry (Some march1)] "tx_0" user1 march1
  = ([coffeeEntry (Some march1)], false) /\
  map tx_id [coffeeEntry (Some march1)] = map tx_id [coffeeEntry None].
Proof.
  apply (soft_delete_round_trip [coffeeEntry None] [coffeeEntry (Some march1)] "tx_0" user1
           march1 march1).
  - cbn. apply NoDup_singleton.
  - vm_compute. reflexivity.
Defined.

(** ** Create, delete, create again, restore *)

Lemma findOne_app_miss {A} (filter : A -> bool) (pre rest : list A) :
  (forall x, In x pre -> filter x = false) ->
  findOne filter (pre ++ rest) = findOne filter rest.
Proof.
  unfold findOne. induction pre as [|x pre IH]; intros Hmiss; [reflexivity|].
  cbn [app List.find]. rewrite (Hmiss x) by (left; reflexivity).
  apply IH. intros y Hy. apply Hmiss. right. exact Hy.
Qed.

Lemma saveFirst_app_miss {A} (filter : A -> bool) (update : A -> A) (pre rest : list A) :
  (forall x, In x pre -> filter x = false) ->
  saveFirst filter update (pre ++ rest) = pre ++ saveFirst filter update rest.
Proof.
  induction pre as [|x pre IH]; intros Hmiss; [reflexivity|].
  cbn [app saveFirst]. rewrite (Hmiss x) by (left; reflexivity).
  rewrite IH; [reflexivity|]. intros y Hy. apply Hmiss. right. exact Hy.
Qed.

Lemma ids_before (pre rest : Ledger) (x : Transaction) :
  NoDup (map tx_id (pre ++ x :: rest)) ->
  forall t, In t pre -> tx_id t <> tx_id x.
Proof.
  rewrite List.map_app. cbn [map]. intros Hids t Hin Heq.
  apply NoDup_app in Hids as (_ & Hdisjoint & _).
  apply (Hdisjoint (tx_id t)); [apply list_elem_of_In, in_map, Hin|].
  rewrite Heq. left.
Qed.

Lemma byId_miss (pre rest : Ledger) (x : Transaction) (userId : string) :
  NoDup (map tx_id (pre ++ x :: rest)) ->
  forall t, In t pre -> byId (tx_id x) userId t = false.
Proof.
  intros Hids t Hin. unfold byId.
  destruct (String.eqb_spec (tx_id t) (tx_id x)) as [Heq|_]; [|reflexivity].
  exfalso. exact (ids_before pre rest x Hids t Hin Heq).
Qed.

Lemma create_delete_create (ledger ledger1 : Ledger) (data : CreateTransactionData)
    (saved : Transaction) (now : JSDate) :
  createTransaction ledger data = (ledger1, inr saved) ->
  NoDup (map tx_id ledger1) ->
  tx_userId saved = ct_userId data /\
  tx_deletedAt saved = None /\
  ledger1 = ledger ++ [saved] /\
  (forall t, In t ledger -> byId (tx_id saved) (ct_userId data) t = false) /\
  deleteTransaction ledger1 (tx_id saved) (ct_userId data) now
  = (ledger ++ [withDeletedAt saved (Some now)], true) /\
  exists again,
    createTransaction (ledger ++ [withDeletedAt saved (Some now)]) data
    = ((ledger ++ [withDeletedAt saved (Some now)]) ++ [again], inr again) /\
    tx_userId again = tx_userId saved /\
    tx_duplicateCheckHash again = tx_duplicateCheckHash saved /\
    tx_deletedAt again = None.
Proof.
  unfold createTransaction. fold (fingerprintOf data).
  destruct (fingerprintOf data) as [e|hash] eqn:Hhash; [discriminate|].
  destruct (findOne (byHashNotDeleted (ct_userId data) hash) ledger) eqn:Hfound; [discriminate|].
  destruct (save ledger data hash) as [e|doc] eqn:Hsave; [discriminate|].
  intros [= <- <-] Hids.
  destruct (save_document _ _ _ _ Hsave) as (Hvalid & Hu & _ & _ & _ & _ & _ & _ & Hh & Hd).
  assert (Hmiss : forall t, In t ledger -> byId (tx_id doc) (ct_userId data) t = false)
    by exact (byId_miss ledger [] doc (ct_userId data) Hids).
  assert (Hmiss' : forall t, In t ledger ->
                     byIdNotDeleted (tx_id doc) (ct_userId data) t = false).
  { intros t Hin. unfold byIdNotDeleted. rewrite (Hmiss t Hin). reflexivity. }
  assert (Hdoc : byIdNotDeleted (tx_id doc) (ct_userId data) doc = true).
  { apply byIdNotDeleted_true. auto. }
  split; [exact Hu|]. split; [exact Hd|]. split; [reflexivity|]. split; [exact Hmiss|]. split.
  - unfold deleteTransaction.
    rewrite findOne_app_miss, saveFirst_app_miss by exact Hmiss'.
    unfold findOne. cbn [List.find saveFirst]. rewrite Hdoc. reflexivity.
  - assert (Hgone : findOne (byHashNotDeleted (ct_userId data) hash)
                      (ledger ++ [withDeletedAt doc (Some now)]) = None).
    { destruct (findOne _ (ledger ++ _)) as [t|] eqn:Ht; [|reflexivity].
      exfalso. apply findOne_Some in Ht as [Hin Ht].
      apply byHashNotDeleted_true in Ht as (Htu & Hth & Htd).
      apply in_app_or in Hin as [Hin | [<- | []]]; [|discriminate Htd].
      assert (Hlive : is_Some (findOne (byHashNotDeleted (ct_userId data) hash) ledger)).
      { apply findOne_live_liveKeys. unfold liveKeys.
        apply list_elem_of_In, in_map_iff. exists t. split; [congruence|].
        apply filter_In. split; [exact Hin | apply bool_decide_eq_true_2, Htd]. }
      rewrite Hfound in Hlive. destruct Hlive as [x Hx]. discriminate. }
    rewrite Hgone. unfold save. rewrite Hvalid. eexists. split; [reflexivity|].
    cbn. rewrite Hu, Hh. auto.
Qed.

(** X15. A transaction that was created and then soft-deleted no longer
    blocks its own re-creation: after [createTransaction] succeeded, the
    delete of the created document succeeds, and the same create on the
    ledger it leaves succeeds again and appends a second document (the ids
    of the ledger being distinct). *)
Theorem recreate_after_soft_delete :
  forall (ledger ledger1 : Ledger) (data : CreateTransactionData) (saved : Transaction)
         (now : JSDate),
    createTransaction ledger data = (ledger1, inr saved) ->
    NoDup (map tx_id ledger1) ->
    exists ledger2 again,
      deleteTransaction ledger1 (tx_id saved) (ct_userId data) now = (ledger2, true) /\
      createTransaction ledger2 data = (ledger2 ++ [again], inr again) /\
      tx_deletedAt again = None.
Proof.
  intros ledger ledger1 data saved now Hcreate Hids.
  destruct (create_delete_create _ _ _ _ now Hcreate Hids)
    as (_ & _ & _ & _ & Hdelete & again & Hagain & _ & _ & Hlive).
  eauto 6.
Qed.

Lemma recreate_after_soft_delete_witness :
  exists ledger2 again,
    deleteTransaction [coffeeEntry None] (tx_id (coffeeEntry None)) (ct_userId coffeeData) march1
    = (ledger2, true) /\
    createTransaction ledger2 coffeeData = (ledger2 ++ [again], inr again) /\
    tx_deletedAt again = None.
Proof.
  apply (recreate_after_soft_delete [] [coffeeEntry None] coffeeData (coffeeEntry None) march1).
  - vm_compute. reflexivity.
  - cbn. apply NoDup_singleton.
Defined.

(** X16. [restoreTransaction] checks no fingerprint: when a created
    transaction was soft-deleted and created again, restoring the deleted
    one succeeds and leaves the owner with two transactions that are not
    deleted and carry the same fingerprint, so the uniqueness that the
    creates maintain is lost. *)
Theorem restore_reintroduces_duplicate :
  forall (ledger ledger1 ledger2 ledger3 : Ledger) (data : CreateTransactionData)
         (saved again : Transaction) (now : JSDate),
    createTransaction ledger data = (ledger1, inr saved) ->
    NoDup (map tx_id ledger1) ->
    deleteTransaction ledger1 (tx_id saved) (ct_userId data) now = (ledger2, true) ->
    createTransaction ledger2 data = (ledger3, inr again) ->
    restoreTransaction ledger3 (tx_id saved) (ct_userId data) = (ledger ++ [saved; again], true) /\
    tx_userId again = tx_userId saved /\
    tx_duplicateCheckHash again = tx_duplicateCheckHash saved /\
    tx_deletedAt saved = None /\ tx_deletedAt again = None /\
    ~ LiveUnique (ledger ++ [saved; again]).
Proof.
  intros ledger ledger1 ledger2 ledger3 data saved again now Hcreate Hids Hdelete Hagain.
  destruct (create_delete_create _ _ _ _ now Hcreate Hids)
    as (Hu & Hd & _ & Hmiss & Hdelete' & again' & Hagain' & Hu' & Hh' & Hd').
  rewrite Hdelete' in Hdelete. injection Hdelete as <-.
  rewrite Hagain' in Hagain. injection Hagain as <- <-.
  assert (Hmiss' : forall t, In t ledger -> byIdDeleted (tx_id saved) (ct_userId data) t = false).
  { intros t Hin. unfold byIdDeleted. rewrite (Hmiss t Hin). reflexivity. }
  assert (Hdoc : byIdDeleted (tx_id saved) (ct_userId data) (withDeletedAt saved (Some now))
                 = true).
  { apply byIdDeleted_true. cbn. eauto. }
  split; [|split; [exact Hu'|split; [exact Hh'|split; [exact Hd|split; [exact Hd'|]]]]].
  - unfold restoreTransaction. rewrite <- app_assoc.
    rewrite findOne_app_miss, saveFirst_app_miss by exact Hmiss'.
    unfold findOne. cbn [app List.find saveFirst]. rewrite Hdoc.
    rewrite withDeletedAt_undo by exact Hd. reflexivity.
  - unfold LiveUnique. rewrite liveKeys_app, !liveKeys_cons.
    rewrite !bool_decide_eq_true_2 by assumption. rewrite Hu', Hh'.
    intros Hunique. apply NoDup_app in Hunique as (_ & _ & Htwo).
    apply NoDup_cons in Htwo as [Hnotin _]. apply Hnotin. left.
Qed.

Lemma restore_reintroduces_duplicate_witness :
  exists again,
    restoreTransaction [coffeeEntry (Some march1); again] "tx_0" user1
    = ([coffeeEntry None; again], true) /\
    ~ LiveUnique [coffeeEntry None; again].
Proof.
  eexists.
  epose proof (restore_reintroduces_duplicate [] [coffeeEntry None] [coffeeEntry (Some march1)] _
                 coffeeData (coffeeEntry None) _ march1) as H.
  destruct H as (Hrestore & _ & _ & _ & _ & Hdup).
  - vm_compute. reflexivity.
  - cbn. apply NoDup_singleton.
  - vm_compute. reflexivity.
  - vm_compute. reflexivity.
  - split; [exact Hrestore | exact Hdup].
Defined.

(** ** Update *)

Lemma generateDuplicateHash_trim (date : JSDate) (amount : JSNum) (description accountId : string) :
  generateDuplicateHash date amount (trim description) accountId
  = generateDuplicateHash date amount description accountId.
Proof. unfold generateDuplicateHash. rewrite trim_idempotent. reflexivity. Qed.

Lemma saveFirst_split {A} (filter : A -> bool) (update : A -> A) (collection : list A) (x : A) :
  findOne filter collection = Some x ->
  exists pre post,
    collection = pre ++ x :: post /\
    (forall y, In y pre -> filter y = false) /\
    filter x = true /\
    saveFirst filter update collection = pre ++ update x :: post.
Proof.
  unfold findOne. induction collection as [|y rest IH]; [discriminate|].
  cbn [List.find saveFirst]. destruct (filter y) eqn:Hy.
  - intros [= ->]. exists [], rest. repeat split; [intros z []| exact Hy].
  - intros Hfound. destruct (IH Hfound) as (pre & post & -> & Hmiss & Hx & ->).
    exists (y :: pre), post. repeat split; [|exact Hx].
    intros z [<- | Hz]; [exact Hy | exact (Hmiss z Hz)].
Qed.

(** X17. An update that succeeds after changing the date, a non-zero
    amount or a non-empty description stores a fingerprint that is the one
    of the document as stored after the update (its new date, amount and
    trimmed description, its unchanged account), and at that moment no other
    transaction of the user that is not deleted carries it. *)
Theorem update_refreshes_fingerprint :
  forall (ledger ledger' : Ledger) (transactionId userId : string)
         (data : UpdateTransactionData) (updated : Transaction),
    updateTransaction ledger transactionId userId data = (ledger', inr (Some updated)) ->
    touchesFingerprint data = true ->
    Consistent updated /\
    findOne (byHashOther userId (tx_duplicateCheckHash updated) transactionId) ledger = None.
Proof.
  intros ledger ledger' transactionId userId data updated Hupdate Htouch.
  unfold updateTransaction in Hupdate. rewrite Htouch in Hupdate.
  destruct (findOne (byIdNotDeleted transactionId userId) ledger) as [t|]; [|discriminate].
  cbv zeta in Hupdate.
  destruct (generateDuplicateHash _ _ _ _) as [e|newHash] eqn:Hhash; [discriminate|].
  destruct (findOne (byHashOther userId newHash transactionId) ledger) eqn:Hother;
    [discriminate|].
  destruct (validUpdate data) eqn:Hvalid; [|discriminate].
  injection Hupdate as <- <-.
  split; [|exact Hother].
  unfold Consistent. cbn [assignUpdate tx_date tx_amount tx_description tx_accountId
                            tx_duplicateCheckHash].
  rewrite <- Hhash. unfold validUpdate in Hvalid.
  destruct (ud_description data) as [d|]; [|reflexivity].
  cbn [option_map default]. destruct d as [|c d].
  - cbn in Hvalid. rewrite andb_false_r in Hvalid. discriminate.
  - cbn [truthy]. apply generateDuplicateHash_trim.
Qed.

(** The coffee renamed: the stored fingerprint is the one of the new
    description, no longer the one of the coffee. *)
Lemma update_refreshes_fingerprint_witness :
  exists updated : Transaction,
    (updateTransaction [coffeeEntry None; lunchEntry] "tx_0" user1 (rename " Tea House ")).2
    = inr (Some updated) /\
    tx_description updated = "Tea House" /\
    tx_duplicateCheckHash updated
    = SHA256 "2024-03-01|450|tea house|acc000000000000000000001" /\
    tx_duplicateCheckHash updated <> tx_duplicateCheckHash (coffeeEntry None) /\
    Consistent updated /\
    findOne (byHashOther user1 (tx_duplicateCheckHash updated) "tx_0")
      [coffeeEntry None; lunchEntry] = None.
Proof.
  assert (Hupdated : exists updated,
             (updateTransaction [coffeeEntry None; lunchEntry] "tx_0" user1
                (rename " Tea House ")).2 = inr (Some updated) /\
             tx_description updated = "Tea House" /\
             tx_duplicateCheckHash updated
             = SHA256 "2024-03-01|450|tea house|acc000000000000000000001")
    by (eexists; conjuncts; vm_compute; reflexivity).
  destruct Hupdated as (updated & Hanswer & Hdescription & Hhash).
  exists updated. split; [exact Hanswer|]. split; [exact Hdescription|].
  split; [exact Hhash|]. split; [rewrite Hhash; discriminate|].
  apply (update_refreshes_fingerprint [coffeeEntry None; lunchEntry]
           (updateTransaction [coffeeEntry None; lunchEntry] "tx_0" user1
              (rename " Tea House ")).1
           "tx_0" user1 (rename " Tea House ")).
  - apply pair_answer. exact Hanswer.
  - reflexivity.
Defined.

(** X18. An update whose only change to date, amount and description is
    an amount of 0 succeeds, stores the amount 0, and keeps the fingerprint
    that was computed from the old amount: the condition that triggers the
    new fingerprint treats 0 as absent. *)
Theorem update_amount_zero_keeps_fingerprint :
  forall (ledger : Ledger) (transactionId userId : string) (data : UpdateTransactionData)
         (a : JSNum) (t : Transaction),
    findOne (byIdNotDeleted transactionId userId) ledger = Some t ->
    ud_amount data = Some a -> isZero a = true ->
    ud_date data = None -> ud_description data = None ->
    exists ledger' updated,
      updateTransaction ledger transactionId userId data = (ledger', inr (Some updated)) /\
      tx_amount updated = a /\
      tx_description updated = tx_description t /\
      tx_date updated = tx_date t /\
      tx_duplicateCheckHash updated = tx_duplicateCheckHash t.
Proof.
  intros ledger transactionId userId data a t Hfound Hamount Hzero Hdate Hdescription.
  unfold updateTransaction, touchesFingerprint, validUpdate, truthyNum.
  rewrite Hfound, Hamount, Hdate, Hdescription, Hzero.
  assert (Hge : ge0 a = true).
  { destruct a as [|negative|q]; try discriminate. cbn in Hzero |- *.
    apply Qeq_bool_iff in Hzero. unfold Qeq in Hzero. cbn in Hzero. lia. }
  rewrite Hge. rewrite bool_decide_eq_false_2 by (intros [x Hx]; discriminate).
  rewrite andb_false_r. cbn [orb andb].
  eexists _, _. split; [reflexivity|].
  cbn. rewrite Hamount, Hdate, Hdescription. cbn. auto.
Qed.

Lemma update_amount_zero_keeps_fingerprint_witness :
  exists ledger' updated,
    updateTransaction [coffeeEntry None] "tx_0" user1
      {| ud_amount := Some (Num 0); ud_description := None; ud_date := None;
         ud_status := None; ud_referenceNumber := None |}
    = (ledger', inr (Some updated)) /\
    tx_amount updated = Num 0 /\
    tx_description updated = tx_description (coffeeEntry None) /\
    tx_date updated = tx_date (coffeeEntry None) /\
    tx_duplicateCheckHash updated = tx_duplicateCheckHash (coffeeEntry None).
Proof.
  apply (update_amount_zero_keeps_fingerprint [coffeeEntry None] "tx_0" user1
           {| ud_amount := Some (Num 0); ud_description := None; ud_date := None;
              ud_status := None; ud_referenceNumber := None |} (Num 0) (coffeeEntry None));
    reflexivity.
Defined.

Lemma liveKeys_elem (key : string * Digest) (ledger : Ledger) :
  key ∈ liveKeys ledger ->
  exists t, In t ledger /\ tx_deletedAt t = None /\ key = (tx_userId t, tx_duplicateCheckHash t).
Proof.
  unfold liveKeys. intros Hin. apply list_elem_of_In, in_map_iff in Hin as (t & <- & Ht).
  apply filter_In in Ht as [Hin Hlive]. apply bool_decide_eq_true in Hlive. eauto.
Qed.

Lemma ids_around (pre post : Ledger) (x : Transaction) :
  NoDup (map tx_id (pre ++ x :: post)) ->
  forall t, In t (pre ++ post) -> tx_id t <> tx_id x.
Proof.
  intros Hids t Hin.
  assert (Hperm : map tx_id (pre ++ x :: post) ≡ₚ tx_id x :: map tx_id (pre ++ post)).
  { rewrite !List.map_app. cbn [map]. symmetry. apply Permutation_middle. }
  rewrite Hperm in Hids. apply NoDup_cons in Hids as [Hnotin _].
  intros Heq. apply Hnotin. rewrite <- Heq. apply list_elem_of_In, in_map, Hin.
Qed.

(** X19. On a ledger whose ids are distinct, an update keeps the
    fingerprint unique among the transactions of an owner that are not
    deleted, whatever its data and whether it succeeds or not; it keeps
    every document's id and position. *)
Theorem update_keeps_fingerprints_unique :
  forall (ledger : Ledger) (transactionId userId : string) (data : UpdateTransactionData),
    LiveUnique ledger ->
    NoDup (map tx_id ledger) ->
    LiveUnique (updateTransaction ledger transactionId userId data).1 /\
    map tx_id (updateTransaction ledger transactionId userId data).1 = map tx_id ledger.
Proof.
  intros ledger transactionId userId data Hunique Hids.
  unfold updateTransaction.
  destruct (findOne (byIdNotDeleted transactionId userId) ledger) as [t|] eqn:Hfound;
    [|split; [exact Hunique | reflexivity]].
  match goal with
  | |- context [match ?c with inl e => _ | inr hash => _ end] =>
      destruct c as [e|hash] eqn:Hhash
  end; [split; [exact Hunique | reflexivity]|].
  destruct (validUpdate data); [|split; [exact Hunique | reflexivity]].
  cbn [fst]. split; [|apply saveFirst_ids; reflexivity].
  destruct (saveFirst_split _ (assignUpdate data hash) _ _ Hfound)
    as (pre & post & -> & Hmiss & Ht & ->).
  apply byIdNotDeleted_true in Ht as (Hid & Hu & Hlive).
  unfold LiveUnique in *. rewrite liveKeys_app, liveKeys_cons in Hunique |- *.
  cbn [assignUpdate tx_deletedAt tx_userId tx_duplicateCheckHash].
  rewrite bool_decide_eq_true_2 in Hunique |- * by exact Hlive.
  destruct (touchesFingerprint data).
  - cbv zeta in Hhash.
    destruct (generateDuplicateHash _ _ _ _) as [e|newHash]; [discriminate|].
    destruct (findOne (byHashOther userId newHash transactionId) (pre ++ t :: post))
      eqn:Hother; [discriminate|].
    injection Hhash as <-.
    rewrite <- Permutation_middle in Hunique |- *.
    apply NoDup_cons in Hunique as [_ Hrest]. apply NoDup_cons. split; [|exact Hrest].
    rewrite <- liveKeys_app. intros Hin.
    apply liveKeys_elem in Hin as (x & Hx & Hxlive & [= Hxu Hxh]).
    assert (Hxid : tx_id x <> tx_id t) by exact (ids_around pre post t Hids x Hx).
    assert (Hxin : In x (pre ++ t :: post)).
    { apply in_app_or in Hx as [Hx | Hx]; apply in_or_app; [left | right; right]; exact Hx. }
    pose proof (find_none _ _ Hother x Hxin) as Hno.
    unfold byHashOther in Hno.
    assert (Hyes : byHashNotDeleted userId newHash x = true).
    { apply byHashNotDeleted_true. repeat split; congruence. }
    rewrite Hyes in Hno. cbn [andb] in Hno. apply negb_false_iff, String.eqb_eq in Hno.
    congruence.
  - injection Hhash as <-. exact Hunique.
Qed.

(** The lunch turned into the coffee is refused, the lunch renamed is
    stored with a new fingerprint; both leave the fingerprints unique. *)
Lemma update_keeps_fingerprints_unique_witness :
  LiveUnique [coffeeEntry None; lunchEntry] /\
  (updateTransaction [coffeeEntry None; lunchEntry] "tx_1" user1 intoCoffee).2
  = inl "Update would create a duplicate transaction" /\
  LiveUnique (updateTransaction [coffeeEntry None; lunchEntry] "tx_1" user1 intoCoffee).1 /\
  map tx_duplicateCheckHash
    (updateTransaction [coffeeEntry None; lunchEntry] "tx_1" user1 (rename "Dinner")).1
  = [coffeeHash; SHA256 "2024-03-01|120|dinner|acc000000000000000000001"] /\
  LiveUnique (updateTransaction [coffeeEntry None; lunchEntry] "tx_1" user1 (rename "Dinner")).1 /\
  map tx_id (updateTransaction [coffeeEntry None; lunchEntry] "tx_1" user1 (rename "Dinner")).1
  = ["tx_0"; "tx_1"].
Proof.
  assert (Hunique : LiveUnique [coffeeEntry None; lunchEntry]).
  { unfold LiveUnique. apply (bool_decide_unpack _). vm_compute. exact I. }
  assert (Hids : NoDup (map tx_id [coffeeEntry None; lunchEntry])).
  { apply (bool_decide_unpack _). vm_compute. exact I. }
  split; [exact Hunique|]. split; [vm_compute; reflexivity|].
  split;
    [exact (proj1 (update_keeps_fingerprints_unique [coffeeEntry None; lunchEntry] "tx_1"
                     user1 intoCoffee Hunique Hids))|].
  split; [vm_compute; reflexivity|].
  destruct (update_keeps_fingerprints_unique [coffeeEntry None; lunchEntry] "tx_1" user1
              (rename "Dinner") Hunique Hids) as [Hafter Hkept].
  split; [exact Hafter | exact Hkept].
Defined.

Lemma saveFirst_lookup {A} (filter : A -> bool) (update : A -> A) (collection : list A)
    (i : nat) (x : A) :
  collection !! i = Some x -> filter x = false ->
  saveFirst filter update collection !! i = Some x.
Proof.
  revert i. induction collection as [|y rest IH]; intros i Hi Hx; [discriminate|].
  cbn [saveFirst]. destruct (filter y) eqn:Hy.
  - destruct i as [|i]; [|exact Hi]. cbn in Hi. injection Hi as ->. congruence.
  - destruct i as [|i]; [exact Hi|]. cbn. apply IH; [exact Hi | exact Hx].
Qed.

(** X20. Update, soft delete and restore act only on a document of the
    user who calls them: a document of another user stays in its place,
    unchanged, whatever id and data the call carries. *)
Theorem other_users_documents_untouched :
  forall (ledger : Ledger) (i : nat) (t : Transaction) (userId : string),
    ledger !! i = Some t ->
    tx_userId t <> userId ->
    (forall transactionId data,
        (updateTransaction ledger transactionId userId data).1 !! i = Some t) /\
    (forall transactionId now,
        (deleteTransaction ledger transactionId userId now).1 !! i = Some t) /\
    (forall transactionId, (restoreTransaction ledger transactionId userId).1 !! i = Some t).
Proof.
  intros ledger i t userId Hi Hother.
  assert (Hid : forall transactionId, byId transactionId userId t = false).
  { intros transactionId. unfold byId.
    destruct (String.eqb_spec (tx_userId t) userId) as [Heq|_]; [contradiction|].
    apply andb_false_r. }
  split; [|split].
  - intros transactionId data. unfold updateTransaction.
    destruct (findOne _ ledger); [|exact Hi].
    match goal with
    | |- context [match ?c with inl e => _ | inr hash => _ end] => destruct c as [e|hash]
    end; [exact Hi|].
    destruct (validUpdate data); [|exact Hi].
    cbn [fst]. apply saveFirst_lookup; [exact Hi|].
    unfold byIdNotDeleted. rewrite Hid. reflexivity.
  - intros transactionId now. unfold deleteTransaction.
    destruct (findOne _ ledger); [|exact Hi].
    cbn [fst]. apply saveFirst_lookup; [exact Hi|].
    unfold byIdNotDeleted. rewrite Hid. reflexivity.
  - intros transactionId. unfold restoreTransaction.
    destruct (findOne _ ledger); [|exact Hi].
    cbn [fst]. apply saveFirst_lookup; [exact Hi|].
    unfold byIdDeleted. rewrite Hid. reflexivity.
Qed.

Lemma other_users_documents_untouched_witness :
  (deleteTransaction [coffeeEntry None] "tx_0" user2 march1).1 !! 0%nat
  = Some (coffeeEntry None).
Proof.
  apply (other_users_documents_untouched [coffeeEntry None] 0 (coffeeEntry None) user2).
  - reflexivity.
  - discriminate.
Defined.

(** ** Uploads and their review *)

Lemma rev_app_app (a b t : string) :
  String.rev_app (String.append a b) t = String.rev_app b (String.rev_app a t).
Proof.
  revert t. induction a as [|c a IH]; intros t; [reflexivity|].
  rewrite append_cons. cbn [String.rev_app]. apply IH.
Qed.

Lemma rev_app_append (s t : string) :
  String.rev_app s t = String.append (String.rev s) t.
Proof.
  unfold String.rev. revert t. induction s as [|c s IH]; intros t; [reflexivity|].
  cbn [String.rev_app]. rewrite (IH (String c t)), (IH (String c EmptyString)).
  rewrite <- append_assoc, append_cons, append_nil_l. reflexivity.
Qed.

Lemma rev_append (a b : string) :
  String.rev (String.append a b) = String.append (String.rev b) (String.rev a).
Proof.
  unfold String.rev at 1. rewrite rev_app_app, rev_app_append. reflexivity.
Qed.

Lemma rev_involutive (s : string) : String.rev (String.rev s) = s.
Proof.
  induction s as [|c s IH]; [reflexivity|].
  unfold String.rev at 2. cbn [String.rev_app]. rewrite rev_app_append, rev_append, IH.
  reflexivity.
Qed.

Lemma prefix_spec (p s : string) :
  String.prefix p s = true <-> exists t, s = String.append p t.
Proof.
  revert s. induction p as [|a p IH]; intros s.
  - destruct s; cbn [String.prefix]; (split; [intros _; eexists; rewrite append_nil_l; reflexivity
                                             | reflexivity]).
  - destruct s as [|b s]; cbn [String.prefix].
    + split; [discriminate|]. intros [t Ht]. rewrite append_cons in Ht. discriminate.
    + destruct (Ascii.ascii_dec a b) as [<-|Hne].
      * rewrite IH. split; intros [t Ht]; exists t.
        -- rewrite append_cons, Ht. reflexivity.
        -- rewrite append_cons in Ht. injection Ht as ->. reflexivity.
      * split; [discriminate|]. intros [t Ht]. rewrite append_cons in Ht. congruence.
Qed.

Lemma endsWith_spec (name suffix : string) :
  endsWith name suffix = true <-> exists stem, name = String.append stem suffix.
Proof.
  unfold endsWith. rewrite prefix_spec. split.
  - intros [t Ht]. exists (String.rev t).
    rewrite <- (rev_involutive name), Ht, rev_append, rev_involutive. reflexivity.
  - intros [stem ->]. exists (String.rev stem). apply rev_append.
Qed.

Section ReviewProperties.
Context `{eng : Engine}.

(** X21. An upload that does not exist or belongs to another user is
    invisible.  When the id of the request and the id of the caller are
    ObjectIds, parse, read, edit and confirm all answer 404 "Statement not
    found" and change nothing.  When one of them is no ObjectId, the lookup
    throws a [CastError], for the statement id first: parse and read answer
    500, edit and confirm answer 400, all with the message of the
    [CastError], and change nothing. *)
Theorem foreign_statement_not_found :
  forall (w : World) (userId statementId : string),
    (forall (id owner : string) (st : BankStatement),
        castObjectId statementId = Some id -> castObjectId userId = Some owner ->
        statements w !! id = Some st -> st_userId st <> owner) ->
    let refusal (thrown : nat) : Response ParseData :=
      match castObjectId statementId, castObjectId userId with
      | None, _ => Failure thrown (castError statementId "_id" "BankStatement")
      | Some _, None => Failure thrown (castError userId "userId" "BankStatement")
      | Some _, Some _ => Failure 404 "Statement not found"
      end in
    parseStatementHandler w userId statementId = (w, refusal 500%nat) /\
    getParsedTransactionsHandler w userId statementId = refusal 500%nat /\
    (forall transactionId body,
        exists status error,
          editParsedTransactionHandler w userId statementId transactionId body
          = (w, Failure status error) /\
          refusal 400%nat = Failure status error) /\
    (forall body,
        exists status error,
          confirmParsedTransactionsHandler w userId statementId body
          = (w, Failure status error) /\
          refusal 400%nat = Failure status error).
Proof.
  intros w userId statementId Hforeign refusal. subst refusal. cbv beta.
  unfold parseStatementHandler, getParsedTransactionsHandler, editParsedTransactionHandler,
    confirmParsedTransactionsHandler, findStatement.
  destruct (castObjectId statementId) as [id|]; [|repeat split; eauto].
  destruct (castObjectId userId) as [owner|]; [|repeat split; eauto].
  destruct (statements w !! id) as [st|] eqn:Hst; [|repeat split; eauto].
  destruct (String.eqb_spec (st_userId st) owner) as [Heq|_]; [|repeat split; eauto].
  destruct (Hforeign id owner st eq_refl eq_refl Hst Heq).
Qed.

Lemma uploaded_pending (w : World) (userId bankAccountId newId : string) (file : UploadedFile)
    (w' : World) (statement : BankStatement) :
  uploadStatementHandler w userId bankAccountId (Some file) newId = (w', Json statement) ->
  (exists account, getBankAccountById w bankAccountId userId = inr (Some account)) /\
  w' = setStatement w newId statement /\
  statement = {| st_userId := objectId userId;
                 st_bankAccountId := objectId bankAccountId;
                 st_fileName := uf_originalname file;
                 st_fileType := if endsWith (uf_originalname file) ".pdf" then pdf else csv;
                 st_filePath := Some (uf_path file);
                 st_parseStatus := parse_pending;
                 st_transactionCount := 0;
                 st_parsedTransactions := [];
                 st_errorMessage := None |}.
Proof.
  unfold uploadStatementHandler.
  destruct (getBankAccountById w bankAccountId userId) as [e|[account|]];
    [discriminate| |discriminate].
  cbv zeta. destruct (truthy (uf_originalname file)); [|discriminate].
  intros [= <- <-]. repeat split. eauto.
Qed.

(** X22. A successful upload stores a statement of the caller for an
    account the caller owns, in status pending with no candidates, of kind
    pdf exactly when the original name ends with ".pdf" in lower case and
    of kind csv otherwise; it changes neither ledger, accounts nor files.
    Under its [_id] (the canonical string [newId] of an ObjectId) the
    caller finds it, and until it is parsed, reading, editing and confirming
    it are refused with 400 and change nothing. *)
Theorem upload_awaits_parse :
  forall (w w' : World) (userId bankAccountId newId : string) (file : UploadedFile)
         (statement : BankStatement),
    uploadStatementHandler w userId bankAccountId (Some file) newId = (w', Json statement) ->
    statements w' = <[newId := statement]> (statements w) /\
    (exists account, bankAccounts w !! st_bankAccountId statement = Some account /\
                     acc_userId account = st_userId statement) /\
    castObjectId bankAccountId = Some (st_bankAccountId statement) /\
    castObjectId userId = Some (st_userId statement) /\
    st_parseStatus statement = parse_pending /\
    st_parsedTransactions statement = [] /\
    (st_fileType statement = pdf <->
     exists stem, uf_originalname file = String.append stem ".pdf") /\
    transactions w' = transactions w /\ bankAccounts w' = bankAccounts w /\
    files w' = files w /\
    (castObjectId newId = Some newId ->
     findStatement w' newId userId = inr (Some statement) /\
     getParsedTransactionsHandler w' userId newId
     = Failure 400 "Statement parsing not completed" /\
     (forall transactionId body,
         editParsedTransactionHandler w' userId newId transactionId body
         = (w', Failure 400 "Statement parsing not completed")) /\
     (forall body,
         confirmParsedTransactionsHandler w' userId newId body
         = (w', Failure 400 "Statement parsing not completed"))).
Proof.
  intros w w' userId bankAccountId newId file statement Hupload.
  destruct (uploaded_pending _ _ _ _ _ _ _ Hupload) as ([account Hacc] & -> & Hst).
  destruct (getBankAccountById_Some _ _ _ _ Hacc) as (Hid & Hlookup & Howner).
  assert (Hcaller : castObjectId userId = Some (st_userId statement)).
  { rewrite Hst. cbn [st_userId]. rewrite Howner. f_equal. symmetry.
    apply objectId_cast. exact Howner. }
  assert (Hpending : st_parseStatus statement = parse_pending) by (rewrite Hst; reflexivity).
  split; [reflexivity|]. split.
  { exists account. rewrite Hst. cbn [st_bankAccountId st_userId].
    split; [exact Hlookup|]. symmetry. apply objectId_cast. exact Howner. }
  split; [rewrite Hst; exact Hid|]. split; [exact Hcaller|].
  split; [exact Hpending|].
  split; [rewrite Hst; reflexivity|]. split.
  { rewrite Hst. cbn [st_fileType]. rewrite <- endsWith_spec.
    destruct (endsWith (uf_originalname file) ".pdf"); split; congruence. }
  split; [reflexivity|]. split; [reflexivity|]. split; [reflexivity|].
  intros Hnew.
  assert (Hfind : findStatement (setStatement w newId statement) newId userId
                  = inr (Some statement)).
  { unfold findStatement. rewrite Hnew, Hcaller. cbn [setStatement statements].
    rewrite lookup_insert_eq, String.eqb_refl. reflexivity. }
  split; [exact Hfind|].
  unfold getParsedTransactionsHandler, editParsedTransactionHandler,
    confirmParsedTransactionsHandler.
  rewrite Hfind, Hpending. repeat split.
Qed.

(** X23. An upload that is refused stores no statement and removes the
    uploaded file from the disk.  It is refused with 400 and the message of
    the [CastError] when the account id or the caller id is no ObjectId,
    with 404 when no account of the caller has the id, and with 400 when
    the account is there and the original name of the file is empty; in no
    other case.  The ledger and the accounts are never touched, whatever
    the answer. *)
Theorem refused_upload_is_cleaned_up :
  forall (w : World) (userId bankAccountId newId : string) (file : UploadedFile),
    match uploadStatementHandler w userId bankAccountId (Some file) newId with
    | (w', Failure status error) =>
        statements w' = statements w /\
        files w' !! uf_path file = None /\
        (forall path, path <> uf_path file -> files w' !! path = files w !! path) /\
        transactions w' = transactions w /\ bankAccounts w' = bankAccounts w /\
        match getBankAccountById w bankAccountId userId with
        | inl thrown =>
            status = 400%nat /\ error = thrown /\
            (castObjectId bankAccountId = None ->
             error = castError bankAccountId "_id" "BankAccount") /\
            (castObjectId bankAccountId <> None ->
             error = castError userId "userId" "BankAccount")
        | inr None => status = 404%nat /\ error = "Bank account not found"
        | inr (Some _) => status = 400%nat /\ uf_originalname file = EmptyString
        end
    | (w', Json _) =>
        transactions w' = transactions w /\ bankAccounts w' = bankAccounts w /\
        files w' = files w /\
        uf_originalname file <> EmptyString /\
        exists account, getBankAccountById w bankAccountId userId = inr (Some account)
    end.
Proof.
  intros w userId bankAccountId newId file.
  assert (Hclean : forall rest : Prop,
             rest ->
             statements (unlink w (uf_path file)) = statements w /\
             files (unlink w (uf_path file)) !! uf_path file = None /\
             (forall path, path <> uf_path file ->
                           files (unlink w (uf_path file)) !! path = files w !! path) /\
             transactions (unlink w (uf_path file)) = transactions w /\
             bankAccounts (unlink w (uf_path file)) = bankAccounts w /\ rest).
  { intros rest Hrest. cbn [unlink statements files transactions bankAccounts].
    split; [reflexivity|]. split; [apply lookup_delete_eq|].
    split; [intros path Hpath; apply lookup_delete_ne; congruence|].
    split; [reflexivity|]. split; [reflexivity | exact Hrest]. }
  unfold uploadStatementHandler, getBankAccountById.
  destruct (castObjectId bankAccountId) as [id|].
  2:{ apply Hclean. repeat split. intros Hsome. destruct (Hsome eq_refl). }
  destruct (castObjectId userId) as [owner|].
  2:{ apply Hclean. repeat split. discriminate. }
  destruct (match bankAccounts w !! id with
            | Some a => if String.eqb (acc_userId a) owner then Some a else None
            | None => None
            end) as [account|].
  - cbv zeta. destruct (uf_originalname file) as [|c name] eqn:Hname; cbn [truthy].
    + apply Hclean. split; reflexivity.
    + cbn [setStatement transactions bankAccounts files].
      repeat split; [discriminate | eauto].
  - apply Hclean. split; reflexivity.
Qed.

End ReviewProperties.

Section ParseAndReview.
Context `{eng : Engine}.

Lemma isFlagged_storedParsed (tx : ParsedTransaction) :
  isFlagged (storedParsed tx) = isFlagged tx.
Proof. unfold isFlagged, storedParsed. cbn. destruct (pt_isDuplicate tx) as [[]|]; reflexivity. Qed.

Lemma filter_map_length {A B} (f : A -> B) (p : B -> bool) (q : A -> bool) (l : list A) :
  (forall x, p (f x) = q x) ->
  List.length (List.filter p (map f l)) = List.length (List.filter q l).
Proof.
  intros Hpq. induction l as [|x l IH]; [reflexivity|].
  cbn [map List.filter]. rewrite Hpq. destruct (q x); cbn [List.length]; rewrite IH; reflexivity.
Qed.

Lemma parseCSVRows_labelled (cols : Columns) (lines : list string) :
  forall start : nat,
    Forall (fun tx => is_Some (pt_tempId tx)) (parseCSVRows cols start lines).
Proof.
  induction lines as [|l lines IH]; intros start; cbn [parseCSVRows]; [constructor|].
  destruct (parseCSVRow cols start l) as [tx|] eqn:Hrow; [|apply IH].
  constructor; [|apply IH].
  destruct (parseCSVRow_fields _ _ _ _ Hrow)
    as (? & ? & ? & ? & ? & ? & ? & ? & ? & ? & ? & Hid & ?).
  rewrite Hid. eauto.
Qed.

Lemma parsePDFLines_labelled (lines : list string) :
  forall start : nat,
    Forall (fun tx => is_Some (pt_tempId tx)) (parsePDFLines start lines).
Proof.
  induction lines as [|l lines IH]; intros start; cbn [parsePDFLines]; [constructor|].
  destruct (negb (truthy (trim l))); [apply IH|].
  destruct (tryPatterns patterns (trim l) start) as [tx|] eqn:Htry; [|apply IH].
  constructor; [|apply IH].
  destruct (tryPatterns_fields _ _ _ _ Htry) as (Hid & _). rewrite Hid. eauto.
Qed.

(** Every candidate that the extraction returns carries a temporary id. *)
Lemma extract_labelled (w : World) (userId : string) (statement : BankStatement)
    (filePath : string) (candidates : list ParsedTransaction) :
  extract w userId statement filePath = inr candidates ->
  Forall (fun tx => is_Some (pt_tempId tx)) candidates.
Proof.
  unfold extract. destruct (readFile w filePath) as [e|content]; [discriminate|].
  assert (Hflagged : forall parsed,
             Forall (fun tx => is_Some (pt_tempId tx)) parsed ->
             detectDuplicates (transactions w) userId parsed (st_bankAccountId statement)
             = inr candidates ->
             Forall (fun tx => is_Some (pt_tempId tx)) candidates).
  { intros parsed Hlabelled Hdetect.
    apply detectDuplicates_amounts in Hdetect as [_ Hids].
    apply (Forall_map pt_tempId (fun t => is_Some t)). rewrite Hids.
    apply (Forall_map pt_tempId (fun t => is_Some t)). exact Hlabelled. }
  destruct (st_fileType statement).
  - destruct (pdfParse content) as [e|text]; [discriminate|].
    apply Hflagged. apply parsePDFLines_labelled.
  - destruct (parseCSVStatement content) as [e|parsed] eqn:Hparse; [discriminate|].
    apply Hflagged. unfold parseCSVStatement in Hparse.
    destruct (List.length _ <? 2)%nat; [discriminate|].
    injection Hparse as <-. apply parseCSVRows_labelled.
Qed.

Lemma validParsed_true (tx : ParsedTransaction) :
  validParsed tx = true ->
  isValidDate (pt_date tx) = true /\ isNaN (pt_amount tx) = false /\
  truthy (trim (pt_description tx)) = true /\ pt_type tx <> transfer /\
  pt_balance tx <> Some NaN.
Proof.
  unfold validParsed. rewrite !andb_true_iff, negb_true_iff, bool_decide_eq_true.
  intros ((((Hdate & Hamount) & Hdescription) & Htype) & Hbalance).
  repeat split; try assumption.
  intros Hnan. rewrite Hnan in Hbalance. discriminate.
Qed.

(** X24. [parseStatementHandler] writes nothing but the one statement it
    was called for: ledger, accounts, files and every other statement are
    as before.  When it answers with data, the caller finds that statement
    completed, still for the same owner, account and file; its candidates
    are those of the answer as the schema stores them: trimmed, with a
    duplicate flag, and without the temporary id that the answer gave them;
    its count is their number, the duplicate count of the answer is the
    number of flagged candidates, and no candidate has an invalid date, an
    amount or a balance that is [NaN], or an empty description.  When it
    answers 500 for a statement it found, the statement is left in status
    failed or parsing with its earlier candidates, so that a statement that
    was completed no longer is; any other failure changes nothing. *)
Theorem parse_writes_only_its_statement :
  forall (w : World) (userId statementId : string),
    match parseStatementHandler w userId statementId with
    | (w', response) =>
        transactions w' = transactions w /\ bankAccounts w' = bankAccounts w /\
        files w' = files w /\
        (forall other, other <> objectId statementId ->
                       statements w' !! other = statements w !! other) /\
        match response with
        | Json data =>
            exists statement stored,
              findStatement w statementId userId = inr (Some statement) /\
              findStatement w' statementId userId = inr (Some stored) /\
              st_userId stored = st_userId statement /\
              st_bankAccountId stored = st_bankAccountId statement /\
              st_filePath stored = st_filePath statement /\
              st_parseStatus stored = parse_completed /\
              st_transactionCount stored = List.length (pd_transactions data) /\
              st_parsedTransactions stored = map storedParsed (pd_transactions data) /\
              Forall2
                (fun answered kept =>
                   is_Some (pt_tempId answered) /\ pt_tempId kept = None /\
                   pt_date kept = pt_date answered /\
                   pt_amount kept = pt_amount answered /\
                   pt_type kept = pt_type answered /\
                   pt_balance kept = pt_balance answered /\
                   pt_description kept = trim (pt_description answered) /\
                   pt_isDuplicate kept = Some (isFlagged answered) /\
                   isValidDate (pt_date kept) = true /\
                   isNaN (pt_amount kept) = false /\
                   pt_balance kept <> Some NaN /\
                   pt_description kept <> EmptyString)
                (pd_transactions data) (st_parsedTransactions stored) /\
              pd_duplicateCount data
              = List.length (List.filter isFlagged (pd_transactions data))
        | Failure status error =>
            match findStatement w statementId userId with
            | inl thrown => w' = w /\ status = 500%nat /\ error = thrown
            | inr None => w' = w /\ status = 404%nat
            | inr (Some statement) =>
                if (status =? 500)%nat then
                  exists stored,
                    findStatement w' statementId userId = inr (Some stored) /\
                    (st_parseStatus stored = failed \/ st_parseStatus stored = parsing) /\
                    st_parsedTransactions stored = st_parsedTransactions statement
                else w' = w /\ status = 400%nat
            end
        end
    end.
Proof.
  intros w userId statementId.
  destruct (parseStatementHandler w userId statementId) as [w' response] eqn:Hparse.
  destruct response as [data|status error].
  - destruct (parse_answered _ _ _ _ _ Hparse)
      as (statement & filePath & Hfind & Hpath & Hextract & Hvalid & Hcount & Hw).
    destruct (parse_stored _ _ _ _ _ Hparse)
      as (stored & Hfound & Hlookup & Hstatus & Hlist & Hnumber & _).
    subst w'. cbn [setStatement transactions bankAccounts files statements] in *.
    split; [reflexivity|]. split; [reflexivity|]. split; [reflexivity|]. split.
    { intros other Hother. rewrite !lookup_insert_ne by congruence. reflexivity. }
    rewrite lookup_insert_eq in Hlookup. injection Hlookup as <-.
    exists statement. eexists. split; [exact Hfind|]. split; [exact Hfound|].
    cbn [withParsed withStatus withCount st_userId st_bankAccountId st_filePath
         st_parseStatus st_transactionCount st_parsedTransactions].
    do 6 (split; [reflexivity|]). split; [|exact Hcount].
    apply Forall2_map_diag. apply Forall_forall. intros tx Hin.
    pose proof (extract_labelled _ _ _ _ _ Hextract) as Hlabelled.
    rewrite Forall_forall in Hlabelled.
    rewrite forallb_forall in Hvalid.
    destruct (validParsed_true tx (Hvalid tx (proj1 (list_elem_of_In _ _) Hin)))
      as (Hdate & Hamount & Hdescription & _ & Hbalance).
    cbn [storedParsed pt_tempId pt_date pt_amount pt_type pt_balance pt_description
         pt_isDuplicate].
    split; [exact (Hlabelled tx Hin)|]. do 6 (split; [reflexivity|]).
    split; [unfold isFlagged; destruct (pt_isDuplicate tx) as [[]|]; reflexivity|].
    split; [exact Hdate|]. split; [exact Hamount|]. split; [exact Hbalance|].
    intros Hempty. rewrite Hempty in Hdescription. discriminate.
  - unfold parseStatementHandler in Hparse.
    destruct (findStatement w statementId userId) as [thrown|[statement|]] eqn:Hfind.
    + rewrite (findStatement_thrown _ _ _ _ Hfind) in Hparse.
      injection Hparse as <- <- <-. repeat split.
    + destruct (findStatement_Some _ _ _ _ Hfind) as (Hid & Hlookup & Howner).
      destruct (st_filePath statement) as [filePath|] eqn:Hpath.
      2:{ injection Hparse as <- <- <-. repeat split. }
      destruct (truthy filePath); cbn [negb] in Hparse.
      2:{ injection Hparse as <- <- <-. repeat split. }
      cbv zeta in Hparse.
      destruct (extract _ userId _ filePath) as [parseError|candidates].
      * injection Hparse as <- <- <-.
        cbn [setStatement transactions bankAccounts files statements].
        split; [reflexivity|]. split; [reflexivity|]. split; [reflexivity|]. split.
        { intros other Hother. rewrite !lookup_insert_ne by congruence. reflexivity. }
        cbn [Nat.eqb]. eexists. split.
        { unfold findStatement. rewrite Hid, Howner. cbn [statements setStatement].
          rewrite lookup_insert_eq. cbn [withError withStatus st_userId].
          rewrite String.eqb_refl. reflexivity. }
        split; [left; reflexivity | reflexivity].
      * destruct (forallb validParsed candidates); [discriminate|].
        injection Hparse as <- <- <-.
        cbn [setStatement transactions bankAccounts files statements].
        split; [reflexivity|]. split; [reflexivity|]. split; [reflexivity|]. split.
        { intros other Hother. rewrite !lookup_insert_ne by congruence. reflexivity. }
        cbn [Nat.eqb]. eexists. split.
        { unfold findStatement. rewrite Hid, Howner. cbn [statements setStatement].
          rewrite lookup_insert_eq. cbn [withStatus st_userId].
          rewrite String.eqb_refl. reflexivity. }
        split; [right; reflexivity | reflexivity].
    + injection Hparse as <- <- <-. repeat split.
Qed.

(** X25. After a parse that answered with data, reading the parsed
    transactions of the statement answers the candidates of the parse as
    the schema stores them, with the same duplicate count.  Every candidate
    in the answer of the parse carries a temporary id; no candidate in the
    answer of the read carries one. *)
Theorem parse_then_get :
  forall (w w' : World) (userId statementId : string) (data : ParseData),
    parseStatementHandler w userId statementId = (w', Json data) ->
    getParsedTransactionsHandler w' userId statementId
    = Json {| pd_transactions := map storedParsed (pd_transactions data);
              pd_duplicateCount := pd_duplicateCount data |} /\
    Forall (fun tx => is_Some (pt_tempId tx)) (pd_transactions data) /\
    Forall (fun tx => pt_tempId tx = None) (map storedParsed (pd_transactions data)).
Proof.
  intros w w' userId statementId data Hparse.
  destruct (parse_stored _ _ _ _ _ Hparse)
    as (stored & Hfound & _ & Hstatus & Hlist & _ & Hcount).
  destruct (parse_answered _ _ _ _ _ Hparse) as (statement & filePath & _ & _ & Hextract & _).
  split; [|split].
  - unfold getParsedTransactionsHandler.
    rewrite Hfound, Hstatus, Hlist, Hcount.
    rewrite bool_decide_eq_true_2 by reflexivity. cbn [negb].
    rewrite (filter_map_length storedParsed isFlagged isFlagged) by exact isFlagged_storedParsed.
    reflexivity.
  - exact (extract_labelled _ _ _ _ _ Hextract).
  - apply Forall_map. apply Forall_forall. intros tx _. reflexivity.
Qed.

(** X26. The answer of a parse depends on the statement only through
    its owner, account, kind and file: whatever candidates, count and status
    an earlier parse or the edits left on it, parsing again answers the same.
    Edits made during the review are therefore not kept by a new parse. *)
Theorem reparse_ignores_review :
  forall (w : World) (userId statementId : string) (statement : BankStatement)
         (candidates : list ParsedTransaction) (count : nat) (status : ParseStatus),
    findStatement w statementId userId = inr (Some statement) ->
    (parseStatementHandler
       (setStatement w (objectId statementId)
          (withStatus (withCount (withParsed statement candidates) count) status))
       userId statementId).2
    = (parseStatementHandler w userId statementId).2.
Proof.
  intros w userId statementId statement candidates count status Hfind.
  destruct (findStatement_Some _ _ _ _ Hfind) as (Hid & _ & Howner).
  unfold parseStatementHandler.
  rewrite (findStatement_set w statementId userId
             (withStatus (withCount (withParsed statement candidates) count) status))
    by assumption.
  rewrite Hfind.
  cbn [withStatus withCount withParsed st_filePath].
  destruct (st_filePath statement) as [filePath|]; [|reflexivity].
  destruct (truthy filePath); cbn [negb]; [|reflexivity].
  cbv zeta. unfold extract, readFile.
  cbn [setStatement files transactions withStatus withCount withParsed st_fileType
         st_bankAccountId].
  destruct (files w !! filePath) as [content|]; [|reflexivity].
  destruct (match st_fileType statement with
            | pdf => match pdfParse content with
                     | inl e => inl e
                     | inr text => inr (parsePDFStatement text)
                     end
            | csv => parseCSVStatement content
            end) as [e|parsed]; [reflexivity|].
  destruct (detectDuplicates _ _ _ _) as [e|flagged]; [reflexivity|].
  destruct (forallb validParsed flagged); reflexivity.
Qed.

End ParseAndReview.

Section EditAndConfirm.
Context `{eng : Engine}.

Lemma findIndex_none {A} (pred : A -> bool) (l : list A) :
  Forall (fun x => pred x = false) l -> findIndex pred l = (-1)%Z.
Proof.
  induction 1 as [|x l Hx _ IH]; [reflexivity|].
  cbn [findIndex]. rewrite Hx, IH. reflexivity.
Qed.

Lemma unlabelled_not_found (transactionId : string) (l : list ParsedTransaction) :
  Forall (fun tx => pt_tempId tx = None) l ->
  findIndex (hasTempId transactionId) l = (-1)%Z.
Proof.
  intros Hnone. apply findIndex_none. eapply Forall_impl; [exact Hnone|].
  intros tx Htx. unfold hasTempId. rewrite Htx. reflexivity.
Qed.

Lemma unlabelled_not_selected (transactionIds : list string) (l : list ParsedTransaction) :
  Forall (fun tx => pt_tempId tx = None) l ->
  List.filter (selected transactionIds) l = [].
Proof.
  induction 1 as [|tx l Htx _ IH]; [reflexivity|].
  cbn [List.filter]. unfold selected at 1. rewrite Htx. exact IH.
Qed.

Lemma Unlabelled_found (w : World) (userId statementId : string) (statement : BankStatement) :
  Unlabelled w ->
  findStatement w statementId userId = inr (Some statement) ->
  Forall (fun tx => pt_tempId tx = None) (st_parsedTransactions statement).
Proof.
  intros Hw Hfind. destruct (findStatement_Some _ _ _ _ Hfind) as (_ & Hlookup & _).
  exact (Hw _ _ Hlookup).
Qed.

Lemma Unlabelled_set (w : World) (id : string) (statement : BankStatement) :
  Unlabelled w ->
  Forall (fun tx => pt_tempId tx = None) (st_parsedTransactions statement) ->
  Unlabelled (setStatement w id statement).
Proof.
  intros Hw Hstatement other st. unfold setStatement. cbn [statements].
  rewrite lookup_insert. case_decide as Heq.
  - intros [= <-]. exact Hstatement.
  - apply Hw.
Qed.

Lemma Unlabelled_statements (w w' : World) :
  statements w' = statements w -> Unlabelled w -> Unlabelled w'.
Proof. unfold Unlabelled. intros ->. auto. Qed.

Lemma edit_unlabelled (w : World) (userId statementId transactionId : string)
    (body : EditBody) :
  Unlabelled w ->
  exists (status : nat) (error : string),
    editParsedTransactionHandler w userId statementId transactionId body
    = (w, Failure status error) /\
    forall statement,
      findStatement w statementId userId = inr (Some statement) ->
      st_parseStatus statement = parse_completed ->
      status = 404%nat /\ error = "Transaction not found".
Proof.
  intros Hw. unfold editParsedTransactionHandler.
  destruct (findStatement w statementId userId) as [thrown|[statement|]] eqn:Hfind.
  - eexists _, _. split; [reflexivity|]. discriminate.
  - cbv zeta.
    destruct (bool_decide (st_parseStatus statement = parse_completed)) eqn:Hstatus;
      cbn [negb].
    + rewrite (unlabelled_not_found transactionId _ (Unlabelled_found _ _ _ _ Hw Hfind)).
      cbn [Z.eqb Z.opp Pos.eqb]. eexists _, _. split; [reflexivity|]. auto.
    + eexists _, _. split; [reflexivity|].
      intros st [= <-] Hcompleted. apply bool_decide_eq_false in Hstatus. contradiction.
  - eexists _, _. split; [reflexivity|]. discriminate.
Qed.

(** X27. A stored candidate carries no identifier: the schema of the
    candidates has no [_tempId] path and gives them no [_id].  That no
    stored candidate carries a temporary id is kept by upload, parse, edit
    and confirm, whatever they answer.  Where it holds, no edit is ever
    accepted: every edit is refused and changes nothing, with 404
    "Transaction not found" as soon as the statement is found and completed;
    and a confirm that names the candidates to import selects none of them:
    it creates nothing and changes nothing, and when it answers with data
    its three counters are 0. *)
Theorem stored_candidates_carry_no_identifier :
  (forall (w : World) (userId bankAccountId newId : string) (file : option UploadedFile),
      Unlabelled w ->
      Unlabelled (uploadStatementHandler w userId bankAccountId file newId).1) /\
  (forall (w : World) (userId statementId : string),
      Unlabelled w -> Unlabelled (parseStatementHandler w userId statementId).1) /\
  (forall (w : World) (userId statementId transactionId : string) (body : EditBody),
      Unlabelled w ->
      Unlabelled (editParsedTransactionHandler w userId statementId transactionId body).1) /\
  (forall (w : World) (userId statementId : string) (body : ConfirmBody),
      Unlabelled w ->
      Unlabelled (confirmParsedTransactionsHandler w userId statementId body).1) /\
  (forall (w : World) (userId statementId transactionId : string) (body : EditBody),
      Unlabelled w ->
      exists (status : nat) (error : string),
        editParsedTransactionHandler w userId statementId transactionId body
        = (w, Failure status error) /\
        forall statement,
          findStatement w statementId userId = inr (Some statement) ->
          st_parseStatus statement = parse_completed ->
          status = 404%nat /\ error = "Transaction not found") /\
  (forall (w : World) (userId statementId id : string) (ids : list string)
          (skipDuplicates : bool),
      Unlabelled w ->
      (confirmParsedTransactionsHandler w userId statementId
         {| cb_transactionIds := Some (id :: ids); cb_skipDuplicates := skipDuplicates |}).1
      = w /\
      forall data,
        (confirmParsedTransactionsHandler w userId statementId
           {| cb_transactionIds := Some (id :: ids); cb_skipDuplicates := skipDuplicates |}).2
        = Json data ->
        data = {| cd_created := 0; cd_skipped := 0; cd_duplicates := 0 |}).
Proof.
  split; [|split; [|split; [|split; [|split]]]].
  - intros w userId bankAccountId newId file Hw. unfold uploadStatementHandler.
    destruct file as [file|]; [|exact Hw].
    destruct (getBankAccountById w bankAccountId userId) as [thrown|[account|]];
      [exact Hw| |exact Hw].
    cbv zeta. destruct (truthy (uf_originalname file)); [|exact Hw].
    cbn [fst]. apply Unlabelled_set; [exact Hw | constructor].
  - intros w userId statementId Hw. unfold parseStatementHandler.
    destruct (findStatement w statementId userId) as [thrown|[statement|]] eqn:Hfind;
      [exact Hw| |exact Hw].
    pose proof (Unlabelled_found _ _ _ _ Hw Hfind) as Hstatement.
    cbv zeta.
    destruct (st_filePath statement) as [filePath|]; [|exact Hw].
    destruct (truthy filePath); cbn [negb]; [|exact Hw].
    destruct (extract _ userId _ filePath) as [parseError|candidates].
    + cbn [fst]. apply Unlabelled_set; [apply Unlabelled_set; assumption|exact Hstatement].
    + destruct (forallb validParsed candidates); cbn [fst].
      * apply Unlabelled_set; [apply Unlabelled_set; assumption|].
        cbn [withParsed st_parsedTransactions]. apply Forall_map.
        apply Forall_forall. intros tx _. reflexivity.
      * apply Unlabelled_set; assumption.
  - intros w userId statementId transactionId body Hw.
    destruct (edit_unlabelled w userId statementId transactionId body Hw)
      as (status & error & -> & _).
    exact Hw.
  - intros w userId statementId body Hw. unfold confirmParsedTransactionsHandler.
    destruct (findStatement w statementId userId) as [thrown|[statement|]];
      [exact Hw| |exact Hw].
    destruct (negb (bool_decide (st_parseStatus statement = parse_completed))); [exact Hw|].
    destruct (getBankAccountById w (st_bankAccountId statement) userId)
      as [thrown|[account|]]; [exact Hw| |exact Hw].
    destruct (createTransactions _ _ _) as [ledger result].
    destruct (if (0 <? List.length (created result))%nat then _ else _) as [thrown|accounts];
      cbn [fst]; (eapply Unlabelled_statements; [|exact Hw]); reflexivity.
  - exact edit_unlabelled.
  - intros w userId statementId id ids skipDuplicates Hw.
    unfold confirmParsedTransactionsHandler.
    destruct (findStatement w statementId userId) as [thrown|[statement|]] eqn:Hfind;
      [split; [reflexivity | discriminate]| |split; [reflexivity | discriminate]].
    destruct (negb (bool_decide (st_parseStatus statement = parse_completed)));
      [split; [reflexivity | discriminate]|].
    destruct (getBankAccountById w (st_bankAccountId statement) userId)
      as [thrown|[account|]]; [split; [reflexivity | discriminate]|
                               |split; [reflexivity | discriminate]].
    assert (Hnone : transactionsToImport statement
                      {| cb_transactionIds := Some (id :: ids);
                         cb_skipDuplicates := skipDuplicates |} = []).
    { unfold transactionsToImport. cbn [cb_transactionIds cb_skipDuplicates].
      rewrite (unlabelled_not_selected _ _ (Unlabelled_found _ _ _ _ Hw Hfind)).
      destruct skipDuplicates; reflexivity. }
    rewrite Hnone. cbn [map createTransactions createTransactions_loop created skipped
                        duplicates List.length Nat.ltb Nat.leb fst snd].
    unfold createTransactions. cbn [createTransactions_loop created skipped duplicates
                                    List.length Nat.ltb Nat.leb fst snd].
    split; [destruct w; reflexivity|]. intros data [= <-]. reflexivity.
Qed.

Lemma outcomes_created_data (skipDuplicates : bool) (transactions : list CreateTransactionData) :
  forall ledger : Ledger,
    Forall (fun saved => exists txData l hash,
                In txData transactions /\ save l txData hash = inr saved)
      (createdOf (outcomes skipDuplicates transactions ledger)).
Proof.
  induction transactions as [|txData rest IH]; intros ledger; [constructor|].
  cbn [outcomes].
  assert (Hrest : Forall (fun saved => exists d l hash,
                            In d (txData :: rest) /\ save l d hash = inr saved)
                    (createdOf (outcomes skipDuplicates rest
                                  (ledgerAfter (rowOutcome skipDuplicates ledger txData) ledger)))).
  { eapply Forall_impl; [apply IH|].
    intros saved (d & l & hash & Hin & Hsave). exists d, l, hash. split; [right|]; assumption. }
  unfold rowOutcome at 1.
  destruct (fingerprintOf txData) as [e|hash]; [exact Hrest|].
  destruct (skipDuplicates && bool_decide _); [exact Hrest|].
  destruct (save ledger txData hash) as [e|saved] eqn:Hsave; [exact Hrest|].
  cbn [createdOf]. constructor; [|exact Hrest].
  exists txData, ledger, hash. split; [left; reflexivity | exact Hsave].
Qed.

Lemma transactionsToImport_chosen (statement : BankStatement) (body : ConfirmBody)
    (tx : ParsedTransaction) :
  In tx (transactionsToImport statement body) ->
  In tx (st_parsedTransactions statement) /\
  (cb_skipDuplicates body = true -> isFlagged tx = false) /\
  (forall id ids, cb_transactionIds body = Some (id :: ids) ->
                  exists t, pt_tempId tx = Some t /\ In t (id :: ids)).
Proof.
  unfold transactionsToImport. intros Hin.
  assert (Hchosen : In tx match cb_transactionIds body with
                          | Some (id :: ids) =>
                              List.filter (selected (id :: ids)) (st_parsedTransactions statement)
                          | _ => st_parsedTransactions statement
                          end /\
                    (cb_skipDuplicates body = true -> isFlagged tx = false)).
  { destruct (cb_skipDuplicates body).
    - apply filter_In in Hin as [Hin Hflag]. split; [exact Hin|].
      intros _. apply negb_true_iff. exact Hflag.
    - split; [exact Hin | discriminate]. }
  destruct Hchosen as [Hchosen Hflag].
  destruct (cb_transactionIds body) as [[|id ids]|].
  - split; [exact Hchosen|]. split; [exact Hflag | discriminate].
  - apply filter_In in Hchosen as [Hchosen Hselected].
    split; [exact Hchosen|]. split; [exact Hflag|].
    intros id' ids' [= <- <-]. unfold selected in Hselected.
    destruct (pt_tempId tx) as [t|]; [|discriminate].
    apply andb_true_iff in Hselected as [_ Hex].
    apply existsb_exists in Hex as (t' & Hin' & Heq). apply String.eqb_eq in Heq. subst t'.
    exists t. split; [reflexivity | exact Hin'].
  - split; [exact Hchosen|]. split; [exact Hflag | discriminate].
Qed.

(** X28. Every transaction that a confirm creates belongs to the caller
    and to the account of the statement, which the caller owns; it is a bank
    transaction in the currency of that account in upper case, completed and
    not deleted, and its type, amount and date are those of a candidate of
    the statement.  With [skipDuplicates] that candidate is not flagged, and
    with a non-empty list of ids its temporary id is in the list.  The three
    counters of the answer add up to the number of candidates selected for
    the import. *)
Theorem confirm_creates_for_caller :
  forall (w w' : World) (userId statementId : string) (body : ConfirmBody) (data : ConfirmData),
    confirmParsedTransactionsHandler w userId statementId body = (w', Json data) ->
    exists (statement : BankStatement) (account : BankAccount) (createdTxs : list Transaction),
      findStatement w statementId userId = inr (Some statement) /\
      bankAccounts w !! objectId (st_bankAccountId statement) = Some account /\
      castObjectId userId = Some (acc_userId account) /\
      transactions w' = transactions w ++ createdTxs /\
      (cd_created data + cd_skipped data + cd_duplicates data
       = List.length (transactionsToImport statement body))%nat /\
      Forall (fun t =>
                tx_userId t = userId /\
                tx_accountId t = st_bankAccountId statement /\
                tx_accountType t = bank /\
                tx_currency t = toUpperCase (acc_currency account) /\
                tx_status t = completed /\
                tx_deletedAt t = None /\
                exists candidate,
                  In candidate (st_parsedTransactions statement) /\
                  (cb_skipDuplicates body = true -> isFlagged candidate = false) /\
                  (forall id ids, cb_transactionIds body = Some (id :: ids) ->
                                  exists t, pt_tempId candidate = Some t /\ In t (id :: ids)) /\
                  tx_type t = pt_type candidate /\
                  tx_amount t = pt_amount candidate /\
                  tx_date t = pt_date candidate)
        createdTxs.
Proof.
  unfold confirmParsedTransactionsHandler. intros w w' userId statementId body data Hconfirm.
  destruct (findStatement w statementId userId) as [thrown|[statement|]] eqn:Hfind;
    [discriminate| |discriminate].
  destruct (negb (bool_decide (st_parseStatus statement = parse_completed))); [discriminate|].
  destruct (getBankAccountById w (st_bankAccountId statement) userId)
    as [thrown|[account|]] eqn:Hacc; [discriminate| |discriminate].
  destruct (getBankAccountById_Some _ _ _ _ Hacc) as (_ & Hlookup & Howner).
  rewrite createTransactions_outcomes in Hconfirm.
  cbn [created skipped duplicates] in Hconfirm.
  destruct (if (0 <? _)%nat then _ else _) as [thrown|accounts] in Hconfirm; [discriminate|].
  injection Hconfirm as <- <-.
  exists statement, account, (createdOf (outcomes (cb_skipDuplicates body)
    (map (toCreateData userId statement account) (transactionsToImport statement body))
    (transactions w))).
  cbn [transactions cd_created cd_skipped cd_duplicates].
  split; [reflexivity|]. split; [exact Hlookup|]. split; [exact Howner|]. split; [reflexivity|].
  split.
  { pose proof (outcomes_length (cb_skipDuplicates body)
                  (map (toCreateData userId statement account)
                     (transactionsToImport statement body)) (transactions w)) as Hlen.
    rewrite length_map in Hlen. lia. }
  eapply Forall_impl; [apply outcomes_created_data|].
  intros saved (txData & l & hash & Hin & Hsave).
  apply in_map_iff in Hin as (candidate & <- & Hcandidate).
  destruct (save_document _ _ _ _ Hsave) as (_ & Hu & Ha & Hty & Htype & Hamount & Hcur & Hs & _ & Hd).
  cbn [toCreateData ct_userId ct_accountId ct_accountType ct_type ct_amount ct_currency]
    in Hu, Ha, Hty, Htype, Hamount, Hcur.
  repeat (split; [assumption|]).
  destruct (transactionsToImport_chosen _ _ _ Hcandidate) as (Hin & Hflag & Hids).
  exists candidate. split; [exact Hin|]. split; [exact Hflag|]. split; [exact Hids|].
  split; [exact Htype|]. split; [exact Hamount|].
  unfold save in Hsave. destruct (validTransaction _); [|discriminate].
  injection Hsave as <-. reflexivity.
Qed.

End EditAndConfirm.

(** ** Normalisation *)

Lemma abs_abs (x : JSNum) : abs (abs x) = abs x.
Proof.
  destruct x as [|negative|[n d]]; [reflexivity | reflexivity|].
  cbn. rewrite Z.abs_idemp. reflexivity.
Qed.

(** X29. [normalizeTransactionData] is idempotent, whatever account it is
    given; it keeps the number and the order of the candidates and their
    temporary ids, and leaves no negative amount and no description with
    surrounding white space. *)
Theorem normalizeTransactionData_idempotent :
  forall (transactions : list ParsedTransaction) (accountId accountId' : string),
    normalizeTransactionData (normalizeTransactionData transactions accountId) accountId'
    = normalizeTransactionData transactions accountId /\
    map pt_tempId (normalizeTransactionData transactions accountId) = map pt_tempId transactions /\
    Forall (fun tx => lt0 (pt_amount tx) = false /\ trim (pt_description tx) = pt_description tx)
      (normalizeTransactionData transactions accountId).
Proof.
  intros transactions accountId accountId'. unfold normalizeTransactionData.
  split; [|split].
  - rewrite List.map_map. apply map_ext. intros tx.
    cbn [pt_date pt_amount pt_description pt_type pt_referenceNumber pt_balance
           pt_isDuplicate pt_matchingTransactionId pt_tempId].
    rewrite abs_abs, trim_idempotent. reflexivity.
  - rewrite List.map_map. reflexivity.
  - apply Forall_forall. intros tx Hin.
    apply list_elem_of_In, in_map_iff in Hin as (tx0 & <- & _).
    cbn [pt_amount pt_description]. split.
    + destruct (pt_amount tx0) as [|negative|[n d]]; cbn; [reflexivity | reflexivity|].
      apply Z.ltb_ge. lia.
    + apply trim_idempotent.
Qed.

(** ** The handler properties on the sample worlds *)

Lemma foreign_statement_not_found_witness :
  parseStatementHandler (eng := utcEngine) salaryWorld user2 stmt1
  = (salaryWorld, Failure 404 "Statement not found") /\
  parseStatementHandler (eng := utcEngine) salaryWorld user1 "stmt-1"
  = (salaryWorld, Failure 500 (castError "stmt-1" "_id" "BankStatement")) /\
  getParsedTransactionsHandler (eng := utcEngine) salaryWorld user1 "stmt-1"
  = Failure 500 (castError "stmt-1" "_id" "BankStatement") /\
  exists status error,
    confirmParsedTransactionsHandler (eng := utcEngine) salaryWorld user1 "stmt-1"
      (confirmAll false)
    = (salaryWorld, Failure status error) /\
    Failure 400 (castError "stmt-1" "_id" "BankStatement")
    = Failure (A := ParseData) status error.
Proof.
  split.
  { apply (foreign_statement_not_found (eng := utcEngine) salaryWorld user2 stmt1).
    intros id owner st Hid Howner Hst.
    vm_compute in Hid, Howner. injection Hid as <-. injection Howner as <-.
    unfold salaryWorld, world in Hst. cbn [statements] in Hst.
    apply lookup_singleton_Some in Hst as [_ <-]. discriminate. }
  destruct (foreign_statement_not_found (eng := utcEngine) salaryWorld user1 "stmt-1")
    as (Hparse & Hget & _ & Hconfirm).
  { intros id owner st Hid. discriminate. }
  split; [exact Hparse|]. split; [exact Hget|].
  exact (Hconfirm (confirmAll false)).
Defined.

Lemma upload_awaits_parse_witness :
  exists statement,
    (uploadStatementHandler (eng := utcEngine) inbox user1 acct1 (Some aprilFile) stmt2).2
    = Json statement /\
    st_fileType statement = pdf /\
    findStatement (eng := utcEngine)
      (uploadStatementHandler (eng := utcEngine) inbox user1 acct1 (Some aprilFile) stmt2).1
      stmt2 user1
    = inr (Some statement) /\
    getParsedTransactionsHandler (eng := utcEngine)
      (uploadStatementHandler (eng := utcEngine) inbox user1 acct1 (Some aprilFile) stmt2).1
      user1 stmt2
    = Failure 400 "Statement parsing not completed".
Proof.
  exists {| st_userId := user1; st_bankAccountId := acct1; st_fileName := "april.pdf";
            st_fileType := pdf; st_filePath := Some "uploads/april";
            st_parseStatus := parse_pending; st_transactionCount := 0;
            st_parsedTransactions := []; st_errorMessage := None |}.
  split; [vm_compute; reflexivity|]. split; [reflexivity|].
  destruct (upload_awaits_parse (eng := utcEngine) inbox
              (uploadStatementHandler (eng := utcEngine) inbox user1 acct1 (Some aprilFile)
                 stmt2).1
              user1 acct1 stmt2 aprilFile
              {| st_userId := user1; st_bankAccountId := acct1;
                 st_fileName := "april.pdf"; st_fileType := pdf;
                 st_filePath := Some "uploads/april"; st_parseStatus := parse_pending;
                 st_transactionCount := 0; st_parsedTransactions := [];
                 st_errorMessage := None |})
    as (_ & _ & _ & _ & _ & _ & _ & _ & _ & _ & Hread).
  - apply pair_answer. vm_compute. reflexivity.
  - destruct (Hread eq_refl) as (Hfind & Hget & _). split; [exact Hfind | exact Hget].
Defined.

(** The upload for an account id that is no ObjectId, and the one for an
    account that does not exist: both remove the file that was uploaded. *)
Lemma refused_upload_is_cleaned_up_witness :
  files inbox !! "uploads/april" = Some electricityDocument /\
  castError "acct-1" "_id" "BankAccount"
  = String.concat (String quoteChar EmptyString)
      ["Cast to ObjectId failed for value "; "acct-1"; " (type string) at path "; "_id";
       " for model "; "BankAccount"; EmptyString] /\
  (uploadStatementHandler (eng := utcEngine) inbox user1 "acct-1" (Some aprilFile) stmt2).2
  = Failure 400 (castError "acct-1" "_id" "BankAccount") /\
  files (uploadStatementHandler (eng := utcEngine) inbox user1 "acct-1" (Some aprilFile)
           stmt2).1 !! "uploads/april" = None /\
  (uploadStatementHandler (eng := utcEngine) inbox user2 acct1 (Some aprilFile) stmt2).2
  = Failure 404 "Bank account not found" /\
  files (uploadStatementHandler (eng := utcEngine) inbox user2 acct1 (Some aprilFile)
           stmt2).1 !! "uploads/april" = None.
Proof.
  split; [reflexivity|]. split; [reflexivity|].
  pose proof (refused_upload_is_cleaned_up (eng := utcEngine) inbox user1 "acct-1" stmt2
                aprilFile) as Hcast.
  pose proof (refused_upload_is_cleaned_up (eng := utcEngine) inbox user2 acct1 stmt2
                aprilFile) as Hmissing.
  destruct (uploadStatementHandler (eng := utcEngine) inbox user1 "acct-1" (Some aprilFile)
              stmt2) as [w1 [statement|status1 error1]] eqn:Hfirst;
    [vm_compute in Hfirst; discriminate|].
  destruct (uploadStatementHandler (eng := utcEngine) inbox user2 acct1 (Some aprilFile)
              stmt2) as [w2 [statement|status2 error2]] eqn:Hsecond;
    [vm_compute in Hsecond; discriminate|].
  change (getBankAccountById (eng := utcEngine) inbox "acct-1" user1)
    with (@inl Error (option BankAccount) (castError "acct-1" "_id" "BankAccount")) in Hcast.
  change (getBankAccountById (eng := utcEngine) inbox acct1 user2)
    with (@inr Error (option BankAccount) None) in Hmissing.
  destruct Hcast as (_ & Hgone1 & _ & _ & _ & -> & -> & _).
  destruct Hmissing as (_ & Hgone2 & _ & _ & _ & -> & ->).
  cbn [fst snd]. repeat split; assumption.
Defined.

Lemma parse_then_get_witness :
  map pt_tempId
    (candidatesOf
       (parseStatementHandler (eng := utcEngine)
          (world (upload csv parse_pending []) [] marchDocument) user1 stmt1).2)
  = [Some "temp_1"; Some "temp_2"] /\
  getParsedTransactionsHandler (eng := utcEngine) (parsedWorld marchDocument) user1 stmt1
  = Json {| pd_transactions :=
              map storedParsed
                (candidatesOf
                   (parseStatementHandler (eng := utcEngine)
                      (world (upload csv parse_pending []) [] marchDocument) user1 stmt1).2);
            pd_duplicateCount := 0 |} /\
  map (fun tx => (pt_tempId tx, pt_amount tx, pt_description tx))
    (candidatesOf
       (getParsedTransactionsHandler (eng := utcEngine) (parsedWorld marchDocument)
          user1 stmt1))
  = [(None, Num (450 # 1), "Electricity Bill"); (None, Num (2401 # 2), "Salary")].
Proof.
  split; [vm_compute; reflexivity|].
  assert (Hparse :
            parseStatementHandler (eng := utcEngine)
              (world (upload csv parse_pending []) [] marchDocument) user1 stmt1
            = (parsedWorld marchDocument,
               Json {| pd_transactions :=
                         candidatesOf
                           (parseStatementHandler (eng := utcEngine)
                              (world (upload csv parse_pending []) [] marchDocument)
                              user1 stmt1).2;
                       pd_duplicateCount := 0 |})).
  { apply pair_answer. vm_compute. reflexivity. }
  destruct (parse_then_get (eng := utcEngine) _ _ _ _ _ Hparse) as (Hget & _ & _).
  split; [exact Hget|]. rewrite Hget. vm_compute. reflexivity.
Defined.

Lemma reparse_ignores_review_witness :
  (parseStatementHandler (eng := utcEngine)
     (setStatement (world (upload csv parse_pending []) [] electricityDocument) stmt1
        (withStatus
           (withCount
              (withParsed (upload csv parse_pending [])
                 [candidate "temp_1" 999 "Edited by hand" income]) 1)
           parse_completed))
     user1 stmt1).2
  = (parseStatementHandler (eng := utcEngine)
       (world (upload csv parse_pending []) [] electricityDocument) user1 stmt1).2.
Proof.
  apply (reparse_ignores_review (eng := utcEngine)
           (world (upload csv parse_pending []) [] electricityDocument) user1 stmt1
           (upload csv parse_pending [])).
  reflexivity.
Defined.

(** After the parse of the two rows of March, no edit and no selection by
    id reaches a candidate. *)
Lemma stored_candidates_carry_no_identifier_witness :
  Unlabelled (parsedWorld marchDocument) /\
  List.length <$> (st_parsedTransactions <$> statements (parsedWorld marchDocument) !! stmt1)
  = Some 2%nat /\
  editParsedTransactionHandler (eng := utcEngine) (parsedWorld marchDocument) user1 stmt1
    "temp_1" (amountEdit (Num (500 # 1)))
  = (parsedWorld marchDocument, Failure 404 "Transaction not found") /\
  confirmParsedTransactionsHandler (eng := utcEngine) (parsedWorld marchDocument) user1 stmt1
    {| cb_transactionIds := Some ["temp_1"; "temp_2"]; cb_skipDuplicates := false |}
  = (parsedWorld marchDocument,
     Json {| cd_created := 0; cd_skipped := 0; cd_duplicates := 0 |}).
Proof.
  destruct (stored_candidates_carry_no_identifier (eng := utcEngine))
    as (_ & Hparse & _ & _ & Hedit & Hconfirm).
  assert (Hw : Unlabelled (parsedWorld marchDocument)).
  { apply Hparse. intros id st Hst. unfold world in Hst. cbn [statements] in Hst.
    apply lookup_singleton_Some in Hst as [_ <-]. constructor. }
  split; [exact Hw|]. split; [vm_compute; reflexivity|]. split.
  - destruct (Hedit (parsedWorld marchDocument) user1 stmt1 "temp_1"
                (amountEdit (Num (500 # 1))) Hw) as (status & error & Hanswer & _).
    rewrite Hanswer. f_equal.
    assert (Hsecond : (editParsedTransactionHandler (eng := utcEngine)
                         (parsedWorld marchDocument) user1 stmt1 "temp_1"
                         (amountEdit (Num (500 # 1)))).2
                      = Failure 404 "Transaction not found") by (vm_compute; reflexivity).
    rewrite Hanswer in Hsecond. exact Hsecond.
  - destruct (Hconfirm (parsedWorld marchDocument) user1 stmt1 "temp_1" ["temp_2"] false Hw)
      as [Hworld Hdata].
    rewrite <- Hworld at 2. apply pair_answer.
    assert (Hanswer : exists data,
               (confirmParsedTransactionsHandler (eng := utcEngine)
                  (parsedWorld marchDocument) user1 stmt1
                  {| cb_transactionIds := Some ["temp_1"; "temp_2"];
                     cb_skipDuplicates := false |}).2 = Json data)
      by (eexists; vm_compute; reflexivity).
    destruct Hanswer as [data Hanswer]. rewrite Hanswer. f_equal. exact (Hdata data Hanswer).
Defined.

Lemma confirm_creates_for_caller_witness :
  exists createdTxs,
    transactions
      (confirmParsedTransactionsHandler (eng := utcEngine) salaryWorld user1 stmt1
         (confirmAll false)).1
    = transactions salaryWorld ++ createdTxs /\
    List.length createdTxs = 2%nat /\
    Forall (fun t => tx_userId t = user1) createdTxs.
Proof.
  destruct (confirm_creates_for_caller (eng := utcEngine) salaryWorld
              (confirmParsedTransactionsHandler (eng := utcEngine) salaryWorld user1 stmt1
                 (confirmAll false)).1
              user1 stmt1 (confirmAll false)
              {| cd_created := 2; cd_skipped := 0; cd_duplicates := 0 |})
    as (statement & account & createdTxs & _ & _ & _ & Hledger & _ & Hall).
  - apply pair_answer. vm_compute. reflexivity.
  - exists createdTxs. split; [exact Hledger|]. split.
    + assert (Hlength : List.length
                          (transactions
                             (confirmParsedTransactionsHandler (eng := utcEngine) salaryWorld
                                user1 stmt1 (confirmAll false)).1) = 2%nat)
        by (vm_compute; reflexivity).
      rewrite Hledger in Hlength. exact Hlength.
    + eapply Forall_impl; [exact Hall|]. intros t Ht. apply Ht.
Defined.

(** ** The dates of the extractors

    The matcher is sound for [Matches]; the groups of the three formats of
    [parseDate] are therefore numerals or month names, and the date built
    from them is a valid one. *)

Lemma length_append (s t : string) :
  String.length (String.append s t) = (String.length s + String.length t)%nat.
Proof.
  induction s as [|a s IH]; [reflexivity|].
  rewrite append_cons. cbn [String.length]. rewrite IH. reflexivity.
Qed.

Lemma substring0_append (s t : string) :
  substring0 (String.length s) (String.append s t) = s.
Proof.
  induction s as [|a s IH]; [destruct t; reflexivity|].
  rewrite append_cons. cbn [String.length substring0]. rewrite IH. reflexivity.
Qed.

Lemma consumed_append (pre s' : string) : consumed (String.append pre s') s' = pre.
Proof.
  unfold consumed. rewrite length_append.
  replace (String.length pre + String.length s' - String.length s')%nat
    with (String.length pre) by lia.
  apply substring0_append.
Qed.

Lemma Iter_add (P : string -> captures -> Prop) (n m : nat) :
  forall s1 s2 c1 c2,
    Iter P n s1 c1 -> Iter P m s2 c2 ->
    Iter P (n + m) (String.append s1 s2) (c2 ++ c1).
Proof.
  induction n as [|n IH]; intros s1 s2 c1 c2 H1 H2.
  - destruct H1 as [-> ->]. rewrite append_nil_l, app_nil_r. exact H2.
  - destruct H1 as (a & b & ca & cb & -> & -> & Ha & Hb).
    cbn [Nat.add Iter]. exists a, (String.append b s2), ca, (c2 ++ cb).
    split; [symmetry; apply append_assoc|]. split; [apply app_assoc|].
    split; [exact Ha | apply IH; assumption].
Qed.

Lemma atLeast_sound (step : matcher) (P : string -> captures -> Prop) :
  Sound step P -> forall lo, Sound (atLeast step lo) (Iter P lo).
Proof.
  intros Hstep lo. induction lo as [|lo IH]; intros s c k res Hrun; cbn [atLeast] in Hrun.
  - exists EmptyString, s, []. split; [reflexivity|]. split; [split; reflexivity | exact Hrun].
  - apply Hstep in Hrun as (pre1 & s1 & caps1 & -> & H1 & Hrun).
    apply IH in Hrun as (pre2 & s2 & caps2 & -> & H2 & Hk).
    exists (String.append pre1 pre2), s2, (caps2 ++ caps1).
    split; [apply append_assoc|]. split.
    + cbn [Iter]. exists pre1, pre2, caps1, caps2. auto.
    + rewrite <- app_assoc. exact Hk.
Qed.

Lemma upTo_sound (greedy : bool) (step : matcher) (P : string -> captures -> Prop) :
  Sound step P ->
  forall extra s c k res,
    upTo greedy step extra s c k = Some res ->
    exists n pre s' caps,
      (n <= extra)%nat /\ s = String.append pre s' /\ Iter P n pre caps /\
      k s' (caps ++ c) = Some res.
Proof.
  intros Hstep extra. induction extra as [|extra IH]; intros s c k res Hrun; cbn [upTo] in Hrun.
  - exists 0%nat, EmptyString, s, []. repeat split; [lia | exact Hrun].
  - assert (Hcases : k s c = Some res \/
                     step s c (fun s' c' => upTo greedy step extra s' c' k) = Some res).
    { destruct greedy; unfold orElse in Hrun.
      - destruct (step s c _) as [r|]; [right; exact Hrun | left; exact Hrun].
      - destruct (k s c) as [r|]; [left; exact Hrun | right; exact Hrun]. }
    destruct Hcases as [Hk | Hmore].
    + exists 0%nat, EmptyString, s, []. repeat split; [lia | exact Hk].
    + apply Hstep in Hmore as (pre1 & s1 & caps1 & -> & H1 & Hmore).
      apply IH in Hmore as (n & pre2 & s2 & caps2 & Hn & -> & H2 & Hk).
      exists (S n), (String.append pre1 pre2), s2, (caps2 ++ caps1).
      split; [lia|]. split; [apply append_assoc|]. split.
      * cbn [Iter]. exists pre1, pre2, caps1, caps2. auto.
      * rewrite <- app_assoc. exact Hk.
Qed.

Lemma run_sound (r : regex) : Sound (run r) (Matches r).
Proof.
  induction r as [p| |r1 IH1 r2 IH2|r1 IH1 r2 IH2|greedy lo hi r IH|i r IH];
    intros s c k res Hrun; cbn [run] in Hrun.
  - destruct s as [|a s']; [discriminate|].
    destruct (p a) eqn:Hp; [|discriminate].
    exists (String a EmptyString), s', []. split; [reflexivity|].
    split; [exists a; auto | exact Hrun].
  - exists EmptyString, s, []. split; [reflexivity|]. split; [split; reflexivity | exact Hrun].
  - apply IH1 in Hrun as (pre1 & s1 & caps1 & -> & H1 & Hrun).
    apply IH2 in Hrun as (pre2 & s2 & caps2 & -> & H2 & Hk).
    exists (String.append pre1 pre2), s2, (caps2 ++ caps1).
    split; [apply append_assoc|]. split.
    + cbn [Matches]. exists pre1, pre2, caps1, caps2. auto.
    + rewrite <- app_assoc. exact Hk.
  - unfold orElse in Hrun. destruct (run r1 s c k) as [res1|] eqn:Hleft.
    + injection Hrun as <-. apply IH1 in Hleft as (pre & s' & caps & -> & H1 & Hk).
      exists pre, s', caps. split; [reflexivity|]. split; [left; exact H1 | exact Hk].
    + apply IH2 in Hrun as (pre & s' & caps & -> & H2 & Hk).
      exists pre, s', caps. split; [reflexivity|]. split; [right; exact H2 | exact Hk].
  - apply (atLeast_sound _ _ IH) in Hrun as (pre1 & s1 & caps1 & -> & H1 & Hrun).
    apply (upTo_sound _ _ _ IH) in Hrun as (n & pre2 & s2 & caps2 & Hn & -> & H2 & Hk).
    exists (String.append pre1 pre2), s2, (caps2 ++ caps1).
    split; [apply append_assoc|]. split.
    + cbn [Matches]. exists (lo + n)%nat. split; [lia|]. split.
      * intros h ->. lia.
      * apply Iter_add; assumption.
    + rewrite <- app_assoc. exact Hk.
  - apply IH in Hrun as (pre & s' & caps & -> & H1 & Hk).
    rewrite consumed_append in Hk.
    exists pre, s', ((i, pre) :: caps). split; [reflexivity|].
    split; [exists caps; auto | exact Hk].
Qed.

Lemma exec_sound (r : regex) (s : string) (m : MatchResult) :
  exec r s = Some m -> Matches r (whole m) (groups m).
Proof.
  induction s as [|a s IH].
  - cbn [exec]. destruct (run r EmptyString [] _) as [[s' c]|] eqn:Hrun; [|discriminate].
    intros [= <-]. apply run_sound in Hrun as (pre & s'' & caps & Hs & Hmatch & [= <- <-]).
    cbn [whole groups]. rewrite Hs, consumed_append, app_nil_r. exact Hmatch.
  - cbn [exec]. destruct (run r (String a s) [] _) as [[s' c]|] eqn:Hrun; [|exact IH].
    intros [= <-]. apply run_sound in Hrun as (pre & s'' & caps & Hs & Hmatch & [= <- <-]).
    cbn [whole groups]. rewrite Hs, consumed_append, app_nil_r. exact Hmatch.
Qed.

Lemma Iter_Chr (p : ascii -> bool) (n : nat) :
  forall s c,
    Iter (Matches (Chr p)) n s c ->
    c = [] /\ String.length s = n /\ every p s = true.
Proof.
  induction n as [|n IH]; intros s c H.
  - destruct H as [-> ->]. repeat split.
  - destruct H as (s1 & s2 & c1 & c2 & -> & -> & (a & -> & Hp & ->) & Hrest).
    destruct (IH _ _ Hrest) as (-> & Hlen & Hall).
    rewrite append_cons, append_nil_l. cbn [String.length every].
    rewrite Hp, Hall, Hlen. repeat split.
Qed.

Lemma Matches_rep_digit (lo hi : nat) (s : string) (c : captures) :
  Matches (rep lo hi digit) s c ->
  c = [] /\ every isDigit s = true /\ (lo <= String.length s <= lo + (hi - lo))%nat.
Proof.
  unfold rep, digit. cbn [Matches]. intros (n & Hlo & Hhi & Hiter).
  destruct (Iter_Chr _ _ _ _ Hiter) as (-> & Hlen & Hall).
  specialize (Hhi hi eq_refl). repeat split; [exact Hall | lia | lia].
Qed.

Lemma digit_head (a : ascii) (s : string) :
  isDigit a = true -> takeSign (trimStart (String a s)) = (false, String a s).
Proof.
  intros Ha.
  destruct a as [[] [] [] [] [] [] [] []]; vm_compute in Ha; try discriminate Ha; reflexivity.
Qed.

Lemma takeDigits_every (s : string) :
  every isDigit s = true -> takeDigits s = (s, EmptyString).
Proof.
  induction s as [|a s IH]; [reflexivity|].
  cbn [every takeDigits]. intros [Ha Hs]%andb_true_iff.
  rewrite Ha, (IH Hs). reflexivity.
Qed.

Lemma digitVal_digit (a : ascii) : isDigit a = true -> (0 <= digitVal a <= 9)%Z.
Proof.
  unfold isDigit, digitVal. intros [Hlo Hhi]%andb_true_iff.
  apply Nat.leb_le in Hlo, Hhi. lia.
Qed.

Lemma digitsValue_bound (s : string) :
  forall acc : Z,
    every isDigit s = true -> (0 <= acc)%Z ->
    (0 <= digitsValue acc s < (acc + 1) * 10 ^ Z.of_nat (String.length s))%Z.
Proof.
  induction s as [|a s IH]; intros acc Hall Hacc.
  - cbn. lia.
  - cbn [every] in Hall. apply andb_true_iff in Hall as [Ha Hs].
    pose proof (digitVal_digit a Ha) as Hd.
    cbn [digitsValue String.length].
    specialize (IH (10 * acc + digitVal a)%Z Hs ltac:(lia)).
    rewrite Nat2Z.inj_succ, Z.pow_succ_r by lia.
    assert (Hpow : (0 < 10 ^ Z.of_nat (String.length s))%Z)
      by (apply Z.pow_pos_nonneg; lia).
    nia.
Qed.

Lemma parseInt_numeral (s : string) :
  Numeral s -> exists v, parseInt s = Some v /\ (0 <= v <= 9999)%Z.
Proof.
  intros [Hall Hlen]. destruct s as [|a s]; [cbn in Hlen; lia|].
  pose proof Hall as Hall'. cbn [every] in Hall'. apply andb_true_iff in Hall' as [Ha _].
  unfold parseInt. rewrite (digit_head a s Ha), (takeDigits_every _ Hall).
  eexists. split; [reflexivity|].
  pose proof (digitsValue_bound (String a s) 0 Hall ltac:(lia)) as Hbound.
  assert (Hpow : (10 ^ Z.of_nat (String.length (String a s)) <= 10 ^ 4)%Z)
    by (apply Z.pow_le_mono_r; lia).
  change (10 ^ 4)%Z with 10000%Z in Hpow. lia.
Qed.

Lemma Matches_litCI (lit : string) :
  forall s c, Matches (litCI lit) s c -> c = [] /\ toLowerCase s = toLowerCase lit.
Proof.
  induction lit as [|a lit IH]; intros s c; cbn [litCI Matches].
  - intros [-> ->]. split; reflexivity.
  - intros (s1 & s2 & c1 & c2 & -> & -> & (x & -> & Hx & ->) & Hrest).
    destruct (IH _ _ Hrest) as [-> Hlow].
    rewrite append_cons, append_nil_l. cbn [toLowerCase].
    apply Ascii.eqb_eq in Hx. rewrite Hx, Hlow. split; reflexivity.
Qed.

Lemma letter_head (a : ascii) (s : string) :
  isLower (lowerChar a) = true -> parseInt (String a s) = None.
Proof.
  intros Ha.
  destruct a as [[] [] [] [] [] [] [] []]; vm_compute in Ha; try discriminate Ha; reflexivity.
Qed.

Lemma monthNames_sound (s : string) (c : captures) :
  Matches monthNames s c ->
  c = [] /\ truthy s = true /\ parseInt s = None /\
  exists k, monthIndex months (substring0 3 (toLowerCase s)) = Some k /\ (0 <= k <= 11)%Z.
Proof.
  unfold monthNames. cbn [alts map fold_left Matches]. intros H.
  repeat destruct H as [H | H];
    apply Matches_litCI in H as [-> Hlow];
    (destruct s as [|a s]; [discriminate Hlow|]);
    cbn [toLowerCase] in Hlow |- *; rewrite Hlow; injection Hlow as Ha _;
    (split; [reflexivity|]); (split; [reflexivity|]);
    (split; [apply letter_head; rewrite Ha; reflexivity|]);
    eexists; (split; [reflexivity | lia]).
Qed.

Lemma date_groups (R1 S1 R2 S2 R3 : regex) (w : string) (c : captures) :
  Matches (seqs [Grp 1 R1; S1; Grp 2 R2; S2; Grp 3 R3]) w c ->
  (forall s c, Matches S1 s c -> c = []) ->
  (forall s c, Matches S2 s c -> c = []) ->
  exists g1 g2 g3 c1 c2 c3,
    c = ((3%nat, g3) :: c3) ++ ((2%nat, g2) :: c2) ++ ((1%nat, g1) :: c1) /\
    Matches R1 g1 c1 /\ Matches R2 g2 c2 /\ Matches R3 g3 c3.
Proof.
  cbn [seqs fold_right Matches].
  intros (g1 & r1 & ca & cb & -> & -> & (c1 & -> & H1) &
          (s2 & r2 & cc & cd & -> & -> & Hs1 &
           (g2 & r3 & ce & cf & -> & -> & (c2 & -> & H2) &
            (s4 & r4 & cg & ch & -> & -> & Hs2 &
             (g3 & r5 & ci & cj & -> & -> & (c3 & -> & H3) & [-> ->]))))) HS1 HS2.
  rewrite (HS1 _ _ Hs1), (HS2 _ _ Hs2).
  exists g1, g2, g3, c1, c2, c3. rewrite !app_nil_r. cbn [app].
  rewrite <- app_assoc. auto.
Qed.

Lemma separator_captures (cs : string) (s : string) (c : captures) :
  Matches (oneOf cs) s c -> c = [].
Proof. unfold oneOf. cbn [Matches]. intros (a & _ & _ & ->). reflexivity. Qed.

Lemma dash_or_space_captures (s : string) (c : captures) :
  Matches (Alt (oneOf "-") space) s c -> c = [].
Proof.
  unfold oneOf, space. cbn [Matches]. intros [(a & _ & _ & ->) | (a & _ & _ & ->)]; reflexivity.
Qed.

Lemma numeral_group (lo hi : nat) (s : string) (c : captures) :
  Matches (rep lo hi digit) s c -> (1 <= lo)%nat -> (lo + (hi - lo) <= 4)%nat ->
  c = [] /\ Numeral s.
Proof.
  intros H Hlo Hhi. destruct (Matches_rep_digit _ _ _ _ H) as (-> & Hall & Hlen).
  split; [reflexivity|]. split; [exact Hall | lia].
Qed.

Section ValidDates.
Context `{eng : Engine}.
Hypothesis zone : (Z.abs LocalTZA <= msPerDay)%Z.

Lemma newDate_valid (year month day : Z) :
  (0 <= year <= 12000)%Z -> (-1 <= month <= 9999)%Z -> (0 <= day <= 9999)%Z ->
  isValidDate (newDate (Some year) (Some month) (Some day)) = true.
Proof using zone.
  intros Hyear Hmonth Hday. unfold newDate, timeClip.
  set (yr := if ((0 <=? year) && (year <=? 99))%Z then (1900 + year)%Z else year).
  assert (Hyr : (0 <= yr <= 12000)%Z).
  { subst yr. destruct ((0 <=? year) && (year <=? 99))%Z eqn:Hcentury; [|lia].
    apply andb_true_iff in Hcentury as [_ Hcentury]. apply Z.leb_le in Hcentury. lia. }
  clearbody yr.
  assert (Hdays : (-1000000 <= MakeDay yr month day <= 10000000)%Z).
  { unfold MakeDay, daysFromCivil. cbv zeta.
    destruct (Z.leb_spec (month mod 12 + 1) 2).
    - Z.to_euclidean_division_equations. lia.
    - Z.to_euclidean_division_equations. lia. }
  unfold msPerDay in *.
  destruct (Z.leb_spec (Z.abs (MakeDay yr month day * 86400000 - LocalTZA)) 8640000000000000);
    [reflexivity | lia].
Qed.

Lemma dateOfMatch_numeric (m : MatchResult) (g1 g2 g3 : string) :
  group m 1 = Some g1 -> group m 2 = Some g2 -> group m 3 = Some g3 ->
  Numeral g1 -> Numeral g2 -> Numeral g3 ->
  isValidDate (dateOfMatch m) = true.
Proof using zone.
  intros H1 H2 H3 N1 N2 N3.
  destruct (parseInt_numeral _ N1) as (v1 & Hv1 & Hb1).
  destruct (parseInt_numeral _ N2) as (v2 & Hv2 & Hb2).
  destruct (parseInt_numeral _ N3) as (v3 & Hv3 & Hb3).
  unfold dateOfMatch. cbv zeta. rewrite H1, H2, H3.
  cbn [parseIntOpt]. rewrite Hv1, Hv2, Hv3.
  rewrite bool_decide_eq_true_2 by eauto. rewrite andb_false_r.
  cbn [option_map adjustYear].
  destruct (includes (whole m) g3 && (31 <? v3)%Z);
    apply newDate_valid; try lia; destruct (v3 <? 100)%Z; lia.
Qed.

Lemma dateOfMatch_month (m : MatchResult) (g1 s2 g3 : string) (k : Z) :
  group m 1 = Some g1 -> group m 2 = Some s2 -> group m 3 = Some g3 ->
  Numeral g1 -> Numeral g3 ->
  truthy s2 = true -> parseInt s2 = None ->
  monthIndex months (substring0 3 (toLowerCase s2)) = Some k -> (0 <= k <= 11)%Z ->
  isValidDate (dateOfMatch m) = true.
Proof using zone.
  intros H1 H2 H3 N1 N3 Htruthy Hnan Hmonth Hk.
  destruct (parseInt_numeral _ N1) as (v1 & Hv1 & Hb1).
  destruct (parseInt_numeral _ N3) as (v3 & Hv3 & Hb3).
  unfold dateOfMatch. cbv zeta. rewrite H1, H2, H3.
  cbn [parseIntOpt]. rewrite Hv1, Hv3, Hnan, Htruthy, Hmonth.
  rewrite bool_decide_eq_false_2 by (intros [x Hx]; discriminate).
  cbn [negb andb adjustYear].
  apply newDate_valid; try lia; destruct (v3 <? 100)%Z; lia.
Qed.

Lemma parseDate_valid (dateStr : string) (date : JSDate) :
  parseDate dateStr = Some date -> isValidDate date = true.
Proof using zone.
  unfold parseDate. destruct (negb (truthy dateStr)); [discriminate|].
  unfold formats. cbn [parseDate_formats].
  destruct (exec _ dateStr) as [m|] eqn:Hexec.
  { intros [= <-]. apply exec_sound in Hexec.
    apply date_groups in Hexec as (g1 & g2 & g3 & c1 & c2 & c3 & Hc & H1 & H2 & H3);
      try apply separator_captures.
    apply numeral_group in H1 as [-> N1]; [|cbn; lia..].
    apply numeral_group in H2 as [-> N2]; [|cbn; lia..].
    apply numeral_group in H3 as [-> N3]; [|cbn; lia..].
    apply (dateOfMatch_numeric m g1 g2 g3); try assumption;
      unfold group; rewrite Hc; reflexivity. }
  clear Hexec. destruct (exec _ dateStr) as [m|] eqn:Hexec.
  { intros [= <-]. apply exec_sound in Hexec.
    apply date_groups in Hexec as (g1 & g2 & g3 & c1 & c2 & c3 & Hc & H1 & H2 & H3);
      try apply separator_captures.
    apply numeral_group in H1 as [-> N1]; [|cbn; lia..].
    apply numeral_group in H2 as [-> N2]; [|cbn; lia..].
    apply numeral_group in H3 as [-> N3]; [|cbn; lia..].
    apply (dateOfMatch_numeric m g1 g2 g3); try assumption;
      unfold group; rewrite Hc; reflexivity. }
  clear Hexec. destruct (exec _ dateStr) as [m|] eqn:Hexec.
  { intros [= <-]. apply exec_sound in Hexec.
    apply date_groups in Hexec as (g1 & g2 & g3 & c1 & c2 & c3 & Hc & H1 & H2 & H3);
      try apply dash_or_space_captures.
    apply numeral_group in H1 as [-> N1]; [|cbn; lia..].
    apply monthNames_sound in H2 as (-> & Htruthy & Hnan & k & Hmonth & Hk).
    apply numeral_group in H3 as [-> N3]; [|cbn; lia..].
    apply (dateOfMatch_month m g1 g2 g3 k); try assumption;
      unfold group; rewrite Hc; reflexivity. }
  destruct (isValidDate (Date_parse dateStr)) eqn:Hvalid; [|discriminate].
  intros [= <-]. exact Hvalid.
Qed.

Lemma parseCSVRows_valid (cols : Columns) (lines : list string) :
  forall i, Forall (fun tx => isValidDate (pt_date tx) = true) (parseCSVRows cols i lines).
Proof using zone.
  induction lines as [|l lines IH]; intros i; cbn [parseCSVRows].
  - constructor.
  - destruct (parseCSVRow cols i l) as [tx|] eqn:Hrow; [|apply IH].
    constructor; [|apply IH].
    pose proof (parseCSVRow_fields _ _ _ _ Hrow) as Hfields. cbv zeta in Hfields.
    destruct Hfields as (dateStr & _ & _ & _ & _ & Hdate & _).
    exact (parseDate_valid _ _ Hdate).
Qed.

Lemma candidateOfMatch_date (m : MatchResult) (tempId : nat) (tx : ParsedTransaction) :
  candidateOfMatch m tempId = Some tx -> exists s, parseDate s = Some (pt_date tx).
Proof.
  unfold candidateOfMatch. intros Hc.
  destruct (match group m 3 with
            | Some s3 => truthy s3 && isNaN (parseFloat s3)
            | None => false
            end); cbv beta iota zeta in Hc.
  - destruct (group m 3) as [s3|]; cbn [parseDateOpt] in Hc; [|discriminate].
    destruct (parseDate s3) as [date|] eqn:Hdate; [|discriminate].
    destruct (group m 1) as [description|]; [|discriminate].
    destruct (_ && _); [|discriminate].
    injection Hc as <-. exists s3. exact Hdate.
  - destruct (group m 1) as [s1|]; cbn [parseDateOpt] in Hc; [|discriminate].
    destruct (parseDate s1) as [date|] eqn:Hdate; [|discriminate].
    destruct (orString _ _) as [description|]; [|discriminate].
    destruct (_ && _); [|discriminate].
    injection Hc as <-. exists s1. exact Hdate.
Qed.

Lemma tryPatterns_valid (ps : list regex) (line : string) (tempId : nat) (tx : ParsedTransaction) :
  tryPatterns ps line tempId = Some tx -> isValidDate (pt_date tx) = true.
Proof using zone.
  induction ps as [|p ps IH]; cbn [tryPatterns]; [discriminate|].
  destruct (exec p line) as [m|]; [|exact IH].
  destruct (candidateOfMatch m tempId) as [tx'|] eqn:Hc; [|exact IH].
  intros [= <-]. destruct (candidateOfMatch_date _ _ _ Hc) as [s Hs].
  exact (parseDate_valid _ _ Hs).
Qed.

Lemma parsePDFLines_valid (lines : list string) :
  forall tempId,
    Forall (fun tx => isValidDate (pt_date tx) = true) (parsePDFLines tempId lines).
Proof using zone.
  induction lines as [|l lines IH]; intros tempId; cbn [parsePDFLines].
  - constructor.
  - destruct (negb (truthy (trim l))); [apply IH|].
    destruct (tryPatterns patterns (trim l) tempId) as [tx|] eqn:Htry; [|apply IH].
    constructor; [eapply tryPatterns_valid; eassumption | apply IH].
Qed.

Lemma detectDuplicates_valid (ledger : Ledger) (userId accountId : string)
    (txs : list ParsedTransaction) :
  Forall (fun tx => isValidDate (pt_date tx) = true) txs ->
  exists out, detectDuplicates ledger userId txs accountId = inr out.
Proof.
  intros Hvalid. unfold detectDuplicates, checkDuplicates.
  match goal with
  | |- context [checkDuplicates_loop ?l ?u ?inputs ?m0] =>
      pose proof (checkDuplicates_loop_error l u inputs m0) as Hloop;
      destruct (checkDuplicates_loop l u inputs m0) as [e|m]
  end; [|eauto].
  destruct Hloop as [_ Hbad]. exfalso.
  apply Exists_exists in Hbad as (input & Hin & Hinvalid).
  apply list_elem_of_In, in_map_iff in Hin as (tx & <- & Htx).
  rewrite Forall_forall in Hvalid. specialize (Hvalid tx (proj2 (list_elem_of_In _ _) Htx)).
  cbn [hi_date] in Hinvalid. congruence.
Qed.

(** X30. With a time zone within a day of UTC, every date that the two
    extractors return is a valid one, so the fingerprint of a candidate
    never throws: the extraction of [parseStatementHandler] fails only
    because the file cannot be read, because [pdfParse] throws on a PDF, or
    because a tabular document has fewer than two lines; in every other
    case it returns candidates, one for each candidate of the extractor. *)
Theorem extraction_fails_only_on_the_file :
  (forall text, Forall (fun tx => isValidDate (pt_date tx) = true) (parsePDFStatement text)) /\
  (forall fileContent transactions,
      parseCSVStatement fileContent = inr transactions ->
      Forall (fun tx => isValidDate (pt_date tx) = true) transactions) /\
  (forall w userId statement filePath e,
      extract w userId statement filePath = inl e ->
      (files w !! filePath = None /\ e = "ENOENT: no such file or directory") \/
      (exists fileContent,
          files w !! filePath = Some fileContent /\ st_fileType statement = pdf /\
          pdfParse fileContent = inl e) \/
      (exists fileContent,
          files w !! filePath = Some fileContent /\ st_fileType statement = csv /\
          (List.length (split "010" (trim fileContent)) < 2)%nat /\
          e = "CSV file is empty or invalid")) /\
  (forall w userId statement filePath fileContent,
      files w !! filePath = Some fileContent ->
      match st_fileType statement with
      | pdf =>
          forall text, pdfParse fileContent = inr text ->
                       exists out, extract w userId statement filePath = inr out /\
                                   List.length out = List.length (parsePDFStatement text)
      | csv =>
          (2 <= List.length (split "010" (trim fileContent)))%nat ->
          exists parsed out,
            parseCSVStatement fileContent = inr parsed /\
            extract w userId statement filePath = inr out /\
            List.length out = List.length parsed
      end).
Proof using zone.
  assert (Hcsv : forall fileContent transactions,
             parseCSVStatement fileContent = inr transactions ->
             Forall (fun tx => isValidDate (pt_date tx) = true) transactions).
  { intros fileContent transactions. unfold parseCSVStatement. cbv zeta.
    destruct (_ <? 2)%nat; [discriminate|]. intros [= <-]. apply parseCSVRows_valid. }
  assert (Hflagged : forall ledger userId accountId parsed,
             Forall (fun tx => isValidDate (pt_date tx) = true) parsed ->
             exists out, detectDuplicates ledger userId parsed accountId = inr out /\
                         List.length out = List.length parsed).
  { intros ledger userId accountId parsed Hvalid.
    destruct (detectDuplicates_valid ledger userId accountId parsed Hvalid) as [out Hout].
    exists out. split; [exact Hout|].
    unfold detectDuplicates in Hout.
    destruct (checkDuplicates ledger userId _); [discriminate|].
    injection Hout as <-. apply length_map. }
  split; [intros text; apply parsePDFLines_valid|]. split; [exact Hcsv|]. split.
  - intros w userId statement filePath e. unfold extract, readFile.
    destruct (files w !! filePath) as [fileContent|]; [|intros [= <-]; left; auto].
    destruct (st_fileType statement) eqn:Htype.
    + destruct (pdfParse fileContent) as [thrown|text] eqn:Hpdf.
      * intros [= <-]. right. left. exists fileContent. auto.
      * destruct (Hflagged (transactions w) userId (st_bankAccountId statement)
                    (parsePDFStatement text) (parsePDFLines_valid _ _)) as (out & -> & _).
        discriminate.
    + destruct (parseCSVStatement fileContent) as [e'|parsed] eqn:Hparse.
      * intros [= <-]. right. right. exists fileContent.
        unfold parseCSVStatement in Hparse. cbv zeta in Hparse.
        destruct (Nat.ltb_spec (List.length (split "010" (trim fileContent))) 2);
          [|discriminate].
        injection Hparse as <-. auto.
      * destruct (Hflagged (transactions w) userId (st_bankAccountId statement)
                    parsed (Hcsv _ _ Hparse)) as (out & -> & _).
        discriminate.
  - intros w userId statement filePath fileContent Hfile. unfold extract, readFile.
    rewrite Hfile. destruct (st_fileType statement).
    + intros text ->.
      exact (Hflagged (transactions w) userId (st_bankAccountId statement)
               (parsePDFStatement text) (parsePDFLines_valid _ _)).
    + intros Hlines.
      destruct (parseCSVStatement fileContent) as [e|parsed] eqn:Hparse.
      { unfold parseCSVStatement in Hparse. cbv zeta in Hparse.
        destruct (Nat.ltb_spec (List.length (split "010" (trim fileContent))) 2);
          [lia | discriminate]. }
      destruct (Hflagged (transactions w) userId (st_bankAccountId statement)
                  parsed (Hcsv _ _ Hparse)) as (out & Hout & Hlength).
      exists parsed, out. rewrite Hout. auto.
Qed.

End ValidDates.

(** The two rows of March and a line of a PDF get valid dates; a file
    that is no PDF makes the extraction fail with the message of
    [pdfParse], and so the parse. *)
Lemma extraction_fails_only_on_the_file_witness :
  (Z.abs (LocalTZA (Engine := utcEngine)) <= msPerDay)%Z /\
  List.length (parsePDFStatement (eng := utcEngine) "01/03/2024 -450.00 7 Eleven") = 1%nat /\
  Forall (fun tx => isValidDate (pt_date tx) = true)
    (parsePDFStatement (eng := utcEngine) "01/03/2024 -450.00 7 Eleven") /\
  (exists transactions,
      parseCSVStatement (eng := utcEngine) marchDocument = inr transactions /\
      List.length transactions = 2%nat /\
      Forall (fun tx => isValidDate (pt_date tx) = true) transactions) /\
  extract (eng := utcEngine) (world (upload pdf parse_pending []) [] "no PDF") user1
    (upload pdf parse_pending []) "uploads/march"
  = inl "Invalid PDF structure" /\
  pdfParse (Engine := utcEngine) "no PDF" = inl "Invalid PDF structure".
Proof.
  assert (Hzone : (Z.abs (LocalTZA (Engine := utcEngine)) <= msPerDay)%Z)
    by (unfold msPerDay; cbn; lia).
  destruct (extraction_fails_only_on_the_file (eng := utcEngine) Hzone)
    as (Hpdf & Hcsv & Hfails & _).
  split; [exact Hzone|]. split; [vm_compute; reflexivity|]. split; [apply Hpdf|].
  split.
  { assert (Hrows : exists transactions,
               parseCSVStatement (eng := utcEngine) marchDocument = inr transactions /\
               List.length transactions = 2%nat)
      by (eexists; split; vm_compute; reflexivity).
    destruct Hrows as (transactions & Hparse & Hlength).
    exists transactions. split; [exact Hparse|]. split; [exact Hlength|].
    exact (Hcsv marchDocument transactions Hparse). }
  assert (Hextract : extract (eng := utcEngine) (world (upload pdf parse_pending []) [] "no PDF")
                       user1 (upload pdf parse_pending []) "uploads/march"
                     = inl "Invalid PDF structure") by (vm_compute; reflexivity).
  split; [exact Hextract|].
  destruct (Hfails _ _ _ _ _ Hextract)
    as [[Hmissing _] | [(fileContent & Hfile & _ & Hthrown) | (fileContent & _ & Hkind & _)]].
  - vm_compute in Hmissing. discriminate.
  - unfold world in Hfile. cbn [files] in Hfile.
    apply lookup_singleton_Some in Hfile as [_ <-]. exact Hthrown.
  - discriminate.
Defined.
